(** * Aviation-Safety-Network scraper: pagination and extraction protocol

    A shallow embedding of [src/asn_scraper.py] (class [ASNScraper]) and the
    properties of its page analyzer, detail extractor and two-phase crawl.

    Modelling conventions.
    - A Python [str] is a [string]; its characters are the code points below
      256, so the whitespace class is the one of [str.isspace] restricted to
      that range and [\d] is ['0'..'9'].
    - A Python [int] is a [Z]; [int(s)] on a run of digits is [int_of_digits],
      whatever the length of the run (an interpreter's cap on that length is
      not modelled).
    - A parsed document is a tree of tags and text ([node]); the queries
      [find], [find_all], [get_text] walk it the way BeautifulSoup does.
      Comments and the like, which [get_text] skips, are left out.
      Turning the response body into that tree is the parser's work and is
      not modelled: the server hands out trees.
    - [re.search] is a backtracking matcher written with continuations, tried
      at every start position from the left.
    - Exceptions are values of [error], one constructor per [raise] site;
      stateful code runs in a state-and-exception monad [M] over [world]
      (request counter, log, output file).  [while True] loops take fuel.
    - Pauses ([time.sleep]) have no counterpart.  Of the file system the
      world keeps the output file only; [os.makedirs] is modelled by the
      paths it refuses, and writes to the file are taken to succeed. *)

From Stdlib Require Import ZArith List Bool Ascii String Lia.
From Stdlib Require Import DecimalString.
From Stdlib Require DecimalPos DecimalZ.
Import ListNotations.

Set Warnings "-register-all".

Open Scope string_scope.
Open Scope Z_scope.

(** ** Characters and strings *)

(** [\d] on the modelled alphabet. *)
Definition is_digit (c : ascii) : bool :=
  let n := nat_of_ascii c in (48 <=? n)%nat && (n <=? 57)%nat.

(** [\s] and [str.isspace]: TAB, LF, VT, FF, CR, FS, GS, RS, US, SPACE,
    NEL and NBSP. *)
Definition is_space (c : ascii) : bool :=
  let n := nat_of_ascii c in
  ((9 <=? n)%nat && (n <=? 13)%nat)
  || ((28 <=? n)%nat && (n <=? 32)%nat)
  || (n =? 133)%nat || (n =? 160)%nat.

Definition is_colon (c : ascii) : bool := Ascii.eqb c ":".

Definition digit_value (c : ascii) : Z := Z.of_nat (nat_of_ascii c) - 48.

Fixpoint int_acc (acc : Z) (s : string) : Z :=
  match s with
  | EmptyString => acc
  | String c s' => int_acc (10 * acc + digit_value c) s'
  end.

(** [int(s)] for [s] a run of decimal digits. *)
Definition int_of_digits (s : string) : Z := int_acc 0 s.

(** [str(n)] for an [int]. *)
Definition str_of_int (n : Z) : string := NilZero.string_of_int (Z.to_int n).

Fixpoint all_chars (p : ascii -> bool) (s : string) : bool :=
  match s with
  | EmptyString => true
  | String c s' => p c && all_chars p s'
  end.

(** The head of [s], when there is one, is outside the class [p]. *)
Definition stops (p : ascii -> bool) (s : string) : bool :=
  match s with
  | EmptyString => true
  | String c _ => negb (p c)
  end.

Fixpoint lstrip_by (p : ascii -> bool) (s : string) : string :=
  match s with
  | EmptyString => EmptyString
  | String c s' => if p c then lstrip_by p s' else s
  end.

Fixpoint rstrip_by (p : ascii -> bool) (s : string) : string :=
  match s with
  | EmptyString => EmptyString
  | String c s' =>
      match rstrip_by p s' with
      | EmptyString => if p c then EmptyString else String c EmptyString
      | r => String c r
      end
  end.

(** [s.strip()] *)
Definition strip (s : string) : string := lstrip_by is_space (rstrip_by is_space s).

(** [s.rstrip(':')] *)
Definition rstrip_colon (s : string) : string := rstrip_by is_colon s.

(** [s.lower()] on the letters ['A'..'Z']. *)
Definition lower_char (c : ascii) : ascii :=
  let n := nat_of_ascii c in
  if (65 <=? n)%nat && (n <=? 90)%nat then ascii_of_nat (n + 32) else c.

Fixpoint lower (s : string) : string :=
  match s with
  | EmptyString => EmptyString
  | String c s' => String (lower_char c) (lower s')
  end.

(** ** Regular expressions used by the page analyzer *)

Module Re.

Section Matcher.
Context {R : Type}.

(** A literal: the rest of the input is passed on when [p] is a prefix. *)
Fixpoint lit (p s : string) (k : string -> option R) : option R :=
  match p with
  | EmptyString => k s
  | String a p' =>
      match s with
      | EmptyString => None
      | String b s' => if Ascii.eqb a b then lit p' s' k else None
      end
  end.

(** Greedy [c*] with its matched text: the longest run first, then one
    character less on failure of the continuation. *)
Fixpoint star_cap (c : ascii -> bool) (s : string)
         (k : string -> string -> option R) : option R :=
  match s with
  | EmptyString => k EmptyString s
  | String a s' =>
      if c a then
        match star_cap c s' (fun g rest => k (String a g) rest) with
        | Some r => Some r
        | None => k EmptyString s
        end
      else k EmptyString s
  end.

(** Greedy [c+] with its matched text. *)
Definition plus_cap (c : ascii -> bool) (s : string)
           (k : string -> string -> option R) : option R :=
  match s with
  | EmptyString => None
  | String a s' =>
      if c a then star_cap c s' (fun g rest => k (String a g) rest) else None
  end.

Definition star (c : ascii -> bool) (s : string) (k : string -> option R) : option R :=
  star_cap c s (fun _ rest => k rest).

Definition plus (c : ascii -> bool) (s : string) (k : string -> option R) : option R :=
  plus_cap c s (fun _ rest => k rest).

(** [re.search]: the first start position, from the left, at which the
    pattern matches. *)
Fixpoint search (m : string -> option R) (s : string) : option R :=
  match m s with
  | Some r => Some r
  | None =>
      match s with
      | EmptyString => None
      | String _ s' => search m s'
      end
  end.
End Matcher.

(** [(\d+)\s*occurrences], returning group 1. *)
Definition total_at (s : string) : option string :=
  plus_cap is_digit s (fun g1 r1 =>
  star is_space r1 (fun r2 =>
  lit "occurrences" r2 (fun _ => Some g1))).

(** [showing occurrence\s+(\d+)\s*-\s*(\d+)], returning groups 1 and 2. *)
Definition range_at (s : string) : option (string * string) :=
  lit "showing occurrence" s (fun r0 =>
  plus is_space r0 (fun r1 =>
  plus_cap is_digit r1 (fun g1 r2 =>
  star is_space r2 (fun r3 =>
  lit "-" r3 (fun r4 =>
  star is_space r4 (fun r5 =>
  plus_cap is_digit r5 (fun g2 _ => Some (g1, g2)))))))).

Definition search_total (text : string) : option string := search total_at text.
Definition search_range (text : string) : option (string * string) := search range_at text.

End Re.

(** ** Parsed documents *)

(** A tag carries its attributes as written; a multi-valued attribute such
    as [class] is read as its list of tokens when it is matched. *)
Inductive node :=
| Text (s : string)
| Tag (name : string) (attrs : list (string * string)) (children : list node).

Fixpoint assoc {A} (k : string) (l : list (string * A)) : option A :=
  match l with
  | [] => None
  | (k', v) :: l' => if String.eqb k k' then Some v else assoc k l'
  end.

(** All nodes below [n], in document order. *)
Fixpoint descendants (n : node) : list node :=
  match n with
  | Text _ => []
  | Tag _ _ cs =>
      (fix go (l : list node) : list node :=
         match l with
         | [] => []
         | c :: l' => c :: descendants c ++ go l'
         end) cs
  end.

Definition mem_string (v : string) (l : list string) : bool :=
  existsb (String.eqb v) l.

Definition join_space (l : list string) : string := String.concat " " l.

(** The maximal runs of non-whitespace characters of [s]. *)
Fixpoint tokens (s : string) : list string :=
  match s with
  | EmptyString => []
  | String c s' =>
      if is_space c then tokens s'
      else if stops (fun a => negb (is_space a)) s' then String c EmptyString :: tokens s'
      else match tokens s' with
           | t :: ts => String c t :: ts
           | [] => [String c EmptyString]
           end
  end.

Definition multi_valued (key : string) : bool := String.eqb key "class".

(** Does the attribute [key] with value [x] satisfy the filter value [v]?
    A token list matches when one token, or the joined list, is [v]. *)
Definition attr_matches (key v x : string) : bool :=
  if multi_valued key
  then mem_string v (tokens x) || String.eqb (join_space (tokens x)) v
  else String.eqb x v.

Definition is_tag (name : string) (n : node) : bool :=
  match n with
  | Tag t _ _ => String.eqb t name
  | Text _ => false
  end.

Definition has_attr (key v : string) (n : node) : bool :=
  match n with
  | Tag _ attrs _ =>
      match assoc key attrs with
      | Some x => attr_matches key v x
      | None => false
      end
  | Text _ => false
  end.

(** [n.find(name, {key: v})] *)
Definition find_with (name key v : string) (n : node) : option node :=
  List.find (fun d => is_tag name d && has_attr key v d) (descendants n).

(** [n.find(name)] *)
Definition find_tag (name : string) (n : node) : option node :=
  List.find (is_tag name) (descendants n).

(** [n.find_all(name)] *)
Definition find_all (name : string) (n : node) : list node :=
  List.filter (is_tag name) (descendants n).

(** The strings below [n], in document order. *)
Definition strings_of (n : node) : list string :=
  flat_map (fun d => match d with Text s => [s] | Tag _ _ _ => [] end) (descendants n).

(** [n.get_text()] *)
Definition get_text (n : node) : string := String.concat "" (strings_of n).

Definition nonempty (s : string) : bool :=
  match s with EmptyString => false | String _ _ => true end.

(** [n.get_text(strip=True)]: every string stripped, the empty ones dropped. *)
Definition get_text_strip (n : node) : string :=
  String.concat "" (List.filter nonempty (List.map strip (strings_of n))).

(** ** Records, exceptions, the world *)

(** A [dict] from field name to value, in insertion order. *)
Definition dict := list (string * string).

(** [key in d] *)
Definition dict_mem (key : string) (d : dict) : bool :=
  existsb (fun kv => String.eqb key (fst kv)) d.

(** [d[key]] *)
Definition dict_get (key : string) (d : dict) : option string := assoc key d.

(** [d[key] = value]: an existing key keeps its place, a new one goes last. *)
Fixpoint dict_set (key value : string) (d : dict) : dict :=
  match d with
  | [] => [(key, value)]
  | (k, v) :: d' =>
      if String.eqb key k then (k, value) :: d' else (k, v) :: dict_set key value d'
  end.

Definition keys (d : dict) : list string := List.map fst d.

(** [pd.DataFrame(all_samples)]: one row per record. *)
Definition DataFrame := list dict.

(** One constructor per [raise] site, with the values its message shows. *)
Inductive error :=
| Request_failed (url : string)                       (* line 42 *)
| No_response                                         (* loop of line 34 left without a response *)
| Content_wrapper_not_found                           (* line 52 *)
| Caption_not_found                                   (* line 57 *)
| Total_not_found (text : string)                     (* line 64 *)
| Invalid_range (start end_ total_accidents : Z)      (* line 79 *)
| Table_not_found                                     (* line 88 *)
| Total_mismatch (total_accidents page_total : Z)     (* line 161 *)
| Total_changed (total_accidents page_total : Z)      (* line 207 *)
| Links_mismatch (expected_links : Z) (got : nat).    (* line 215 *)

(** The error classes of the specification: what the caller is told went
    wrong.  The code raises [ValueError] at every site but the first two. *)
Inductive error_class := FetchError | ParseError | ValidationError.

Definition classify (e : error) : error_class :=
  match e with
  | Request_failed _ | No_response => FetchError
  | Content_wrapper_not_found | Caption_not_found
  | Total_not_found _ | Table_not_found => ParseError
  | Invalid_range _ _ _ | Total_mismatch _ _
  | Total_changed _ _ | Links_mismatch _ _ => ValidationError
  end.

Inductive result (A : Type) :=
| Ok (a : A)
| Err (e : error).
Arguments Ok {A} a.
Arguments Err {A} e.

(** Console and log lines, with the values they show. *)
Inductive event :=
| Warning_attempt (attempt : nat) (url : string)              (* line 40 *)
| Print_analyzing (year : Z)                                  (* line 147 *)
| Print_page (page n : nat) (start_range end_range : Z)       (* line 166 *)
| Error_analyzing (page : nat) (e : error)                    (* line 175 *)
| Print_found (total_accidents : Z) (page : nat)              (* line 178 *)
| Print_cancelled                                             (* line 181 *)
| Print_starting                                              (* line 192 *)
| Info_processing_page (page : nat)                           (* line 195 *)
| Info_processing_range (start_range end_range total : Z)     (* line 209 *)
| Info_processing_accident (i n page : nat)                   (* line 219 *)
| Info_progress_saved (n : nat)                               (* line 227 *)
| Error_processing_link (link : string) (e : error)           (* line 231 *)
| Info_reached_end (page : nat)                               (* line 235 *)
| Error_processing_page (page : nat) (e : error)              (* line 243 *)
| Info_saved (n : nat) (output_file : string)                 (* line 249 *)
| Print_summary (n page : nat) (total_accidents : Z).         (* lines 252-253 *)

(** What a GET brings back: a transport or status failure, or a document. *)
Inductive response :=
| Failure
| Body (soup : node).

(** The remote site: the reply to the [n]-th request of the run, by URL.
    Replies may change from one request to the next. *)
Definition server := nat -> string -> response.

Record world := World {
  clock : nat;                          (* requests issued so far *)
  log : list event;                     (* oldest first *)
  file : option (string * DataFrame)    (* path and rows of the last [to_csv] *)
}.

Definition tick (w : world) : world :=
  World (S (clock w)) (log w) (file w).

Definition emit (e : event) (w : world) : world :=
  World (clock w) (log w ++ [e])%list (file w).

Definition to_csv (output_file : string) (df : DataFrame) (w : world) : world :=
  World (clock w) (log w) (Some (output_file, df)).

(** State and exceptions. *)
Definition M (A : Type) : Type := world -> result A * world.

Definition ret {A} (a : A) : M A := fun w => (Ok a, w).
Definition raise {A} (e : error) : M A := fun w => (Err e, w).
Definition lift {A} (r : result A) : M A := fun w => (r, w).
Definition say (e : event) : M unit := fun w => (Ok tt, emit e w).

Definition bind {A B} (m : M A) (f : A -> M B) : M B :=
  fun w =>
    match m w with
    | (Ok a, w') => f a w'
    | (Err e, w') => (Err e, w')
    end.

Notation "x <- m ;; k" := (bind m (fun x => k))
  (at level 61, m at next level, right associativity).
Notation "' p <- m ;; k" := (bind m (fun x => match x with p => k end))
  (at level 61, p pattern, m at next level, right associativity).
Notation "m ;;; k" := (bind m (fun _ => k))
  (at level 61, right associativity).

(** ** The scraper *)

Section ASNScraper.
(** [self.session] reaches the site [srv]; [self.base_url]. *)
Variable srv : server.
Variable base_url : string.

Definition max_retries : nat := 3.

(** The loop of [_make_request] from attempt number [attempt], with
    [remaining] attempts to go. *)
Fixpoint request_loop (url : string) (attempt remaining : nat) : M node :=
  fun w =>
    match remaining with
    | O => (Err No_response, w)
    | S remaining' =>
        match srv (clock w) url with
        | Body soup => (Ok soup, tick w)
        | Failure =>
            let w1 := emit (Warning_attempt (attempt + 1) url) (tick w) in
            if (attempt =? max_retries - 1)%nat
            then (Err (Request_failed url), w1)
            else request_loop url (S attempt) remaining' w1
        end
    end.

Definition _make_request (url : string) : M node :=
  request_loop url 0 max_retries.

Definition _get_page_info (soup : node) (year : Z) (page : nat) : result (Z * Z * Z) :=
  match find_with "div" "id" "contentwrapper" soup with
  | None => Err Content_wrapper_not_found
  | Some content =>
      match find_with "span" "class" "caption" content with
      | None => Err Caption_not_found
      | Some caption =>
          let text := get_text caption in
          match Re.search_total text with
          | None => Err (Total_not_found text)
          | Some g =>
              let total_accidents := int_of_digits g in
              let '(start, end_) :=
                match Re.search_range text with
                | Some (g1, g2) => (int_of_digits g1, int_of_digits g2)
                | None => (1, Z.min 100 total_accidents)
                end in
              if (1 <=? start) && (start <=? end_) && (end_ <=? total_accidents)
              then Ok (total_accidents, start, end_)
              else Err (Invalid_range start end_ total_accidents)
          end
      end
  end.

(** The link of one listing row, when it has one. *)
Definition row_link (row : node) : list string :=
  match find_tag "a" row with
  | Some (Tag _ attrs _) =>
      match assoc "href" attrs with
      | Some href => [base_url ++ href]
      | None => []
      end
  | _ => []
  end.

Definition _get_page_links (soup : node) : result (list string) :=
  match find_with "table" "class" "hp" soup with
  | None => Err Table_not_found
  | Some table => Ok (flat_map row_link (List.tl (find_all "tr" table)))
  end.

Definition field_names : list string :=
  [ "Date"; "Time"; "Type"; "Owner/operator"; "Registration"; "MSN";
    "Year of manufacture"; "Engine model"; "Fatalities"; "Other fatalities";
    "Aircraft damage"; "Category"; "Location"; "Phase"; "Nature";
    "Departure airport"; "Destination airport"; "Investigating agency";
    "Confidence Rating"; "URL" ].

(** The [details] literal of lines 100-121. *)
Definition initial_details (url : string) : dict :=
  [ ("Date", ""); ("Time", ""); ("Type", ""); ("Owner/operator", "");
    ("Registration", ""); ("MSN", ""); ("Year of manufacture", "");
    ("Engine model", ""); ("Fatalities", ""); ("Other fatalities", "");
    ("Aircraft damage", ""); ("Category", ""); ("Location", "");
    ("Phase", ""); ("Nature", ""); ("Departure airport", "");
    ("Destination airport", ""); ("Investigating agency", "");
    ("Confidence Rating", ""); ("URL", url) ].

(** The key and value a row offers, when it has two cells or more. *)
Definition row_entry (row : node) : option (string * string) :=
  match find_all "td" row with
  | c0 :: c1 :: _ => Some (rstrip_colon (get_text_strip c0), get_text_strip c1)
  | _ => None
  end.

(** Body of the loop of lines 130-136. *)
Definition process_row (details : dict) (row : node) : dict :=
  match row_entry row with
  | Some (key, value) =>
      if dict_mem key details then dict_set key value details else details
  | None => details
  end.

(** Lines 126-138: what the extractor does with the fetched document. *)
Definition details_of (soup : node) (url : string) : dict :=
  match find_all "table" soup with
  | main_table :: _ =>
      List.fold_left process_row (find_all "tr" main_table) (initial_details url)
  | [] => initial_details url
  end.

Definition _extract_accident_details (url : string) : M dict :=
  soup <- _make_request url ;;
  ret (details_of soup url).

(** ** [scrape_year] *)

Definition listing_url (year : Z) (page : nat) : string :=
  base_url ++ "/database/year/" ++ str_of_int year ++ "/" ++ str_of_int (Z.of_nat page).

(** Try-body of the analysis loop, lines 151-168: the total in force, the
    page counts, and whether the last page was reached. *)
Definition analyze_page (year : Z) (page : nat) (total_accidents : option Z)
           (page_counts : list nat) : M (Z * list nat * bool) :=
  soup <- _make_request (listing_url year page) ;;
  '(page_total, start_range, end_range) <- lift (_get_page_info soup year page) ;;
  total <- match total_accidents with
           | None => ret page_total
           | Some t =>
               if t =? page_total then ret t
               else raise (Total_mismatch t page_total)
           end ;;
  page_links <- lift (_get_page_links soup) ;;
  say (Print_page page (List.length page_links) start_range end_range) ;;;
  ret (total, (page_counts ++ [List.length page_links])%list, end_range >=? total).

(** How the analysis loop of lines 148-176 ends. *)
Inductive analysis :=
| Failed
| Confirmed (page : nat) (total_accidents : Z) (page_counts : list nat).

Fixpoint analysis_loop (fuel : nat) (year : Z) (page : nat)
         (total_accidents : option Z) (page_counts : list nat)
         (w : world) : option analysis * world :=
  match fuel with
  | O => (None, w)
  | S fuel' =>
      match analyze_page year page total_accidents page_counts w with
      | (Err e, w1) => (Some Failed, emit (Error_analyzing page e) w1)
      | (Ok (total, counts, true), w1) => (Some (Confirmed page total counts), w1)
      | (Ok (total, counts, false), w1) =>
          analysis_loop fuel' year (S page) (Some total) counts w1
      end
  end.

(** Lines 199-215: fetch a listing page, check it against the total, get
    its links and check their number. *)
Definition check_page (year : Z) (page : nat) (total_accidents : Z)
  : M (Z * Z * list string) :=
  soup <- _make_request (listing_url year page) ;;
  '(page_total, start_range, end_range) <- lift (_get_page_info soup year page) ;;
  (if page_total =? total_accidents then ret tt
   else raise (Total_changed total_accidents page_total)) ;;;
  say (Info_processing_range start_range end_range total_accidents) ;;;
  page_links <- lift (_get_page_links soup) ;;
  let expected_links := Z.min 100 (end_range - start_range + 1) in
  (if Z.of_nat (List.length page_links) =? expected_links then ret tt
   else raise (Links_mismatch expected_links (List.length page_links))) ;;;
  ret (start_range, end_range, page_links).

(** One iteration of the loop of lines 218-231 for the [i]-th of [n] links. *)
Definition process_link (output_file : string) (page n i : nat) (link : string)
           (all_samples : list dict) (w : world) : list dict * world :=
  let w0 := emit (Info_processing_accident i n page) w in
  match _extract_accident_details link w0 with
  | (Ok details, w1) =>
      let all_samples' := (all_samples ++ [details])%list in
      (all_samples',
       emit (Info_progress_saved (List.length all_samples'))
            (to_csv output_file all_samples' w1))
  | (Err e, w1) => (all_samples, emit (Error_processing_link link e) w1)
  end.

(** The loop of lines 218-231 over the links still to do, numbered from [i]. *)
Fixpoint process_links (output_file : string) (page n i : nat) (links : list string)
         (all_samples : list dict) (w : world) : list dict * world :=
  match links with
  | [] => (all_samples, w)
  | link :: links' =>
      let '(all_samples', w') := process_link output_file page n i link all_samples w in
      process_links output_file page n (S i) links' all_samples' w'
  end.

(** The loop of lines 193-244: the samples and the page it stops on. *)
Fixpoint scraping_loop (fuel : nat) (output_file : string) (year : Z) (page : nat)
         (total_accidents : Z) (all_samples : list dict)
         (w : world) : option (list dict * nat) * world :=
  match fuel with
  | O => (None, w)
  | S fuel' =>
      match check_page year page total_accidents (emit (Info_processing_page page) w) with
      | (Err e, w1) => (Some (all_samples, page), emit (Error_processing_page page e) w1)
      | (Ok (start_range, end_range, page_links), w1) =>
          let '(all_samples', w2) :=
            process_links output_file page (List.length page_links) 1 page_links
                          all_samples w1 in
          if end_range >=? total_accidents
          then (Some (all_samples', page), emit (Info_reached_end page) w2)
          else scraping_loop fuel' output_file year (S page) total_accidents all_samples' w2
      end
  end.

Fixpoint ends_with_slash (s : string) : bool :=
  match s with
  | EmptyString => false
  | String c EmptyString => Ascii.eqb c "/"
  | String _ s' => ends_with_slash s'
  end.

(** [os.path.join(a, b)] for a relative [b]. *)
Definition path_join (a b : string) : string :=
  match a with
  | EmptyString => b
  | _ => if ends_with_slash a then a ++ b else a ++ "/" ++ b
  end.

Definition output_path (output_dir : string) (year : Z) : string :=
  path_join output_dir ("asn_accidents_" ++ str_of_int year ++ ".csv").

(** An exception of [os.makedirs] that nothing in [scrape_year] catches. *)
Inductive os_error :=
| FileNotFoundError (path : string)     (* the empty path *)
| ValueError_null_byte.                 (* a path holding a NUL character *)

Definition has_nul (s : string) : bool :=
  negb (all_chars (fun c => negb (Ascii.eqb c Ascii.zero)) s).

(** [os.makedirs(output_dir, exist_ok=True)], line 189, as far as the path
    alone decides: the empty path and a path with a NUL character are
    refused.  Anything else is created or found there; a refusal that
    depends on what the file system holds is not modelled, and the world
    keeps no record of directories. *)
Definition makedirs (output_dir : string) : option os_error :=
  if String.eqb output_dir "" then Some (FileNotFoundError output_dir)
  else if has_nul output_dir then Some ValueError_null_byte
  else None.

(** How a call of [scrape_year] ends: with the frame it returns, or with
    the exception of line 189. *)
Inductive outcome :=
| Returns (df : DataFrame)
| Raises (e : os_error).

(** [scrape_year(year, output_dir)], with the console answer [proceed] and
    [fuel] iterations for each loop; [None] when the fuel runs out. *)
Definition scrape_year (fuel : nat) (proceed : string) (year : Z) (output_dir : string)
           (w : world) : option outcome * world :=
  let w0 := emit (Print_analyzing year) w in
  match analysis_loop fuel year 1 None [] w0 with
  | (None, w1) => (None, w1)
  | (Some Failed, w1) => (Some (Returns []), w1)
  | (Some (Confirmed page total_accidents _), w1) =>
      let w2 := emit (Print_found total_accidents page) w1 in
      if negb (String.eqb (lower proceed) "y")
      then (Some (Returns []), emit Print_cancelled w2)
      else
        match makedirs output_dir with
        | Some e => (Some (Raises e), w2)
        | None =>
            let output_file := output_path output_dir year in
            match scraping_loop fuel output_file year 1 total_accidents []
                                (emit Print_starting w2) with
            | (None, w3) => (None, w3)
            | (Some (all_samples, page'), w3) =>
                let df : DataFrame := all_samples in
                let w4 := emit (Info_saved (List.length df) output_file)
                               (to_csv output_file df w3) in
                (Some (Returns df),
                 emit (Print_summary (List.length df) page' total_accidents) w4)
            end
        end
  end.

End ASNScraper.

(** ** Caption shapes *)

(** A decimal numeral: a non-empty run of digits. *)
Definition numeral (d : string) : bool := nonempty d && all_chars is_digit d.

(** The caption of a later page, with the numerals as they are written. *)
Definition range_caption (a b n : string) : string :=
  "showing occurrence " ++ a ++ "-" ++ b ++ " of " ++ n ++ " occurrences".

(** The caption of a first page. *)
Definition bare_caption (n : string) : string := n ++ " occurrences".

(** Somewhere in [text] a numeral is followed, after optional whitespace, by
    the word occurrences: the part both caption shapes share. *)
Definition has_count (text : string) : Prop :=
  exists pre d ws post,
    numeral d = true /\ all_chars is_space ws = true /\
    text = pre ++ d ++ ws ++ "occurrences" ++ post.

(** The range check of line 78. *)
Definition valid_range (start end_ total : Z) : Prop :=
  1 <= start /\ start <= end_ /\ end_ <= total.

(** What follows group 1 in the total pattern. *)
Definition count_tail (g rest : string) : option string :=
  Re.star is_space rest (fun r2 => Re.lit "occurrences" r2 (fun _ => Some g)).

(** ** Sample documents *)

(** A listing page: the caption, a header row, one row per link. *)
Definition listing_doc (caption : string) (hrefs : list string) : node :=
  Tag "[document]" [] [Tag "html" [] [Tag "body" [] [
    Tag "div" [("id", "contentwrapper")] [
      Tag "span" [("class", "caption")] [Text caption];
      Tag "table" [("class", "hp")]
        (Tag "tr" [] [Tag "th" [] [Text "date"]]
         :: List.map (fun h => Tag "tr" [] [Tag "td" [] [Tag "a" [("href", h)] [Text "x"]]])
                     hrefs)]]]].

(** A detail page: one table, one two-cell row per entry. *)
Definition detail_doc (rows : list (string * string)) : node :=
  Tag "[document]" [] [Tag "html" [] [Tag "body" [] [
    Tag "table" []
      (List.map (fun kv => Tag "tr" [] [Tag "td" [("class", "caption")] [Text (fst kv)];
                                         Tag "td" [("class", "desc")] [Text (snd kv)]])
                rows)]]].

(** A page with no content container, and one with no caption in it. *)
Definition bare_doc : node :=
  Tag "[document]" [] [Tag "html" [] [Tag "body" [] [Tag "p" [] [Text "Not found"]]]].

Definition uncaptioned_doc : node :=
  Tag "[document]" [] [Tag "html" [] [Tag "body" [] [
    Tag "div" [("id", "contentwrapper")] [Tag "p" [] [Text "12 occurrences"]]]]].

(** The rows the detail extractor scans: those of the first table. *)
Definition detail_rows (soup : node) : list node :=
  match find_all "table" soup with
  | main_table :: _ => find_all "tr" main_table
  | [] => []
  end.

(** No scanned row offers the field [name]. *)
Definition never_offered (name : string) (rows : list node) : Prop :=
  forall row key value, In row rows -> row_entry row = Some (key, value) -> key <> name.

(** A site whose replies do not change: the document at each known URL. *)
Definition static_site (pages : list (string * node)) : server :=
  fun _ url =>
    match assoc url pages with
    | Some soup => Body soup
    | None => Failure
    end.

Definition start_world : world := World 0 [] None.

Definition sample_url : string := "https://asn.flightsafety.org/wikibase/1".

Definition date_row : node :=
  Tag "tr" [] [Tag "td" [] [Text "Date:"]; Tag "td" [] [Text " 2024-01-05 "]].

Definition narrative_row : node :=
  Tag "tr" [] [Tag "td" [] [Text "Narrative:"]; Tag "td" [] [Text "Runway excursion"]].

(** ** Runs of the two loops *)

(** The variables of the analysis loop at the head of an iteration. *)
Definition analysis_state : Type := nat * option Z * list nat * world.

(** [analysis_steps n s s']: from [s] the analysis loop completes [n]
    iterations without leaving, and stands at [s']. *)
Inductive analysis_steps (srv : server) (base_url : string) (year : Z)
  : nat -> analysis_state -> analysis_state -> Prop :=
| analysis_here s : analysis_steps srv base_url year 0 s s
| analysis_next n page total_accidents page_counts w total counts w1 s' :
    analyze_page srv base_url year page total_accidents page_counts w
    = (Ok (total, counts, false), w1) ->
    analysis_steps srv base_url year n (S page, Some total, counts, w1) s' ->
    analysis_steps srv base_url year (S n) (page, total_accidents, page_counts, w) s'.

(** The variables of the scraping loop at the head of an iteration. *)
Definition scraping_state : Type := nat * list dict * world.

Inductive scraping_steps (srv : server) (base_url output_file : string) (year total_accidents : Z)
  : nat -> scraping_state -> scraping_state -> Prop :=
| scraping_here s : scraping_steps srv base_url output_file year total_accidents 0 s s
| scraping_next n page all_samples w start_range end_range page_links w1 all_samples' w2 s' :
    check_page srv base_url year page total_accidents (emit (Info_processing_page page) w)
    = (Ok (start_range, end_range, page_links), w1) ->
    process_links srv output_file page (List.length page_links) 1 page_links all_samples w1
    = (all_samples', w2) ->
    (end_range >=? total_accidents) = false ->
    scraping_steps srv base_url output_file year total_accidents n (S page, all_samples', w2) s' ->
    scraping_steps srv base_url output_file year total_accidents (S n) (page, all_samples, w) s'.

(** The links whose processing was logged as failed, with the errors. *)
Definition link_errors (evs : list event) : list (string * error) :=
  flat_map (fun ev => match ev with
                      | Error_processing_link link e => [(link, e)]
                      | _ => []
                      end) evs.

(** A computation that leaves the output file alone. *)
Definition keeps_file {A} (m : M A) : Prop :=
  forall w, file (snd (m w)) = file w.


(** ** Sample sites *)

Definition asn : string := "https://asn.flightsafety.org".

(** Listing pages 1, 2, ... of the year, each with its caption and links. *)
Definition listing_site (year : Z) (pages : list (string * list string)) : list (string * node) :=
  List.map (fun '(i, (caption, hrefs)) => (listing_url asn year i, listing_doc caption hrefs))
           (List.combine (List.seq 1 (List.length pages)) pages).

(** Three pages that agree on a total of 50. *)
Definition steady_site : server :=
  static_site (listing_site 2024
    [ (range_caption "1" "20" "50", ["/wikibase/1"]);
      (range_caption "21" "40" "50", ["/wikibase/21"]);
      (range_caption "41" "50" "50", ["/wikibase/41"]) ]).

(** The same, but the third page reports 48. *)
Definition shrunk_site : server :=
  static_site (listing_site 2024
    [ (range_caption "1" "20" "50", ["/wikibase/1"]);
      (range_caption "21" "40" "50", ["/wikibase/21"]);
      (range_caption "41" "48" "48", ["/wikibase/41"]) ]).

(** Three accidents on two pages; the detail page of the second is dead. *)
Definition small_pages : list (string * node) :=
  listing_site 2024
    [ (range_caption "1" "2" "3", ["/wikibase/1"; "/wikibase/2"]);
      (range_caption "3" "3" "3", ["/wikibase/3"]) ]
  ++ [ (asn ++ "/wikibase/1", detail_doc [("Date:", "2024-01-05"); ("Type:", "Cessna 172")]);
       (asn ++ "/wikibase/3", detail_doc [("Date:", "2024-02-11"); ("Type:", "Boeing 737")]) ].

Definition small_site : server := static_site small_pages.

(** The catalog grows while it is scraped: from the sixth request on, the
    second listing page reports four accidents. *)
Definition drifting_site : server :=
  fun n url =>
    if (n <? 5)%nat then small_site n url
    else static_site
           (listing_site 2024
              [ (range_caption "1" "2" "4", ["/wikibase/1"; "/wikibase/2"]);
                (range_caption "3" "4" "4", ["/wikibase/3"; "/wikibase/4"]) ]) n url.

(** The second listing page loses a row between the two phases. *)
Definition short_site : server :=
  fun n url =>
    if (n <? 2)%nat then
      static_site (listing_site 2024
        [ (range_caption "1" "2" "3", ["/wikibase/1"; "/wikibase/2"]);
          (range_caption "3" "3" "3", ["/wikibase/3"]) ]) n url
    else
      static_site (listing_site 2024
        [ (range_caption "1" "2" "3", ["/wikibase/1"]);
          (range_caption "3" "3" "3", ["/wikibase/3"]) ]) n url.

(** A detail page with a row whose key reads URL. *)
Definition url_row_doc : node :=
  detail_doc [("Date:", "2024-01-05"); ("URL:", "http://elsewhere.example/9")].

(** A detail page whose first table is empty and whose second has a row. *)
Definition two_table_doc : node :=
  Tag "[document]" [] [Tag "html" [] [Tag "body" [] [
    Tag "table" [] [];
    Tag "table" [] [date_row]]]].

(** The first listing page of [small_site] once it passed the checks. *)
Definition small_links : list string := [asn ++ "/wikibase/1"; asn ++ "/wikibase/2"].

Definition small_checked : world :=
  World 1 [Info_processing_page 1; Info_processing_range 1 2 3] None.

Definition small_run : list dict * world :=
  process_links small_site "output/asn_accidents_2024.csv" 1 2 1 small_links [] small_checked.

(** ** Further samples *)

(** The warnings of the first [k] attempts on [url]. *)
Definition warnings (url : string) (k : nat) : list event :=
  List.map (fun i => Warning_attempt i url) (List.seq 1 k).

(** A site that answers the third request only, and one that never answers. *)
Definition flaky_site : server :=
  fun n _ => if (n <? 2)%nat then Failure else Body bare_doc.

Definition dead_site : server := fun _ _ => Failure.

(** The caption of a later page with free whitespace and trailing text. *)
Definition loose_caption (ws1 a ws2 ws3 b n ws4 post : string) : string :=
  "showing occurrence" ++ ws1 ++ a ++ ws2 ++ "-" ++ ws3 ++ b ++ " of " ++ n ++ ws4
  ++ "occurrences" ++ post.

(** [s] has no whitespace at either end. *)
Definition trimmed (s : string) : Prop := strip s = s.

(** A detail page on which the date is given twice. *)
Definition corrected_doc : node :=
  detail_doc [("Date:", "2024-01-05"); ("Type:", "Cessna 172"); ("Date:", "2024-01-06")].

(** Where [p] holds of no character of [s]. *)
Definition free_of (p : ascii -> bool) (s : string) : bool :=
  all_chars (fun a => negb (p a)) s.

Definition is_slash (c : ascii) : bool := Ascii.eqb c "/".

(** A site whose replies do not depend on when they are asked for. *)
Definition unchanging (srv : server) : Prop :=
  forall n m url, srv n url = srv m url.

(** A site that answers every request with the same listing page, which
    shows the first of two records. *)
Definition stuck_site : server :=
  fun _ _ => Body (listing_doc (range_caption "1" "1" "2") ["/wikibase/1"]).

(** ** What the link loop is to add *)

(** For the links of a page and what fetching each brought, in order (a
    document, or nothing after three failed attempts): the records to add,
    and the failures to log. *)
Fixpoint extracted (links : list string) (fetched : list (option node)) : list dict :=
  match links, fetched with
  | link :: links', Some soup :: fetched' =>
      fold_left process_row (detail_rows soup) (initial_details link)
      :: extracted links' fetched'
  | _ :: links', None :: fetched' => extracted links' fetched'
  | _, _ => []
  end.

Fixpoint failed (links : list string) (fetched : list (option node)) : list (string * error) :=
  match links, fetched with
  | _ :: links', Some _ :: fetched' => failed links' fetched'
  | link :: links', None :: fetched' =>
      (link, Request_failed link) :: failed links' fetched'
  | _, _ => []
  end.

(** A computation that only ever adds to the count of requests. *)
Definition clock_grows {A} (m : M A) : Prop :=
  forall w, (clock w <= clock (snd (m w)))%nat.

(** The anchors of a row and what stands before the first of them. *)
Definition no_anchor (nodes : list node) : bool :=
  forallb (fun d => negb (is_tag "a" d)) nodes.

(** A listing page whose rows hold several anchors, or none with a link. *)
Definition mixed_rows_doc : node :=
  Tag "[document]" [] [
    Tag "div" [("id", "contentwrapper")] [
      Tag "span" [("class", "caption")] [Text "3 occurrences"];
      Tag "table" [("class", "hp")] [
        Tag "tr" [] [Tag "th" [] [Tag "a" [("href", "/sort")] [Text "date"]]];
        Tag "tr" [] [Tag "td" [] [Tag "a" [("href", "/wikibase/1")] [Text "1"];
                                  Tag "a" [("href", "/photo/1")] [Text "photo"]]];
        Tag "tr" [] [Tag "td" [] [Tag "a" [("name", "x")] [Text "2"];
                                  Tag "a" [("href", "/wikibase/2")] [Text "2"]]];
        Tag "tr" [] [Tag "td" [] [Text "no link"]];
        Tag "tr" [] [Tag "td" [] [Tag "a" [("href", "/wikibase/4")] [Text "4"]]]]]].

(** * Properties *)

(** ** Characters *)

Ltac by_cases_on_char a :=
  destruct a as [[] [] [] [] [] [] [] []]; try reflexivity; try discriminate.

Lemma digit_not_space (a : ascii) : is_digit a = true -> is_space a = false.
Proof. by_cases_on_char a. Qed.

Lemma digit_not_letter_o (a : ascii) : is_digit a = true -> Ascii.eqb "o" a = false.
Proof. by_cases_on_char a. Qed.

Lemma digit_not_letter_s (a : ascii) : is_digit a = true -> Ascii.eqb "s" a = false.
Proof. by_cases_on_char a. Qed.

Lemma space_not_digit (a : ascii) : is_space a = true -> is_digit a = false.
Proof. by_cases_on_char a. Qed.

Lemma all_chars_app p s t :
  all_chars p (s ++ t) = all_chars p s && all_chars p t.
Proof.
  induction s as [|a s IH]; simpl; [reflexivity|].
  now rewrite IH, andb_assoc.
Qed.

Lemma append_assoc (s t u : string) : (s ++ t) ++ u = s ++ t ++ u.
Proof. induction s as [|a s IH]; simpl; [reflexivity | now rewrite IH]. Qed.

Lemma append_nil_r (s : string) : s ++ "" = s.
Proof. induction s as [|a s IH]; simpl; [reflexivity | now rewrite IH]. Qed.

(** ** The matcher *)

Section MatcherFacts.
Context {R : Type}.
Implicit Types (k : string -> string -> option R) (c : ascii -> bool).

(** With nothing of the class ahead, the star matches the empty run. *)
Lemma star_cap_stops c s k :
  stops c s = true -> Re.star_cap c s k = k "" s.
Proof.
  destruct s as [|a s]; simpl; [reflexivity|].
  intros H. apply negb_true_iff in H. now rewrite H.
Qed.

(** Greedy: the whole run is offered to the continuation first. *)
Lemma star_cap_longest c d rest k r :
  all_chars c d = true -> stops c rest = true ->
  k d rest = Some r -> Re.star_cap c (d ++ rest) k = Some r.
Proof.
  revert k. induction d as [|a d IH]; intros k Hd Hrest Hk.
  - simpl. now rewrite star_cap_stops.
  - simpl in Hd. apply andb_true_iff in Hd as [Ha Hd].
    simpl. rewrite Ha. now rewrite (IH (fun g rest0 => k (String a g) rest0)).
Qed.

(** Backtracking: the star fails only when every split of the run does. *)
Lemma star_cap_none c d rest k :
  all_chars c d = true -> stops c rest = true ->
  (forall d1 d2, d = d1 ++ d2 -> k d1 (d2 ++ rest) = None) ->
  Re.star_cap c (d ++ rest) k = None.
Proof.
  revert k. induction d as [|a d IH]; intros k Hd Hrest Hk.
  - simpl. rewrite star_cap_stops by assumption. now apply (Hk "" "").
  - simpl in Hd. apply andb_true_iff in Hd as [Ha Hd].
    simpl. rewrite Ha.
    rewrite (IH (fun g rest0 => k (String a g) rest0)); try assumption.
    + now apply (Hk "" (String a d)).
    + intros d1 d2 E. apply (Hk (String a d1) d2). simpl. now rewrite E.
Qed.

(** What a successful star consumed. *)
Lemma star_cap_some c s k r :
  Re.star_cap c s k = Some r ->
  exists g rest, s = g ++ rest /\ all_chars c g = true /\ k g rest = Some r.
Proof.
  revert k. induction s as [|a s IH]; intros k H; simpl in H.
  - now exists "", "".
  - destruct (c a) eqn:Ha.
    + destruct (Re.star_cap c s (fun g rest => k (String a g) rest)) eqn:E.
      * injection H as ->.
        apply IH in E as (g & rest & -> & Hg & Hk).
        exists (String a g), rest. simpl. now rewrite Ha, Hg.
      * now exists "", (String a s).
    + now exists "", (String a s).
Qed.

Lemma plus_cap_longest c d rest k r :
  d <> "" -> all_chars c d = true -> stops c rest = true ->
  k d rest = Some r -> Re.plus_cap c (d ++ rest) k = Some r.
Proof.
  destruct d as [|a d]; [congruence|]. intros _ Hd Hrest Hk.
  simpl in Hd. apply andb_true_iff in Hd as [Ha Hd].
  simpl. rewrite Ha.
  now apply (star_cap_longest c d rest (fun g rest0 => k (String a g) rest0)).
Qed.

Lemma plus_cap_some c s k r :
  Re.plus_cap c s k = Some r ->
  exists g rest, s = g ++ rest /\ g <> "" /\ all_chars c g = true /\ k g rest = Some r.
Proof.
  destruct s as [|a s]; simpl; [discriminate|].
  destruct (c a) eqn:Ha; [|discriminate].
  intros H. apply star_cap_some in H as (g & rest & -> & Hg & Hk).
  exists (String a g), rest. simpl. rewrite Ha, Hg.
  repeat split; [discriminate | assumption].
Qed.

Lemma plus_cap_stops c s k : stops c s = true -> s <> "" -> Re.plus_cap c s k = None.
Proof.
  destruct s as [|a s]; simpl; [congruence|].
  intros H _. apply negb_true_iff in H. now rewrite H.
Qed.

Lemma lit_app p s (k : string -> option R) : Re.lit p (p ++ s) k = k s.
Proof.
  induction p as [|a p IH]; simpl; [reflexivity|].
  now rewrite Ascii.eqb_refl.
Qed.

Lemma lit_some p s (k : string -> option R) r :
  Re.lit p s k = Some r -> exists rest, s = p ++ rest /\ k rest = Some r.
Proof.
  revert s. induction p as [|a p IH]; intros s H; simpl in H.
  - now exists s.
  - destruct s as [|b s]; [discriminate|].
    destruct (Ascii.eqb a b) eqn:E; [|discriminate].
    apply Ascii.eqb_eq in E as <-.
    apply IH in H as (rest & -> & Hk). now exists rest.
Qed.

(** The search gives what the pattern gives at the first position where
    it matches. *)
Lemma search_here (m : string -> option R) s r :
  m s = Some r -> Re.search m s = Some r.
Proof. intros H. destruct s; simpl; now rewrite H. Qed.

Lemma search_next (m : string -> option R) a s :
  m (String a s) = None -> Re.search m (String a s) = Re.search m s.
Proof. intros H. simpl. now rewrite H. Qed.

Lemma search_skip (m : string -> option R) p s :
  (forall p1 p2, p = p1 ++ p2 -> p2 <> "" -> m (p2 ++ s) = None) ->
  Re.search m (p ++ s) = Re.search m s.
Proof.
  induction p as [|a p IH]; intros H; [reflexivity|].
  change (String a p ++ s) with (String a (p ++ s)).
  rewrite search_next.
  - apply IH. intros p1 p2 E N. apply (H (String a p1) p2); [|assumption].
    simpl. now rewrite E.
  - apply (H "" (String a p)); [reflexivity | discriminate].
Qed.

Lemma search_some (m : string -> option R) s r :
  Re.search m s = Some r -> exists pre rest, s = pre ++ rest /\ m rest = Some r.
Proof.
  induction s as [|a s IH]; simpl.
  - destruct (m "") eqn:E; [|discriminate]. intros [= <-]. now exists "", "".
  - destruct (m (String a s)) eqn:E.
    + intros [= <-]. now exists "", (String a s).
    + intros H. apply IH in H as (pre & rest & -> & Hm).
      now exists (String a pre), rest.
Qed.

Lemma search_found (m : string -> option R) pre s :
  m s <> None -> Re.search m (pre ++ s) <> None.
Proof.
  intros H. induction pre as [|a pre IH]; simpl.
  - destruct (m s) eqn:E; [|congruence]. rewrite (search_here m s r E). discriminate.
  - destruct (m (String a (pre ++ s))); [discriminate | exact IH].
Qed.
End MatcherFacts.

(** ** The two patterns *)

Lemma numeral_spec d : numeral d = true <-> d <> "" /\ all_chars is_digit d = true.
Proof.
  unfold numeral. rewrite andb_true_iff. destruct d; simpl; split; intros [H1 H2];
    (split; [congruence || discriminate || reflexivity | assumption]).
Qed.

Lemma numeral_head d rest : numeral d = true -> stops is_space (d ++ rest) = true.
Proof.
  destruct d as [|a d]; [discriminate|]. unfold numeral. simpl.
  intros H. apply andb_true_iff in H as [H _].
  now rewrite (digit_not_space a H).
Qed.

Lemma total_at_unfold a s :
  Re.total_at (String a s) =
  if is_digit a
  then Re.star_cap is_digit s (fun g r1 => count_tail (String a g) r1)
  else None.
Proof. reflexivity. Qed.

Lemma count_tail_digit g a s : is_digit a = true -> count_tail g (String a s) = None.
Proof.
  intros H. unfold count_tail, Re.star.
  rewrite star_cap_stops by (simpl; now rewrite (digit_not_space a H)).
  cbn [Re.lit]. now rewrite (digit_not_letter_o a H).
Qed.

(** A run of digits after which the tail fails is no match, wherever in
    the run the attempt starts. *)
Lemma total_at_run_none d rest :
  all_chars is_digit d = true -> stops is_digit rest = true ->
  (forall g, count_tail g rest = None) ->
  Re.total_at (d ++ rest) = None.
Proof.
  intros Hd Hrest Htail. destruct d as [|a d].
  - destruct rest as [|b rest]; [reflexivity|].
    simpl in Hrest. apply negb_true_iff in Hrest.
    cbn [append]. rewrite total_at_unfold. now rewrite Hrest.
  - simpl in Hd. apply andb_true_iff in Hd as [Ha Hd].
    change (String a d ++ rest) with (String a (d ++ rest)).
    rewrite total_at_unfold, Ha.
    apply star_cap_none; try assumption.
    intros d1 [|b d2] E; [apply Htail|].
    subst d. rewrite all_chars_app in Hd. apply andb_true_iff in Hd as [_ Hd].
    simpl in Hd. apply andb_true_iff in Hd as [Hb _].
    now apply count_tail_digit.
Qed.

Lemma search_total_skip_run d rest :
  all_chars is_digit d = true -> stops is_digit rest = true ->
  (forall g, count_tail g rest = None) ->
  Re.search_total (d ++ rest) = Re.search_total rest.
Proof.
  intros Hd Hrest Htail. unfold Re.search_total. apply search_skip.
  intros p1 p2 E _. subst d. rewrite all_chars_app in Hd.
  apply andb_true_iff in Hd as [_ Hd]. now apply total_at_run_none.
Qed.

Lemma search_total_skip_other p s :
  all_chars (fun a => negb (is_digit a)) p = true ->
  Re.search_total (p ++ s) = Re.search_total s.
Proof.
  intros Hp. unfold Re.search_total. apply search_skip.
  intros p1 [|a p2] E N; [congruence|]. subst p.
  rewrite all_chars_app in Hp. apply andb_true_iff in Hp as [_ Hp].
  simpl in Hp. apply andb_true_iff in Hp as [Ha _]. apply negb_true_iff in Ha.
  change (String a p2 ++ s) with (String a (p2 ++ s)).
  now rewrite total_at_unfold, Ha.
Qed.

(** At a numeral followed by whitespace and the word, the total pattern
    matches and group 1 is the numeral. *)
Lemma total_at_numeral d ws post :
  numeral d = true -> all_chars is_space ws = true ->
  Re.total_at (d ++ ws ++ "occurrences" ++ post) = Some d.
Proof.
  intros Hd Hws. apply numeral_spec in Hd as [Hne Hd].
  unfold Re.total_at. apply plus_cap_longest; try assumption.
  - destruct ws as [|b ws]; [reflexivity|].
    simpl in Hws. apply andb_true_iff in Hws as [Hb _].
    simpl. now rewrite (space_not_digit b Hb).
  - unfold Re.star. apply star_cap_longest; try assumption; [reflexivity|].
    apply (lit_app "occurrences" post (fun _ => Some d)).
Qed.

Lemma total_at_some s g :
  Re.total_at s = Some g ->
  exists ws post, numeral g = true /\ all_chars is_space ws = true /\
                  s = g ++ ws ++ "occurrences" ++ post.
Proof.
  unfold Re.total_at. intros H.
  apply plus_cap_some in H as (g' & r1 & -> & Hne & Hg & H).
  unfold Re.star in H. apply star_cap_some in H as (ws & r2 & -> & Hws & H).
  apply lit_some in H as (post & -> & [= ->]).
  exists ws, post. repeat split; try assumption.
  apply numeral_spec. now split.
Qed.

(** The total pattern is found exactly in the texts that hold a count. *)
Lemma search_total_some text g :
  Re.search_total text = Some g -> numeral g = true /\ has_count text.
Proof.
  intros H. apply search_some in H as (pre & rest & -> & H).
  apply total_at_some in H as (ws & post & Hg & Hws & ->).
  split; [assumption|]. now exists pre, g, ws, post.
Qed.

Lemma search_total_none text :
  Re.search_total text = None <-> ~ has_count text.
Proof.
  split.
  - intros H (pre & d & ws & post & Hd & Hws & ->).
    revert H. apply search_found. now rewrite total_at_numeral.
  - intros H. destruct (Re.search_total text) eqn:E; [|reflexivity].
    apply search_total_some in E as [_ E]. contradiction.
Qed.

(** ** The caption shapes through the patterns *)

Lemma search_total_range_caption a b n :
  numeral a = true -> numeral b = true -> numeral n = true ->
  Re.search_total (range_caption a b n) = Some n.
Proof.
  intros Ha Hb Hn. unfold range_caption.
  apply numeral_spec in Ha as [_ Ha]. apply numeral_spec in Hb as [_ Hb].
  rewrite search_total_skip_other by reflexivity.
  rewrite search_total_skip_run; try assumption; try reflexivity.
  rewrite (search_total_skip_other "-") by reflexivity.
  rewrite search_total_skip_run; try assumption; try reflexivity.
  rewrite (search_total_skip_other " of ") by reflexivity.
  apply search_here.
  now apply (total_at_numeral n " " "").
Qed.

Lemma search_range_range_caption a b n :
  numeral a = true -> numeral b = true ->
  Re.search_range (range_caption a b n) = Some (a, b).
Proof.
  intros Ha Hb. unfold range_caption.
  pose proof (numeral_head a ("-" ++ b ++ " of " ++ n ++ " occurrences") Ha) as Sa.
  pose proof (numeral_head b (" of " ++ n ++ " occurrences") Hb) as Sb.
  apply numeral_spec in Ha as [Na Ha]. apply numeral_spec in Hb as [Nb Hb].
  apply search_here. unfold Re.range_at.
  change ("showing occurrence " ++ a ++ "-" ++ b ++ " of " ++ n ++ " occurrences")
    with ("showing occurrence" ++ String " " (a ++ "-" ++ b ++ " of " ++ n ++ " occurrences")).
  rewrite lit_app. unfold Re.plus, Re.star.
  cbn [Re.plus_cap]. change (is_space " ") with true. cbv iota.
  rewrite star_cap_stops by assumption.
  apply plus_cap_longest; try assumption; [reflexivity|].
  rewrite star_cap_stops by reflexivity.
  rewrite (lit_app "-").
  rewrite star_cap_stops by assumption.
  apply plus_cap_longest; try assumption; reflexivity.
Qed.

Lemma total_at_bare_caption n :
  numeral n = true -> Re.search_total (bare_caption n) = Some n.
Proof.
  intros Hn. apply search_here. now apply (total_at_numeral n " " "").
Qed.

Lemma range_at_not_s a s : Ascii.eqb "s" a = false -> Re.range_at (String a s) = None.
Proof. intros H. unfold Re.range_at. cbn [Re.lit]. now rewrite H. Qed.

Lemma search_range_bare_caption n :
  numeral n = true -> Re.search_range (bare_caption n) = None.
Proof.
  intros Hn. apply numeral_spec in Hn as [_ Hn].
  unfold bare_caption, Re.search_range. rewrite search_skip; [reflexivity|].
  intros p1 [|a p2] E N; [congruence|]. subst n.
  rewrite all_chars_app in Hn. apply andb_true_iff in Hn as [_ Hn].
  simpl in Hn. apply andb_true_iff in Hn as [Ha _].
  apply range_at_not_s. now apply digit_not_letter_s.
Qed.

(** ** The page analyzer *)

Section PageInfo.
Variables (soup content caption : node) (year : Z) (page : nat).
Hypothesis Hcontent : find_with "div" "id" "contentwrapper" soup = Some content.
Hypothesis Hcaption : find_with "span" "class" "caption" content = Some caption.

Lemma get_page_info_found g :
  Re.search_total (get_text caption) = Some g ->
  _get_page_info soup year page =
  let total_accidents := int_of_digits g in
  let '(start, end_) :=
    match Re.search_range (get_text caption) with
    | Some (g1, g2) => (int_of_digits g1, int_of_digits g2)
    | None => (1, Z.min 100 total_accidents)
    end in
  if (1 <=? start) && (start <=? end_) && (end_ <=? total_accidents)
  then Ok (total_accidents, start, end_)
  else Err (Invalid_range start end_ total_accidents).
Proof.
  intros H. unfold _get_page_info. now rewrite Hcontent, Hcaption, H.
Qed.

Lemma get_page_info_no_total :
  Re.search_total (get_text caption) = None ->
  _get_page_info soup year page = Err (Total_not_found (get_text caption)).
Proof.
  intros H. unfold _get_page_info. now rewrite Hcontent, Hcaption, H.
Qed.
End PageInfo.

Lemma range_check_true start end_ total :
  (1 <=? start) && (start <=? end_) && (end_ <=? total) = true <->
  valid_range start end_ total.
Proof.
  unfold valid_range. rewrite !andb_true_iff, !Z.leb_le. tauto.
Qed.

Lemma range_check_false start end_ total :
  (1 <=? start) && (start <=? end_) && (end_ <=? total) = false <->
  ~ valid_range start end_ total.
Proof.
  rewrite <- range_check_true. now destruct (_ && _).
Qed.

(** Whatever the analyzer returns satisfies [1 <= start <= end <= total]. *)
Lemma get_page_info_valid soup year page total start end_ :
  _get_page_info soup year page = Ok (total, start, end_) ->
  valid_range start end_ total.
Proof.
  unfold _get_page_info.
  destruct (find_with "div" "id" "contentwrapper" soup); [|discriminate].
  destruct (find_with "span" "class" "caption" n); [|discriminate].
  destruct (Re.search_total _); [|discriminate].
  destruct (match Re.search_range _ with Some _ => _ | None => _ end) as [s0 e0].
  destruct (_ && _) eqn:E; [|discriminate].
  intros [= <- <- <-]. now apply range_check_true.
Qed.

(** C2 (as amended): a caption "showing occurrence A-B of N occurrences"
    whose numerals satisfy [1 <= A <= B <= N] is analyzed to [(N, A, B)]; a
    bare caption "N occurrences" with [1 <= N] is analyzed to
    [(N, 1, min(100, N))]; a page without the content container, without the
    caption, or whose caption holds no numeral followed by the word
    occurrences fails with a parse error. *)
Theorem page_info_of_caption :
  (forall soup content caption year page a b n,
      find_with "div" "id" "contentwrapper" soup = Some content ->
      find_with "span" "class" "caption" content = Some caption ->
      numeral a = true -> numeral b = true -> numeral n = true ->
      get_text caption = range_caption a b n ->
      valid_range (int_of_digits a) (int_of_digits b) (int_of_digits n) ->
      _get_page_info soup year page =
      Ok (int_of_digits n, int_of_digits a, int_of_digits b))
  /\ (forall soup content caption year page n,
      find_with "div" "id" "contentwrapper" soup = Some content ->
      find_with "span" "class" "caption" content = Some caption ->
      numeral n = true ->
      get_text caption = bare_caption n ->
      1 <= int_of_digits n ->
      _get_page_info soup year page =
      Ok (int_of_digits n, 1, Z.min 100 (int_of_digits n)))
  /\ (forall soup year page,
      find_with "div" "id" "contentwrapper" soup = None
      \/ (exists content,
             find_with "div" "id" "contentwrapper" soup = Some content /\
             (find_with "span" "class" "caption" content = None
              \/ exists caption,
                  find_with "span" "class" "caption" content = Some caption /\
                  ~ has_count (get_text caption))) ->
      exists e, _get_page_info soup year page = Err e /\ classify e = ParseError).
Proof.
  split; [|split].
  - intros soup content caption year page a b n Hc Hs Ha Hb Hn Ht Hv.
    rewrite (get_page_info_found soup content caption year page Hc Hs n)
      by (rewrite Ht; now apply search_total_range_caption).
    rewrite Ht, search_range_range_caption by assumption.
    cbv zeta beta iota.
    apply range_check_true in Hv. now rewrite Hv.
  - intros soup content caption year page n Hc Hs Hn Ht Hv.
    rewrite (get_page_info_found soup content caption year page Hc Hs n)
      by (rewrite Ht; now apply total_at_bare_caption).
    rewrite Ht, search_range_bare_caption by assumption.
    cbv zeta beta iota.
    assert (valid_range 1 (Z.min 100 (int_of_digits n)) (int_of_digits n)) as V
        by (unfold valid_range; lia).
    apply range_check_true in V. now rewrite V.
  - intros soup year page [H | (content & Hc & [H | (caption & Hs & H)])].
    + exists Content_wrapper_not_found. unfold _get_page_info. now rewrite H.
    + exists Caption_not_found. unfold _get_page_info. now rewrite Hc, H.
    + exists (Total_not_found (get_text caption)). split; [|reflexivity].
      apply (get_page_info_no_total soup content caption year page Hc Hs).
      now apply search_total_none.
Qed.

Lemma page_info_of_caption_witness :
  _get_page_info (listing_doc "showing occurrence 101-200 of 250 occurrences" []) 2024 2
  = Ok (250, 101, 200)
  /\ _get_page_info (listing_doc "37 occurrences" []) 2024 1 = Ok (37, 1, 37)
  /\ (exists e, _get_page_info bare_doc 2024 1 = Err e /\ classify e = ParseError)
  /\ (exists e, _get_page_info uncaptioned_doc 2024 1 = Err e /\ classify e = ParseError)
  /\ (exists e, _get_page_info (listing_doc "no occurrences" []) 2024 1 = Err e
                /\ classify e = ParseError).
Proof.
  destruct page_info_of_caption as (Hrange & Hbare & Hparse).
  split; [|split; [|split; [|split]]].
  - apply (Hrange _ (Tag "div" [("id", "contentwrapper")]
                       [Tag "span" [("class", "caption")]
                          [Text "showing occurrence 101-200 of 250 occurrences"];
                        Tag "table" [("class", "hp")] [Tag "tr" [] [Tag "th" [] [Text "date"]]]])
                  (Tag "span" [("class", "caption")]
                     [Text "showing occurrence 101-200 of 250 occurrences"])
                  2024 2%nat "101" "200" "250");
      try reflexivity.
    unfold valid_range. vm_compute. intuition discriminate.
  - apply (Hbare _ (Tag "div" [("id", "contentwrapper")]
                      [Tag "span" [("class", "caption")] [Text "37 occurrences"];
                       Tag "table" [("class", "hp")] [Tag "tr" [] [Tag "th" [] [Text "date"]]]])
                 (Tag "span" [("class", "caption")] [Text "37 occurrences"])
                 2024 1%nat "37");
      try reflexivity.
    vm_compute. discriminate.
  - apply Hparse. left. reflexivity.
  - apply Hparse. right.
    exists (Tag "div" [("id", "contentwrapper")] [Tag "p" [] [Text "12 occurrences"]]).
    split; [reflexivity|]. left. reflexivity.
  - apply Hparse. right.
    exists (Tag "div" [("id", "contentwrapper")]
              [Tag "span" [("class", "caption")] [Text "no occurrences"];
               Tag "table" [("class", "hp")] [Tag "tr" [] [Tag "th" [] [Text "date"]]]]).
    split; [reflexivity|]. right.
    exists (Tag "span" [("class", "caption")] [Text "no occurrences"]).
    split; [reflexivity|]. apply search_total_none. reflexivity.
Defined.

(** C2 (as stated) fails: the bare caption "0 occurrences" and the caption
    "showing occurrence 5-3 of 10 occurrences" have the claimed shapes and
    are both rejected by the range check instead of being returned; and the
    caption "about 12 occurrences", which has neither shape, is analyzed
    like a first page instead of failing. *)
Lemma page_info_of_caption_counterexample :
  numeral "0" = true
  /\ _get_page_info (listing_doc (bare_caption "0") []) 2024 1 = Err (Invalid_range 1 0 0)
  /\ _get_page_info (listing_doc (bare_caption "0") []) 2024 1
     <> Ok (int_of_digits "0", 1, Z.min 100 (int_of_digits "0"))
  /\ _get_page_info (listing_doc (range_caption "5" "3" "10") []) 2024 2
     = Err (Invalid_range 5 3 10)
  /\ _get_page_info (listing_doc (range_caption "5" "3" "10") []) 2024 2
     <> Ok (int_of_digits "10", int_of_digits "5", int_of_digits "3")
  /\ (forall a b n, "about 12 occurrences" <> range_caption a b n)
  /\ (forall n, numeral n = true -> "about 12 occurrences" <> bare_caption n)
  /\ _get_page_info (listing_doc "about 12 occurrences" []) 2024 1 = Ok (12, 1, 12).
Proof.
  split; [reflexivity|]. split; [reflexivity|]. split; [vm_compute; discriminate|].
  split; [reflexivity|]. split; [vm_compute; discriminate|].
  split; [intros a b n; unfold range_caption; simpl; discriminate|].
  split; [|reflexivity].
  intros [|c n] H; [discriminate|]. unfold bare_caption. simpl.
  intros [= <- _]. discriminate.
Qed.

(** C3: whenever the values parsed from the caption (the total, and the
    range written on the page or else [1 .. min(100, total)]) do not satisfy
    [1 <= start <= end <= total], the analysis fails with the validation
    error of line 79 and returns no page information. *)
Theorem invalid_range_rejected soup content caption year page g start end_ :
  find_with "div" "id" "contentwrapper" soup = Some content ->
  find_with "span" "class" "caption" content = Some caption ->
  Re.search_total (get_text caption) = Some g ->
  (start, end_) =
    match Re.search_range (get_text caption) with
    | Some (g1, g2) => (int_of_digits g1, int_of_digits g2)
    | None => (1, Z.min 100 (int_of_digits g))
    end ->
  ~ valid_range start end_ (int_of_digits g) ->
  _get_page_info soup year page = Err (Invalid_range start end_ (int_of_digits g))
  /\ classify (Invalid_range start end_ (int_of_digits g)) = ValidationError
  /\ forall info, _get_page_info soup year page <> Ok info.
Proof.
  intros Hc Hs Ht Hr Hv.
  assert (_get_page_info soup year page = Err (Invalid_range start end_ (int_of_digits g))) as E.
  { rewrite (get_page_info_found soup content caption year page Hc Hs g Ht).
    cbv zeta. rewrite <- Hr. apply range_check_false in Hv. now rewrite Hv. }
  split; [exact E|]. split; [reflexivity|].
  intros info. rewrite E. discriminate.
Qed.

Lemma invalid_range_rejected_witness :
  _get_page_info (listing_doc "showing occurrence 5-3 of 10 occurrences" []) 2024 2
  = Err (Invalid_range 5 3 10).
Proof.
  apply (invalid_range_rejected _
           (Tag "div" [("id", "contentwrapper")]
              [Tag "span" [("class", "caption")]
                 [Text "showing occurrence 5-3 of 10 occurrences"];
               Tag "table" [("class", "hp")] [Tag "tr" [] [Tag "th" [] [Text "date"]]]])
           (Tag "span" [("class", "caption")]
              [Text "showing occurrence 5-3 of 10 occurrences"])
           2024 2%nat "10" 5 3); try reflexivity.
  unfold valid_range. vm_compute. intros (_ & H & _). now apply H.
Defined.

(** C10: the analyzer's answer is a function of the document alone; the
    year and page number it is given play no part, so a page asked for as
    page 7 that says it shows records 1-100 is accepted as it is. *)
Theorem page_info_ignores_request :
  (forall soup year1 page1 year2 page2,
      _get_page_info soup year1 page1 = _get_page_info soup year2 page2)
  /\ _get_page_info (listing_doc "showing occurrence 1-100 of 250 occurrences" []) 2024 7
     = Ok (250, 1, 100).
Proof. split; [intros; reflexivity | reflexivity]. Qed.

(** ** Records *)

Lemma dict_set_keys key value d :
  dict_mem key d = true -> keys (dict_set key value d) = keys d.
Proof.
  induction d as [|[k v] d IH]; simpl; [discriminate|].
  destruct (String.eqb key k) eqn:E; simpl; [reflexivity|].
  intros H. now rewrite IH.
Qed.

Lemma dict_get_set_same key value d :
  dict_mem key d = true -> dict_get key (dict_set key value d) = Some value.
Proof.
  unfold dict_get. induction d as [|[k v] d IH]; simpl; [discriminate|].
  destruct (String.eqb key k) eqn:E; simpl; rewrite E; [reflexivity|].
  exact IH.
Qed.

Lemma dict_get_set_other key value d name :
  name <> key -> dict_get name (dict_set key value d) = dict_get name d.
Proof.
  intros N. unfold dict_get. induction d as [|[k v] d IH]; simpl.
  - apply String.eqb_neq in N. now rewrite N.
  - destruct (String.eqb key k) eqn:E; simpl.
    + apply String.eqb_eq in E as <-.
      apply String.eqb_neq in N. now rewrite N.
    + now rewrite IH.
Qed.

Lemma dict_mem_keys key d : dict_mem key d = mem_string key (keys d).
Proof.
  unfold dict_mem, mem_string, keys. induction d as [|[k v] d IH]; simpl; [reflexivity|].
  now rewrite IH.
Qed.

(** ** The detail extractor *)

Lemma process_row_keys details row : keys (process_row details row) = keys details.
Proof.
  unfold process_row. destruct (row_entry row) as [[key value]|]; [|reflexivity].
  destruct (dict_mem key details) eqn:E; [|reflexivity].
  now apply dict_set_keys.
Qed.

Lemma process_rows_keys rows details :
  keys (fold_left process_row rows details) = keys details.
Proof.
  revert details. induction rows as [|row rows IH]; intros details; simpl; [reflexivity|].
  now rewrite IH, process_row_keys.
Qed.

Lemma process_row_other details row name :
  (forall key value, row_entry row = Some (key, value) -> key <> name) ->
  dict_get name (process_row details row) = dict_get name details.
Proof.
  intros H. unfold process_row.
  destruct (row_entry row) as [[key value]|] eqn:E; [|reflexivity].
  destruct (dict_mem key details); [|reflexivity].
  apply dict_get_set_other. intros ->. now apply (H key value).
Qed.

Lemma process_rows_other rows details name :
  never_offered name rows ->
  dict_get name (fold_left process_row rows details) = dict_get name details.
Proof.
  revert details. induction rows as [|row rows IH]; intros details H; simpl; [reflexivity|].
  rewrite IH.
  - apply process_row_other. intros key value. apply H. now left.
  - intros r key value Hin. apply H. now right.
Qed.

Lemma details_of_rows soup url :
  details_of soup url = fold_left process_row (detail_rows soup) (initial_details url).
Proof.
  unfold details_of, detail_rows. now destruct (find_all "table" soup).
Qed.

Lemma initial_details_get url name :
  In name field_names ->
  dict_get name (initial_details url) = Some (if String.eqb name "URL" then url else "").
Proof.
  unfold field_names. simpl.
  intros H. repeat (destruct H as [<- | H]; [reflexivity|]). contradiction.
Qed.

(** The extractor fails only when the request does. *)
Lemma extract_accident_details_ok srv url w soup w1 :
  _make_request srv url w = (Ok soup, w1) ->
  _extract_accident_details srv url w = (Ok (details_of soup url), w1).
Proof.
  intros H. unfold _extract_accident_details, bind. now rewrite H.
Qed.

Lemma extract_accident_details_err srv url w e w1 :
  _make_request srv url w = (Err e, w1) ->
  _extract_accident_details srv url w = (Err e, w1).
Proof.
  intros H. unfold _extract_accident_details, bind. now rewrite H.
Qed.

Lemma never_offered_by_rows name rows :
  forallb (fun row => match row_entry row with
                      | Some (key, _) => negb (String.eqb key name)
                      | None => true
                      end) rows = true ->
  never_offered name rows.
Proof.
  intros H row key value Hin Hrow. rewrite forallb_forall in H.
  specialize (H row Hin). rewrite Hrow in H.
  apply negb_true_iff in H. now apply String.eqb_neq.
Qed.

(** C8 (as stated) fails for the URL field: on a page whose rows never
    offer it, it holds the address of the page, not the empty string.  It
    also fails for a row outside the first table: such a row sets nothing. *)
Lemma detail_rows_fill_fields_counterexample :
  In "URL" field_names
  /\ never_offered "URL" (detail_rows (detail_doc [("Date:", "2024-01-05")]))
  /\ dict_get "URL" (details_of (detail_doc [("Date:", "2024-01-05")]) sample_url)
     = Some sample_url
  /\ dict_get "URL" (details_of (detail_doc [("Date:", "2024-01-05")]) sample_url)
     <> Some ""
  /\ In date_row (find_all "tr" two_table_doc)
  /\ row_entry date_row = Some ("Date", "2024-01-05")
  /\ dict_get "Date" (details_of two_table_doc sample_url) = Some "".
Proof.
  split; [simpl; tauto|]. split; [apply never_offered_by_rows; reflexivity|].
  split; [reflexivity|]. split; [vm_compute; discriminate|].
  split; [now left|]. split; reflexivity.
Qed.

(** C9: the record's URL field is meant to be the address it was fetched
    from, but a row of the page whose key reads URL replaces it. *)
Theorem url_field_overwritten :
  exists details w,
    _extract_accident_details (static_site [(sample_url, url_row_doc)]) sample_url start_world
    = (Ok details, w)
    /\ dict_get "URL" details = Some "http://elsewhere.example/9"
    /\ dict_get "URL" details <> Some sample_url.
Proof.
  eexists. eexists. split; [reflexivity|].
  split; [reflexivity | vm_compute; discriminate].
Qed.

(** ** Frames: what the steps of a crawl leave alone *)

Lemma keeps_file_ret {A} (a : A) : keeps_file (ret a).
Proof. now intros w. Qed.

Lemma keeps_file_raise {A} e : keeps_file (@raise A e).
Proof. now intros w. Qed.

Lemma keeps_file_lift {A} (r : result A) : keeps_file (lift r).
Proof. now intros w. Qed.

Lemma keeps_file_say ev : keeps_file (say ev).
Proof. now intros w. Qed.

Lemma keeps_file_bind {A B} (m : M A) (f : A -> M B) :
  keeps_file m -> (forall a, keeps_file (f a)) -> keeps_file (bind m f).
Proof.
  intros Hm Hf w. unfold bind. specialize (Hm w).
  destruct (m w) as [[a|e] w1]; simpl in *; [|assumption].
  now rewrite Hf.
Qed.

Lemma keeps_file_request_loop srv url attempt remaining :
  keeps_file (request_loop srv url attempt remaining).
Proof.
  revert attempt. induction remaining as [|r IH]; intros attempt w; simpl; [reflexivity|].
  destruct (srv (clock w) url); try reflexivity.
  destruct (attempt =? 2)%nat; [reflexivity|].
  now rewrite IH.
Qed.

Create HintDb frames.

#[local] Hint Resolve keeps_file_ret keeps_file_raise keeps_file_lift keeps_file_say
  keeps_file_request_loop : frames.

Ltac frame_steps :=
  repeat first
    [ apply keeps_file_bind; [|intros]
    | match goal with
      | |- keeps_file (match ?x with _ => _ end) => destruct x
      | |- keeps_file (_make_request _ _) => apply keeps_file_request_loop
      end
    | solve [auto with frames] ].

Lemma keeps_file_analyze_page srv base_url year page total_accidents page_counts :
  keeps_file (analyze_page srv base_url year page total_accidents page_counts).
Proof. unfold analyze_page. frame_steps. Qed.

Lemma keeps_file_check_page srv base_url year page total_accidents :
  keeps_file (check_page srv base_url year page total_accidents).
Proof. unfold check_page. frame_steps. Qed.

Lemma analysis_loop_file srv base_url fuel year page total_accidents page_counts w :
  file (snd (analysis_loop srv base_url fuel year page total_accidents page_counts w)) = file w.
Proof.
  revert page total_accidents page_counts w.
  induction fuel as [|fuel IH]; intros page total_accidents page_counts w; simpl; [reflexivity|].
  pose proof (keeps_file_analyze_page srv base_url year page total_accidents page_counts w) as F.
  destruct (analyze_page _ _ _ _ _ _ w) as [[[[total counts] []]|e] w1]; simpl in *.
  - assumption.
  - now rewrite IH.
  - assumption.
Qed.

(** ** Runs and fuel *)

Lemma analysis_loop_steps srv base_url year n s page total_accidents page_counts w fuel :
  analysis_steps srv base_url year n s (page, total_accidents, page_counts, w) ->
  let '(page0, total0, counts0, w0) := s in
  analysis_loop srv base_url (n + fuel) year page0 total0 counts0 w0
  = analysis_loop srv base_url fuel year page total_accidents page_counts w.
Proof.
  intros H. remember (page, total_accidents, page_counts, w) as s' eqn:E.
  induction H as [s|n page0 total0 counts0 w0 total counts w1 s' Hstep Hrest IH].
  - now subst s.
  - simpl. rewrite Hstep. apply IH, E.
Qed.

Lemma scraping_loop_steps srv base_url output_file year total_accidents n s page all_samples w fuel :
  scraping_steps srv base_url output_file year total_accidents n s (page, all_samples, w) ->
  let '(page0, samples0, w0) := s in
  scraping_loop srv base_url (n + fuel) output_file year page0 total_accidents samples0 w0
  = scraping_loop srv base_url fuel output_file year page total_accidents all_samples w.
Proof.
  intros H. remember (page, all_samples, w) as s' eqn:E.
  induction H as [s|n page0 samples0 w0 sr er links w1 samples1 w2 s' Hcheck Hlinks Hend Hrest IH].
  - now subst s.
  - simpl. rewrite Hcheck, Hlinks, Hend. apply IH, E.
Qed.

(** ** One page of each loop *)

Section OnePage.
Variables (srv : server) (base_url : string) (year : Z) (page : nat).
Variables (w w1 : world) (soup : node) (page_total start_range end_range : Z).
Hypothesis Hrequest : _make_request srv (listing_url base_url year page) w = (Ok soup, w1).
Hypothesis Hinfo : _get_page_info soup year page = Ok (page_total, start_range, end_range).

Lemma analyze_page_mismatch t page_counts :
  page_total <> t ->
  analyze_page srv base_url year page (Some t) page_counts w
  = (Err (Total_mismatch t page_total), w1).
Proof.
  intros N. unfold analyze_page, bind, lift. rewrite Hrequest, Hinfo.
  assert ((t =? page_total) = false) as -> by (apply Z.eqb_neq; congruence).
  reflexivity.
Qed.

Lemma check_page_changed t :
  page_total <> t ->
  check_page srv base_url year page t w = (Err (Total_changed t page_total), w1).
Proof.
  intros N. unfold check_page, bind, lift. rewrite Hrequest, Hinfo.
  assert ((page_total =? t) = false) as -> by now apply Z.eqb_neq.
  reflexivity.
Qed.

Lemma check_page_links_mismatch page_links :
  _get_page_links base_url soup = Ok page_links ->
  Z.of_nat (List.length page_links) <> Z.min 100 (end_range - start_range + 1) ->
  check_page srv base_url year page page_total w
  = (Err (Links_mismatch (Z.min 100 (end_range - start_range + 1)) (List.length page_links)),
     emit (Info_processing_range start_range end_range page_total) w1).
Proof.
  intros Hlinks N. unfold check_page, bind, lift. rewrite Hrequest, Hinfo.
  rewrite Z.eqb_refl. cbn [ret say]. rewrite Hlinks.
  apply Z.eqb_neq in N. now rewrite N.
Qed.

Lemma check_page_ok page_links :
  _get_page_links base_url soup = Ok page_links ->
  Z.of_nat (List.length page_links) = Z.min 100 (end_range - start_range + 1) ->
  check_page srv base_url year page page_total w
  = (Ok (start_range, end_range, page_links),
     emit (Info_processing_range start_range end_range page_total) w1).
Proof.
  intros Hlinks E. unfold check_page, bind, lift. rewrite Hrequest, Hinfo.
  rewrite Z.eqb_refl. cbn [ret say]. rewrite Hlinks.
  apply Z.eqb_eq in E. now rewrite E.
Qed.
End OnePage.

(** A page that passes the analysis reported the total in force. *)
Lemma analyze_page_ok_inv srv base_url year page t page_counts w total counts last w' :
  analyze_page srv base_url year page (Some t) page_counts w = (Ok (total, counts, last), w') ->
  total = t /\
  exists soup w1 start_range end_range,
    _make_request srv (listing_url base_url year page) w = (Ok soup, w1)
    /\ _get_page_info soup year page = Ok (t, start_range, end_range).
Proof.
  unfold analyze_page, bind, lift.
  destruct (_make_request srv _ w) as [[soup|e] w1] eqn:Hrequest; [|discriminate].
  destruct (_get_page_info soup year page) as [[[pt s] e]|e] eqn:Hinfo; [|discriminate].
  destruct (t =? pt) eqn:E; [|discriminate]. apply Z.eqb_eq in E as <-.
  cbn [ret]. destruct (_get_page_links base_url soup); [|discriminate].
  intros [= <- _ _ _]. split; [reflexivity|]. now exists soup, w1, s, e.
Qed.

(** The first page analyzed sets the total. *)
Lemma analyze_page_first_inv srv base_url year page page_counts w total counts last w' :
  analyze_page srv base_url year page None page_counts w = (Ok (total, counts, last), w') ->
  exists soup w1 start_range end_range,
    _make_request srv (listing_url base_url year page) w = (Ok soup, w1)
    /\ _get_page_info soup year page = Ok (total, start_range, end_range).
Proof.
  unfold analyze_page, bind, lift.
  destruct (_make_request srv _ w) as [[soup|e] w1] eqn:Hrequest; [|discriminate].
  destruct (_get_page_info soup year page) as [[[pt s] e]|e] eqn:Hinfo; [|discriminate].
  cbn [ret]. destruct (_get_page_links base_url soup); [|discriminate].
  intros [= <- _ _ _]. now exists soup, w1, s, e.
Qed.

(** A page that passes the checks of the scraping loop reported the total
    found by the analysis, and has as many links as its range is wide. *)
Lemma check_page_ok_inv srv base_url year page t w start_range end_range page_links w' :
  check_page srv base_url year page t w = (Ok (start_range, end_range, page_links), w') ->
  exists soup w1,
    _make_request srv (listing_url base_url year page) w = (Ok soup, w1)
    /\ _get_page_info soup year page = Ok (t, start_range, end_range)
    /\ _get_page_links base_url soup = Ok page_links
    /\ Z.of_nat (List.length page_links) = Z.min 100 (end_range - start_range + 1).
Proof.
  unfold check_page, bind, lift.
  destruct (_make_request srv _ w) as [[soup|e] w1] eqn:Hrequest; [|discriminate].
  destruct (_get_page_info soup year page) as [[[pt s] e]|e] eqn:Hinfo; [|discriminate].
  destruct (pt =? t) eqn:E; [|discriminate]. apply Z.eqb_eq in E as ->.
  cbn [ret say]. destruct (_get_page_links base_url soup) as [links|] eqn:Hlinks; [|discriminate].
  destruct (Z.of_nat (List.length links) =? _) eqn:L; [|discriminate].
  cbn [ret]. intros [= <- <- <- _]. apply Z.eqb_eq in L.
  exists soup, w1. repeat split; assumption.
Qed.

(** The captured total does not change along the analysis. *)
Lemma analysis_steps_total srv base_url year n page t page_counts w page' total' counts' w' :
  analysis_steps srv base_url year n (page, Some t, page_counts, w) (page', total', counts', w') ->
  total' = Some t.
Proof.
  intros H.
  remember (page, Some t, page_counts, w) as s eqn:Es.
  remember (page', total', counts', w') as s' eqn:Es'.
  revert page page_counts w Es.
  induction H as [s|n p0 t0 c0 w0 total counts w1 s' Hstep Hrest IH];
    intros page page_counts w Es.
  - congruence.
  - injection Es as -> -> -> ->.
    apply analyze_page_ok_inv in Hstep as [-> _].
    now apply (IH Es' (S page) counts w1).
Qed.

(** C7: when the analysis of any page the first phase gets to fails,
    whatever the error, the crawl returns the empty frame: the error is the
    last line logged, nothing found so far is returned and no output file is
    written. *)
Theorem analysis_error_gives_nothing
        srv base_url proceed year output_dir w0
        n page total_accidents page_counts w e w1 fuel :
  analysis_steps srv base_url year n
                 (1%nat, None, [], emit (Print_analyzing year) w0)
                 (page, total_accidents, page_counts, w) ->
  analyze_page srv base_url year page total_accidents page_counts w = (Err e, w1) ->
  (n < fuel)%nat ->
  scrape_year srv base_url fuel proceed year output_dir w0
  = (Some (Returns []), emit (Error_analyzing page e) w1)
  /\ file (emit (Error_analyzing page e) w1) = file w0.
Proof.
  intros Hsteps Herr Hfuel.
  assert (analysis_loop srv base_url fuel year 1 None [] (emit (Print_analyzing year) w0)
          = (Some Failed, emit (Error_analyzing page e) w1)) as E.
  { replace fuel with (n + S (fuel - S n))%nat by lia.
    rewrite (analysis_loop_steps _ _ _ _ _ _ _ _ _ (S (fuel - S n)) Hsteps).
    cbn [analysis_loop]. now rewrite Herr. }
  split.
  - unfold scrape_year. now rewrite E.
  - pose proof (analysis_loop_file srv base_url fuel year 1 None []
                                   (emit (Print_analyzing year) w0)) as F.
    rewrite E in F. exact F.
Qed.

Lemma analysis_error_gives_nothing_witness :
  scrape_year shrunk_site asn 5 "y" 2024 "output" start_world
  = (Some (Returns []),
     emit (Error_analyzing 3 (Total_mismatch 50 48))
          (World 3 [Print_analyzing 2024; Print_page 1 1 1 20; Print_page 2 1 21 40] None)).
Proof.
  apply (analysis_error_gives_nothing shrunk_site asn "y" 2024 "output" start_world
           2 3 (Some 50) [1; 1]%nat
           (World 2 [Print_analyzing 2024; Print_page 1 1 1 20; Print_page 2 1 21 40] None)).
  - eapply analysis_next; [reflexivity|].
    eapply analysis_next; [reflexivity|].
    apply analysis_here.
  - reflexivity.
  - lia.
Defined.

(** ** The log of the link loop *)

Lemma link_errors_app evs1 evs2 :
  link_errors (evs1 ++ evs2) = (link_errors evs1 ++ link_errors evs2)%list.
Proof. unfold link_errors. apply flat_map_app. Qed.

Lemma request_loop_log srv url attempt remaining w :
  exists evs,
    log (snd (request_loop srv url attempt remaining w)) = (log w ++ evs)%list
    /\ link_errors evs = [].
Proof.
  revert attempt w. induction remaining as [|r IH]; intros attempt w; simpl.
  - exists []. now rewrite app_nil_r.
  - destruct (srv (clock w) url).
    + destruct (attempt =? 2)%nat.
      * now exists [Warning_attempt (attempt + 1) url].
      * destruct (IH (S attempt) (emit (Warning_attempt (attempt + 1) url) (tick w)))
          as (evs & E & L).
        exists (Warning_attempt (attempt + 1) url :: evs).
        rewrite E. simpl. now rewrite <- app_assoc.
    + exists []. now rewrite app_nil_r.
Qed.

Lemma process_link_spec srv output_file page n i link all_samples w all_samples' w' :
  process_link srv output_file page n i link all_samples w = (all_samples', w') ->
  exists evs,
    log w' = (log w ++ evs)%list
    /\ ((exists details, all_samples' = (all_samples ++ [details])%list
                         /\ link_errors evs = []
                         /\ file w' = Some (output_file, all_samples'))
        \/ (exists e, all_samples' = all_samples
                      /\ link_errors evs = [(link, e)]
                      /\ In (Error_processing_link link e) evs)).
Proof.
  unfold process_link, _extract_accident_details, bind, _make_request.
  destruct (request_loop_log srv link 0 max_retries (emit (Info_processing_accident i n page) w))
    as (evs & E & L).
  destruct (request_loop srv link 0 max_retries _) as [[soup|e] w1]; simpl in E.
  - cbn [ret]. intros [= <- <-].
    exists (Info_processing_accident i n page :: evs ++ [Info_progress_saved (List.length (all_samples ++ [details_of soup link]))])%list.
    split.
    + simpl. rewrite E. now rewrite <- !app_assoc.
    + left. exists (details_of soup link). repeat split.
      change (link_errors (?a :: ?l)) with (link_errors l).
      now rewrite link_errors_app, L.
  - intros [= <- <-].
    exists (Info_processing_accident i n page :: evs ++ [Error_processing_link link e])%list.
    split.
    + simpl. rewrite E. now rewrite <- !app_assoc.
    + right. exists e. repeat split.
      * change (link_errors (?a :: ?l)) with (link_errors l).
        now rewrite link_errors_app, L.
      * right. apply in_or_app. right. now left.
Qed.

Lemma process_links_spec srv output_file page n links :
  forall i all_samples w all_samples' w',
    process_links srv output_file page n i links all_samples w = (all_samples', w') ->
    exists recs evs,
      all_samples' = (all_samples ++ recs)%list
      /\ log w' = (log w ++ evs)%list
      /\ (List.length recs + List.length (link_errors evs) = List.length links)%nat
      /\ (forall link e, In (link, e) (link_errors evs) ->
                         In link links /\ In (Error_processing_link link e) evs).
Proof.
  induction links as [|link links IH]; intros i all_samples w all_samples' w' H; simpl in H.
  - injection H as <- <-. exists [], []. rewrite !app_nil_r. repeat split; contradiction.
  - destruct (process_link srv output_file page n i link all_samples w) as [s1 w1] eqn:E1.
    apply process_link_spec in E1 as (evs1 & L1 & C1).
    apply IH in H as (recs & evs & -> & L & N & F).
    destruct C1 as [(details & -> & LE & _) | (e & -> & LE & I)].
    + exists (details :: recs), (evs1 ++ evs)%list.
      rewrite L, L1, link_errors_app, LE, <- !app_assoc. simpl.
      repeat split; try lia.
      * right. now apply (F link0 e).
      * apply in_or_app. right. now apply (F link0 e).
    + exists recs, (evs1 ++ evs)%list.
      rewrite L, L1, link_errors_app, LE, <- !app_assoc. simpl.
      repeat split; try lia.
      * destruct H as [[= <- <-] | H]; [now left | right; now apply (F link0 e0)].
      * apply in_or_app.
        destruct H as [[= <- <-] | H]; [now left | right; now apply (F link0 e0)].
Qed.

(** The loop is a sequence: the links after a prefix are processed
    in the world the prefix leaves. *)
Lemma process_links_app srv output_file page n links1 links2 :
  forall i all_samples w,
    process_links srv output_file page n i (links1 ++ links2) all_samples w
    = let '(all_samples1, w1) := process_links srv output_file page n i links1 all_samples w in
      process_links srv output_file page n (i + List.length links1) links2 all_samples1 w1.
Proof.
  induction links1 as [|link links1 IH]; intros i all_samples w; simpl.
  - now rewrite Nat.add_0_r.
  - destruct (process_link srv output_file page n i link all_samples w) as [s1 w1].
    rewrite IH. now rewrite Nat.add_succ_r.
Qed.

(** The scraping loop only ever adds to the samples. *)
Lemma scraping_loop_prefix srv base_url output_file year total_accidents fuel :
  forall page all_samples w final page' w',
    scraping_loop srv base_url fuel output_file year page total_accidents all_samples w
    = (Some (final, page'), w') ->
    exists more, final = (all_samples ++ more)%list.
Proof.
  induction fuel as [|fuel IH]; intros page all_samples w final page' w' H; simpl in H;
    [discriminate|].
  destruct (check_page _ _ _ _ _ _) as [[[[sr er] links]|e] w1].
  - destruct (process_links _ _ _ _ _ _ _ _) as [s2 w2] eqn:E.
    apply process_links_spec in E as (recs & evs & -> & _).
    destruct (er >=? total_accidents).
    + injection H as <- _ _. now exists recs.
    + apply IH in H as (more & ->). exists (recs ++ more)%list. now rewrite app_assoc.
  - injection H as <- _ _. exists []. now rewrite app_nil_r.
Qed.

(** ** The crawl *)

(** After at least one iteration the analysis holds the total reported by
    the first page it fetched. *)
Lemma analysis_steps_first srv base_url year n page0 counts0 w0 page total counts w :
  analysis_steps srv base_url year (S n) (page0, None, counts0, w0) (page, total, counts, w) ->
  exists t soup w1 start_range end_range,
    total = Some t
    /\ _make_request srv (listing_url base_url year page0) w0 = (Ok soup, w1)
    /\ _get_page_info soup year page0 = Ok (t, start_range, end_range).
Proof.
  intros H. inversion H as [|n' p t0 c w' t counts' w1 s' Hstep Hrest]; subst.
  apply analysis_steps_total in Hrest.
  apply analyze_page_first_inv in Hstep as (soup & w2 & s & e & Hreq & Hinfo).
  now exists t, soup, w2, s, e.
Qed.

(** C1: in the analysis, a page whose total differs from the one in force
    ends the crawl with the total-mismatch error, the total in force is the
    one the first page reported, and a page that passes reported that very
    total; the scraping loop makes the same comparison on every page it
    fetches.  Three pages reporting 50, 50, 50 are accepted; with 50, 50, 48
    the crawl stops at the third page. *)
Theorem total_checked_on_every_page :
  (forall srv base_url year page t page_counts w soup w1 page_total start_range end_range fuel,
      _make_request srv (listing_url base_url year page) w = (Ok soup, w1) ->
      _get_page_info soup year page = Ok (page_total, start_range, end_range) ->
      page_total <> t ->
      analysis_loop srv base_url (S fuel) year page (Some t) page_counts w
      = (Some Failed, emit (Error_analyzing page (Total_mismatch t page_total)) w1))
  /\ (forall srv base_url year n page0 counts0 w0 page total counts w,
      analysis_steps srv base_url year (S n) (page0, None, counts0, w0)
                     (page, total, counts, w) ->
      exists t soup w1 start_range end_range,
        total = Some t
        /\ _make_request srv (listing_url base_url year page0) w0 = (Ok soup, w1)
        /\ _get_page_info soup year page0 = Ok (t, start_range, end_range))
  /\ (forall srv base_url year page t page_counts w total counts last w',
      analyze_page srv base_url year page (Some t) page_counts w
      = (Ok (total, counts, last), w') ->
      total = t /\
      exists soup w1 start_range end_range,
        _make_request srv (listing_url base_url year page) w = (Ok soup, w1)
        /\ _get_page_info soup year page = Ok (t, start_range, end_range))
  /\ (forall srv base_url output_file year page t all_samples w soup w1
             page_total start_range end_range fuel,
      _make_request srv (listing_url base_url year page) (emit (Info_processing_page page) w)
      = (Ok soup, w1) ->
      _get_page_info soup year page = Ok (page_total, start_range, end_range) ->
      page_total <> t ->
      scraping_loop srv base_url (S fuel) output_file year page t all_samples w
      = (Some (all_samples, page),
         emit (Error_processing_page page (Total_changed t page_total)) w1))
  /\ (forall srv base_url year page t w start_range end_range page_links w',
      check_page srv base_url year page t w = (Ok (start_range, end_range, page_links), w') ->
      exists soup w1,
        _make_request srv (listing_url base_url year page) w = (Ok soup, w1)
        /\ _get_page_info soup year page = Ok (t, start_range, end_range))
  /\ fst (analysis_loop steady_site asn 3 2024 1 None [] start_world)
     = Some (Confirmed 3 50 [1; 1; 1]%nat)
  /\ analysis_loop shrunk_site asn 3 2024 1 None [] start_world
     = (Some Failed,
        World 3 [Print_page 1 1 1 20; Print_page 2 1 21 40;
                 Error_analyzing 3 (Total_mismatch 50 48)] None).
Proof.
  split; [|split; [|split; [|split; [|split; [|split]]]]].
  - intros srv base_url year page t page_counts w soup w1 pt s e fuel Hreq Hinfo N.
    cbn [analysis_loop].
    now rewrite (analyze_page_mismatch srv base_url year page w w1 soup pt s e Hreq Hinfo).
  - intros. eapply analysis_steps_first; eassumption.
  - intros. eapply analyze_page_ok_inv; eassumption.
  - intros srv base_url output_file year page t all_samples w soup w1 pt s e fuel Hreq Hinfo N.
    cbn [scraping_loop].
    now rewrite (check_page_changed srv base_url year page _ w1 soup pt s e Hreq Hinfo).
  - intros srv base_url year page t w s e links w' H.
    apply check_page_ok_inv in H as (soup & w1 & Hreq & Hinfo & _).
    now exists soup, w1.
  - reflexivity.
  - reflexivity.
Qed.

Lemma total_checked_on_every_page_witness :
  analysis_loop shrunk_site asn 1 2024 3 (Some 50) [1; 1]%nat (World 2 [] None)
  = (Some Failed, emit (Error_analyzing 3 (Total_mismatch 50 48)) (World 3 [] None))
  /\ (exists t soup w1 start_range end_range,
         Some 50 = Some t
         /\ _make_request steady_site (listing_url asn 2024 1) start_world = (Ok soup, w1)
         /\ _get_page_info soup 2024 1 = Ok (t, start_range, end_range))
  /\ scraping_loop drifting_site asn 1 "output/asn_accidents_2024.csv" 2024 2 3 []
                   (World 7 [] None)
     = (Some ([], 2%nat),
        emit (Error_processing_page 2 (Total_changed 3 4))
             (World 8 [Info_processing_page 2] None)).
Proof.
  destruct total_checked_on_every_page as (Hmismatch & Hfirst & _ & Hchanged & _).
  split; [|split].
  - apply (Hmismatch shrunk_site asn 2024 3%nat 50 [1; 1]%nat (World 2 [] None)
                     (listing_doc (range_caption "41" "48" "48") ["/wikibase/41"])
                     (World 3 [] None) 48 41 48 0%nat); try reflexivity.
    discriminate.
  - apply (Hfirst steady_site asn 2024 0%nat 1%nat [] start_world 2%nat (Some 50) [1]%nat
                  (World 1 [Print_page 1 1 1 20] None)).
    eapply analysis_next; [reflexivity|]. apply analysis_here.
  - apply (Hchanged drifting_site asn "output/asn_accidents_2024.csv" 2024 2%nat 3 []
                    (World 7 [] None)
                    (listing_doc (range_caption "3" "4" "4") ["/wikibase/3"; "/wikibase/4"])
                    (World 8 [Info_processing_page 2] None) 4 3 4 0%nat); try reflexivity.
    discriminate.
Defined.

(** C4: in the scraping loop, a page with a number of links other than
    [min(100, end - start + 1)] stops the crawl there, before any of its
    links is fetched; a page with that number has its links processed one
    after the other, in order, each by a fetch of its detail page followed
    by the extraction, and the loop then goes on as the range says. *)
Theorem link_count_checked :
  (forall srv base_url output_file year page t all_samples w soup w1
          start_range end_range page_links fuel,
      _make_request srv (listing_url base_url year page) (emit (Info_processing_page page) w)
      = (Ok soup, w1) ->
      _get_page_info soup year page = Ok (t, start_range, end_range) ->
      _get_page_links base_url soup = Ok page_links ->
      Z.of_nat (List.length page_links) <> Z.min 100 (end_range - start_range + 1) ->
      scraping_loop srv base_url (S fuel) output_file year page t all_samples w
      = (Some (all_samples, page),
         emit (Error_processing_page page
                 (Links_mismatch (Z.min 100 (end_range - start_range + 1))
                                 (List.length page_links)))
              (emit (Info_processing_range start_range end_range t) w1)))
  /\ (forall srv base_url output_file year page t all_samples w soup w1
             start_range end_range page_links fuel,
      _make_request srv (listing_url base_url year page) (emit (Info_processing_page page) w)
      = (Ok soup, w1) ->
      _get_page_info soup year page = Ok (t, start_range, end_range) ->
      _get_page_links base_url soup = Ok page_links ->
      Z.of_nat (List.length page_links) = Z.min 100 (end_range - start_range + 1) ->
      scraping_loop srv base_url (S fuel) output_file year page t all_samples w
      = let '(all_samples', w2) :=
          process_links srv output_file page (List.length page_links) 1 page_links all_samples
                        (emit (Info_processing_range start_range end_range t) w1) in
        if end_range >=? t
        then (Some (all_samples', page), emit (Info_reached_end page) w2)
        else scraping_loop srv base_url fuel output_file year (S page) t all_samples' w2)
  /\ (forall srv output_file page n i links1 links2 all_samples w,
      process_links srv output_file page n i (links1 ++ links2) all_samples w
      = let '(all_samples1, w1) :=
          process_links srv output_file page n i links1 all_samples w in
        process_links srv output_file page n (i + List.length links1) links2 all_samples1 w1)
  /\ (forall srv output_file page n i link all_samples w soup w1,
      _make_request srv link (emit (Info_processing_accident i n page) w) = (Ok soup, w1) ->
      process_links srv output_file page n i [link] all_samples w
      = ((all_samples ++ [details_of soup link])%list,
         emit (Info_progress_saved (List.length (all_samples ++ [details_of soup link])))
              (to_csv output_file (all_samples ++ [details_of soup link])%list w1))).
Proof.
  split; [|split; [|split]].
  - intros srv base_url output_file year page t all_samples w soup w1 s e links fuel
           Hreq Hinfo Hlinks N.
    cbn [scraping_loop].
    now rewrite (check_page_links_mismatch srv base_url year page _ w1 soup t s e
                                           Hreq Hinfo links Hlinks N).
  - intros srv base_url output_file year page t all_samples w soup w1 s e links fuel
           Hreq Hinfo Hlinks E.
    cbn [scraping_loop].
    now rewrite (check_page_ok srv base_url year page _ w1 soup t s e
                               Hreq Hinfo links Hlinks E).
  - intros. apply process_links_app.
  - intros srv output_file page n i link all_samples w soup w1 Hreq.
    cbn [process_links]. unfold process_link.
    now rewrite (extract_accident_details_ok srv link _ soup w1 Hreq).
Qed.

Lemma link_count_checked_witness :
  scraping_loop short_site asn 1 "output/asn_accidents_2024.csv" 2024 1 3 [] (World 2 [] None)
  = (Some ([], 1%nat),
     emit (Error_processing_page 1 (Links_mismatch 2 1))
          (emit (Info_processing_range 1 2 3) (World 3 [Info_processing_page 1] None)))
  /\ fst (scraping_loop small_site asn 1 "output/asn_accidents_2024.csv" 2024 2 3 []
                        start_world)
     = Some ([details_of (detail_doc [("Date:", "2024-02-11"); ("Type:", "Boeing 737")])
                         (asn ++ "/wikibase/3")], 2%nat)
  /\ process_links small_site "output/asn_accidents_2024.csv" 2 1 1 [asn ++ "/wikibase/3"] []
                   start_world
     = ([details_of (detail_doc [("Date:", "2024-02-11"); ("Type:", "Boeing 737")])
                    (asn ++ "/wikibase/3")],
        emit (Info_progress_saved 1)
             (to_csv "output/asn_accidents_2024.csv"
                     [details_of (detail_doc [("Date:", "2024-02-11"); ("Type:", "Boeing 737")])
                                 (asn ++ "/wikibase/3")]
                     (World 1 [Info_processing_accident 1 1 2] None))).
Proof.
  destruct link_count_checked as (Hmismatch & Hmatch & _ & Hlink).
  split; [|split].
  - apply (Hmismatch short_site asn "output/asn_accidents_2024.csv" 2024 1%nat 3 []
                     (World 2 [] None)
                     (listing_doc (range_caption "1" "2" "3") ["/wikibase/1"])
                     (World 3 [Info_processing_page 1] None) 1 2 [asn ++ "/wikibase/1"] 0%nat);
      try reflexivity.
    discriminate.
  - rewrite (Hmatch small_site asn "output/asn_accidents_2024.csv" 2024 2%nat 3 []
                    start_world
                    (listing_doc (range_caption "3" "3" "3") ["/wikibase/3"])
                    (World 1 [Info_processing_page 2] None) 3 3 [asn ++ "/wikibase/3"] 0%nat);
      reflexivity.
  - apply (Hlink small_site "output/asn_accidents_2024.csv" 2%nat 1%nat 1%nat
                 (asn ++ "/wikibase/3") [] start_world
                 (detail_doc [("Date:", "2024-02-11"); ("Type:", "Boeing 737")])).
    reflexivity.
Defined.

(** C6: once the analysis is confirmed and accepted and the output
    directory is there, whatever the scraping loop returns is written to
    the output file after the loop; and when the fetch, the analysis or a
    check of a listing page fails, the loop ends on that page with the error
    logged, no further request is made, and the samples gathered before that
    page are what is written and returned. *)
Theorem page_failure_stops_and_saves :
  (forall srv base_url fuel proceed year output_dir w0 page_a total counts wa final page' w3,
      analysis_loop srv base_url fuel year 1 None [] (emit (Print_analyzing year) w0)
      = (Some (Confirmed page_a total counts), wa) ->
      lower proceed = "y" ->
      makedirs output_dir = None ->
      scraping_loop srv base_url fuel (output_path output_dir year) year 1 total []
                    (emit Print_starting (emit (Print_found total page_a) wa))
      = (Some (final, page'), w3) ->
      exists w',
        scrape_year srv base_url fuel proceed year output_dir w0 = (Some (Returns final), w')
        /\ file w' = Some (output_path output_dir year, final)
        /\ clock w' = clock w3
        /\ log w' = (log w3 ++ [Info_saved (List.length final) (output_path output_dir year);
                                Print_summary (List.length final) page' total])%list)
  /\ (forall srv base_url fuel proceed year output_dir w0 page_a total counts wa
             n page all_samples w e w1,
      analysis_loop srv base_url fuel year 1 None [] (emit (Print_analyzing year) w0)
      = (Some (Confirmed page_a total counts), wa) ->
      lower proceed = "y" ->
      makedirs output_dir = None ->
      scraping_steps srv base_url (output_path output_dir year) year total n
                     (1%nat, [], emit Print_starting (emit (Print_found total page_a) wa))
                     (page, all_samples, w) ->
      check_page srv base_url year page total (emit (Info_processing_page page) w)
      = (Err e, w1) ->
      (n < fuel)%nat ->
      exists w',
        scrape_year srv base_url fuel proceed year output_dir w0
        = (Some (Returns all_samples), w')
        /\ file w' = Some (output_path output_dir year, all_samples)
        /\ clock w' = clock w1
        /\ log w' = (log w1 ++ [Error_processing_page page e;
                                Info_saved (List.length all_samples) (output_path output_dir year);
                                Print_summary (List.length all_samples) page total])%list).
Proof.
  assert (forall srv base_url fuel proceed year output_dir w0 page_a total counts wa final page' w3,
      analysis_loop srv base_url fuel year 1 None [] (emit (Print_analyzing year) w0)
      = (Some (Confirmed page_a total counts), wa) ->
      lower proceed = "y" ->
      makedirs output_dir = None ->
      scraping_loop srv base_url fuel (output_path output_dir year) year 1 total []
                    (emit Print_starting (emit (Print_found total page_a) wa))
      = (Some (final, page'), w3) ->
      exists w',
        scrape_year srv base_url fuel proceed year output_dir w0 = (Some (Returns final), w')
        /\ file w' = Some (output_path output_dir year, final)
        /\ clock w' = clock w3
        /\ log w' = (log w3 ++ [Info_saved (List.length final) (output_path output_dir year);
                                Print_summary (List.length final) page' total])%list) as Hsave.
  { intros srv base_url fuel proceed year output_dir w0 page_a total counts wa final page' w3
           Ha Hp Hd Hs.
    eexists. split.
    - unfold scrape_year. rewrite Ha, Hp, Hd. cbn [String.eqb Ascii.eqb Bool.eqb negb].
      rewrite Hs. reflexivity.
    - repeat split. simpl. now rewrite <- app_assoc. }
  split; [exact Hsave|].
  intros srv base_url fuel proceed year output_dir w0 page_a total counts wa
         n page all_samples w e w1 Ha Hp Hd Hsteps Hcheck Hfuel.
  destruct (Hsave srv base_url fuel proceed year output_dir w0 page_a total counts wa
                  all_samples page (emit (Error_processing_page page e) w1) Ha Hp Hd)
    as (w' & Hrun & Hfile & Hclock & Hlog).
  - replace fuel with (n + S (fuel - S n))%nat by lia.
    rewrite (scraping_loop_steps _ _ _ _ _ _ _ _ _ _ (S (fuel - S n)) Hsteps).
    cbn [scraping_loop]. now rewrite Hcheck.
  - exists w'. repeat split; try assumption.
    rewrite Hlog. simpl. now rewrite <- app_assoc.
Qed.

Lemma page_failure_stops_and_saves_witness :
  exists w',
    scrape_year drifting_site asn 5 "y" 2024 "output" start_world
    = (Some (Returns
               [details_of (detail_doc [("Date:", "2024-01-05"); ("Type:", "Cessna 172")])
                           (asn ++ "/wikibase/1")]), w')
    /\ file w'
       = Some ("output/asn_accidents_2024.csv",
               [details_of (detail_doc [("Date:", "2024-01-05"); ("Type:", "Cessna 172")])
                           (asn ++ "/wikibase/1")])
    /\ In (Error_processing_page 2 (Total_changed 3 4)) (log w').
Proof.
  destruct page_failure_stops_and_saves as (_ & Habort).
  destruct (Habort drifting_site asn 5%nat "y" 2024 "output" start_world
                   2%nat 3 [2; 1]%nat
                   (World 2 [Print_analyzing 2024; Print_page 1 2 1 2; Print_page 2 1 3 3] None)
                   1%nat 2%nat
                   [details_of (detail_doc [("Date:", "2024-01-05"); ("Type:", "Cessna 172")])
                               (asn ++ "/wikibase/1")]
                   (snd (process_links drifting_site "output/asn_accidents_2024.csv" 1 2 1
                           [asn ++ "/wikibase/1"; asn ++ "/wikibase/2"] []
                           (World 3 [Print_analyzing 2024; Print_page 1 2 1 2; Print_page 2 1 3 3;
                                     Print_found 3 2; Print_starting; Info_processing_page 1;
                                     Info_processing_range 1 2 3] None)))
                   (Total_changed 3 4)
                   (snd (check_page drifting_site asn 2024 2 3
                           (emit (Info_processing_page 2)
                              (snd (process_links drifting_site "output/asn_accidents_2024.csv"
                                      1 2 1
                                      [asn ++ "/wikibase/1"; asn ++ "/wikibase/2"] []
                                      (World 3 [Print_analyzing 2024; Print_page 1 2 1 2;
                                                Print_page 2 1 3 3; Print_found 3 2;
                                                Print_starting; Info_processing_page 1;
                                                Info_processing_range 1 2 3] None)))))))
    as (w' & Hrun & Hfile & _ & Hlog).
  - reflexivity.
  - reflexivity.
  - reflexivity.
  - eapply scraping_next; [reflexivity | reflexivity | reflexivity | apply scraping_here].
  - reflexivity.
  - lia.
  - exists w'. split; [exact Hrun|]. split; [exact Hfile|].
    rewrite Hlog. apply in_or_app. right. now left.
Defined.

(** * Further properties *)

(** ** Decimal numerals *)

Ltac digit_step IH :=
  rewrite <- IH; f_equal;
  match goal with
  | |- context [digit_value ?c] =>
      let v := eval vm_compute in (digit_value c) in change (digit_value c) with v
  end;
  lia.

Lemma int_acc_pos d p :
  int_acc (Zpos p) (NilEmpty.string_of_uint d) = Zpos (Pos.of_uint_acc d p).
Proof.
  revert p. induction d; intros p;
    cbn [NilEmpty.string_of_uint Pos.of_uint_acc int_acc];
    [reflexivity | digit_step IHd ..].
Qed.

Lemma int_acc_zero d :
  int_acc 0 (NilEmpty.string_of_uint d) = Z.of_N (Pos.of_uint d).
Proof.
  induction d; cbn [NilEmpty.string_of_uint Pos.of_uint int_acc];
    [reflexivity | exact IHd | cbn [Z.of_N]; rewrite <- int_acc_pos; reflexivity ..].
Qed.

Lemma string_of_uint_digits d : all_chars is_digit (NilEmpty.string_of_uint d) = true.
Proof. induction d; simpl; auto. Qed.

(** [int(str(n)) == n], and [str(n)] is a numeral, for [n >= 0]. *)
Lemma int_of_str n : 0 <= n -> int_of_digits (str_of_int n) = n.
Proof.
  intros H. destruct n as [|p|p]; [reflexivity| |lia].
  unfold int_of_digits, str_of_int. cbn [Z.to_int NilZero.string_of_int].
  unfold NilZero.string_of_uint.
  pose proof (DecimalPos.Unsigned.to_uint_nonnil p) as N.
  pose proof (DecimalPos.Unsigned.of_to p) as E.
  destruct (Pos.to_uint p) eqn:D; try congruence;
    rewrite int_acc_zero, E; reflexivity.
Qed.

Lemma str_of_int_numeral n : 0 <= n -> numeral (str_of_int n) = true.
Proof.
  intros H. destruct n as [|p|p]; [reflexivity| |lia].
  unfold str_of_int. cbn [Z.to_int NilZero.string_of_int].
  unfold NilZero.string_of_uint.
  pose proof (DecimalPos.Unsigned.to_uint_nonnil p) as N.
  pose proof (string_of_uint_digits (Pos.to_uint p)) as A.
  destruct (Pos.to_uint p) eqn:D; try congruence;
    unfold numeral; rewrite A; reflexivity.
Qed.

(** ** Requests *)

Ltac same_world :=
  unfold tick, emit, warnings; cbn [clock log file List.map List.seq Nat.add];
  f_equal; f_equal;
  first [ lia
        | rewrite <- ?app_assoc; reflexivity
        | symmetry; apply app_nil_r ].

Ltac run_request :=
  unfold _make_request;
  cbn [request_loop clock emit tick log file max_retries Nat.eqb Nat.sub Nat.add].

Lemma request_answer_at srv url w k soup :
  (k < 3)%nat ->
  (forall i, (i < k)%nat -> srv (clock w + i)%nat url = Failure) ->
  srv (clock w + k)%nat url = Body soup ->
  _make_request srv url w
  = (Ok soup, World (clock w + k + 1) (log w ++ warnings url k) (file w)).
Proof.
  intros Hk Hfail Hbody. destruct w as [c l f]. cbn [clock log file] in *.
  destruct k as [|[|[|k]]]; [| | |lia].
  - rewrite Nat.add_0_r in Hbody. run_request. rewrite Hbody. same_world.
  - pose proof (Hfail 0%nat ltac:(lia)) as F0. rewrite Nat.add_0_r in F0.
    replace (c + 1)%nat with (S c) in Hbody by lia.
    run_request. rewrite F0, Hbody. same_world.
  - pose proof (Hfail 0%nat ltac:(lia)) as F0. rewrite Nat.add_0_r in F0.
    pose proof (Hfail 1%nat ltac:(lia)) as F1.
    replace (c + 1)%nat with (S c) in F1 by lia.
    replace (c + 2)%nat with (S (S c)) in Hbody by lia.
    run_request. rewrite F0, F1, Hbody. same_world.
Qed.

Lemma request_all_fail srv url w :
  (forall i, (i < 3)%nat -> srv (clock w + i)%nat url = Failure) ->
  _make_request srv url w
  = (Err (Request_failed url), World (clock w + 3) (log w ++ warnings url 3) (file w)).
Proof.
  intros Hfail. destruct w as [c l f]. cbn [clock log file] in *.
  pose proof (Hfail 0%nat ltac:(lia)) as F0. rewrite Nat.add_0_r in F0.
  pose proof (Hfail 1%nat ltac:(lia)) as F1.
  pose proof (Hfail 2%nat ltac:(lia)) as F2.
  replace (c + 1)%nat with (S c) in F1 by lia.
  replace (c + 2)%nat with (S (S c)) in F2 by lia.
  run_request. rewrite F0, F1, F2. same_world.
Qed.

(** The only error of a request is the fetch error, after three requests;
    a document returned is the reply to the last request made. *)
Lemma request_cases srv url w :
  (exists soup k, (k < 3)%nat
                  /\ _make_request srv url w
                     = (Ok soup, World (clock w + k + 1) (log w ++ warnings url k) (file w))
                  /\ srv (clock w + k)%nat url = Body soup)
  \/ _make_request srv url w
     = (Err (Request_failed url), World (clock w + 3) (log w ++ warnings url 3) (file w)).
Proof.
  destruct (srv (clock w + 0)%nat url) as [|soup0] eqn:E0.
  2:{ left. exists soup0, 0%nat. split; [lia|]. split; [|assumption].
      apply request_answer_at; [lia | intros; lia | assumption]. }
  destruct (srv (clock w + 1)%nat url) as [|soup1] eqn:E1.
  2:{ left. exists soup1, 1%nat. split; [lia|]. split; [|assumption].
      apply request_answer_at; [lia | | assumption].
      intros i Hi. now replace i with 0%nat by lia. }
  destruct (srv (clock w + 2)%nat url) as [|soup2] eqn:E2.
  2:{ left. exists soup2, 2%nat. split; [lia|]. split; [|assumption].
      apply request_answer_at; [lia | | assumption].
      intros [|[|i]] Hi; [assumption | assumption | lia]. }
  right. apply request_all_fail.
  intros [|[|[|i]]] Hi; [assumption | assumption | assumption | lia].
Qed.

(** X1: a request makes at most three attempts.  It returns the first
    reply it gets, after one warning for each attempt that failed before;
    when all three attempts fail it raises the fetch error, having made
    exactly three requests.  It raises nothing else and never touches the
    output file. *)
Theorem make_request_retries :
  (forall srv url w k soup,
      (k < 3)%nat ->
      (forall i, (i < k)%nat -> srv (clock w + i)%nat url = Failure) ->
      srv (clock w + k)%nat url = Body soup ->
      _make_request srv url w
      = (Ok soup, World (clock w + k + 1) (log w ++ warnings url k) (file w)))
  /\ (forall srv url w,
      (forall i, (i < 3)%nat -> srv (clock w + i)%nat url = Failure) ->
      _make_request srv url w
      = (Err (Request_failed url), World (clock w + 3) (log w ++ warnings url 3) (file w)))
  /\ (forall srv url w r w',
      _make_request srv url w = (r, w') ->
      (clock w < clock w' <= clock w + 3)%nat
      /\ file w' = file w
      /\ (forall e, r = Err e -> e = Request_failed url /\ clock w' = (clock w + 3)%nat)
      /\ (forall soup, r = Ok soup -> srv (clock w' - 1)%nat url = Body soup)).
Proof.
  split; [exact request_answer_at|]. split; [exact request_all_fail|].
  intros srv url w r w' H.
  destruct (request_cases srv url w) as [(soup & k & Hk & E & B) | E];
    rewrite E in H; injection H as <- <-; cbn [clock file].
  - split; [lia|]. split; [reflexivity|]. split; [discriminate|].
    intros soup' [= <-]. now replace (clock w + k + 1 - 1)%nat with (clock w + k)%nat by lia.
  - split; [lia|]. split; [reflexivity|]. split; [|discriminate].
    intros e' [= <-]. now split.
Qed.

Lemma make_request_retries_witness :
  _make_request flaky_site sample_url start_world
  = (Ok bare_doc, World 3 [Warning_attempt 1 sample_url; Warning_attempt 2 sample_url] None)
  /\ _make_request dead_site sample_url start_world
     = (Err (Request_failed sample_url),
        World 3 [Warning_attempt 1 sample_url; Warning_attempt 2 sample_url;
                 Warning_attempt 3 sample_url] None)
  /\ (clock start_world < 3 <= clock start_world + 3)%nat.
Proof.
  destruct make_request_retries as (Hanswer & Hfail & Hbound).
  split; [|split].
  - apply (Hanswer flaky_site sample_url start_world 2%nat bare_doc).
    + lia.
    + intros [|[|i]] H; [reflexivity | reflexivity | lia].
    + reflexivity.
  - apply (Hfail dead_site sample_url start_world). intros i _. reflexivity.
  - apply (Hbound dead_site sample_url start_world (Err (Request_failed sample_url))
                  (World 3 [Warning_attempt 1 sample_url; Warning_attempt 2 sample_url;
                            Warning_attempt 3 sample_url] None)).
    reflexivity.
Defined.

(** ** More on the page analyzer *)

Lemma space_not_letter_o (a : ascii) : is_space a = true -> Ascii.eqb "o" a = false.
Proof. by_cases_on_char a. Qed.

Lemma spaces_not_digits ws :
  all_chars is_space ws = true -> all_chars (fun a => negb (is_digit a)) ws = true.
Proof.
  induction ws as [|a ws IH]; simpl; [reflexivity|].
  intros H. apply andb_true_iff in H as [Ha H].
  now rewrite (space_not_digit a Ha), IH.
Qed.

Lemma stops_after_spaces ws rest :
  all_chars is_space ws = true -> stops is_digit rest = true ->
  stops is_digit (ws ++ rest) = true.
Proof.
  destruct ws as [|a ws]; simpl; [easy|].
  intros H _. apply andb_true_iff in H as [Ha _]. now rewrite (space_not_digit a Ha).
Qed.

(** After whitespace, a character that is neither whitespace nor the
    letter o ends the attempt at the total pattern. *)
Lemma count_tail_blocked g ws c rest :
  all_chars is_space ws = true -> is_space c = false -> Ascii.eqb "o" c = false ->
  count_tail g (ws ++ String c rest) = None.
Proof.
  intros Hws Hc Ho. unfold count_tail, Re.star.
  apply star_cap_none; [assumption | simpl; now rewrite Hc |].
  intros d1 [|b d2] E.
  - cbn [append Re.lit]. now rewrite Ho.
  - subst ws. rewrite all_chars_app in Hws. apply andb_true_iff in Hws as [_ Hws].
    simpl in Hws. apply andb_true_iff in Hws as [Hb _].
    cbn [append Re.lit]. now rewrite (space_not_letter_o b Hb).
Qed.

Lemma search_total_loose_caption ws1 a ws2 ws3 b n ws4 post :
  all_chars is_space ws1 = true -> all_chars is_space ws2 = true ->
  all_chars is_space ws3 = true -> all_chars is_space ws4 = true ->
  numeral a = true -> numeral b = true -> numeral n = true ->
  Re.search_total (loose_caption ws1 a ws2 ws3 b n ws4 post) = Some n.
Proof.
  intros H1 H2 H3 H4 Ha Hb Hn. unfold loose_caption.
  apply numeral_spec in Ha as [_ Ha]. apply numeral_spec in Hb as [_ Hb].
  rewrite search_total_skip_other by reflexivity.
  rewrite search_total_skip_other by now apply spaces_not_digits.
  rewrite search_total_skip_run; try assumption.
  - rewrite search_total_skip_other by now apply spaces_not_digits.
    rewrite (search_total_skip_other "-") by reflexivity.
    rewrite search_total_skip_other by now apply spaces_not_digits.
    rewrite search_total_skip_run; try assumption; try reflexivity.
    rewrite (search_total_skip_other " of ") by reflexivity.
    apply search_here. now apply total_at_numeral.
  - now apply stops_after_spaces.
  - intros g. now apply count_tail_blocked.
Qed.

Lemma search_range_loose_caption ws1 a ws2 ws3 b n ws4 post :
  ws1 <> "" ->
  all_chars is_space ws1 = true -> all_chars is_space ws2 = true ->
  all_chars is_space ws3 = true ->
  numeral a = true -> numeral b = true ->
  Re.search_range (loose_caption ws1 a ws2 ws3 b n ws4 post) = Some (a, b).
Proof.
  intros N1 H1 H2 H3 Ha Hb. unfold loose_caption.
  pose proof (numeral_head a (ws2 ++ "-" ++ ws3 ++ b ++ " of " ++ n ++ ws4
                                  ++ "occurrences" ++ post) Ha) as Sa.
  pose proof (numeral_head b (" of " ++ n ++ ws4 ++ "occurrences" ++ post) Hb) as Sb.
  apply numeral_spec in Ha as [Na Ha]. apply numeral_spec in Hb as [Nb Hb].
  apply search_here. unfold Re.range_at. rewrite lit_app.
  unfold Re.plus, Re.star.
  apply plus_cap_longest; try assumption.
  apply plus_cap_longest; try assumption; [now apply stops_after_spaces|].
  apply star_cap_longest; try assumption; [reflexivity|].
  rewrite (lit_app "-").
  apply star_cap_longest; try assumption.
  apply plus_cap_longest; try assumption; reflexivity.
Qed.

(** X2: a page the analyzer accepts has a caption holding a count, the
    total returned is the value of a numeral of that caption, the range
    returned satisfies [1 <= start <= end <= total], and when the caption
    writes no range the page is taken as the first one, ending at record
    100 at most. *)
Theorem page_info_sound soup year page total start end_ :
  _get_page_info soup year page = Ok (total, start, end_) ->
  valid_range start end_ total
  /\ exists content caption g,
      find_with "div" "id" "contentwrapper" soup = Some content
      /\ find_with "span" "class" "caption" content = Some caption
      /\ Re.search_total (get_text caption) = Some g
      /\ numeral g = true
      /\ total = int_of_digits g
      /\ has_count (get_text caption)
      /\ (Re.search_range (get_text caption) = None ->
          start = 1 /\ end_ = Z.min 100 total /\ end_ <= 100).
Proof.
  intros H. split; [now apply (get_page_info_valid soup year page)|].
  unfold _get_page_info in H.
  destruct (find_with "div" "id" "contentwrapper" soup) as [content|] eqn:Hc; [|discriminate].
  destruct (find_with "span" "class" "caption" content) as [caption|] eqn:Hs; [|discriminate].
  destruct (Re.search_total (get_text caption)) as [g|] eqn:Ht; [|discriminate].
  exists content, caption, g.
  destruct (search_total_some _ _ Ht) as [Hg Hcount].
  repeat (split; [first [reflexivity | assumption]|]).
  revert H. cbv zeta.
  destruct (Re.search_range (get_text caption)) as [[g1 g2]|];
    destruct (_ && _); try discriminate; intros [= <- <- <-].
  - split; [reflexivity|]. split; [assumption|]. discriminate.
  - split; [reflexivity|]. split; [assumption|]. intros _. repeat split. lia.
Qed.

Lemma page_info_sound_witness :
  valid_range 1 37 37.
Proof.
  apply (page_info_sound (listing_doc "37 occurrences" []) 2024 1%nat 37 1 37).
  reflexivity.
Defined.

(** X3: on a page with its container and caption, the analyzer reports
    that no total was found exactly when the caption holds no numeral
    followed, after optional whitespace, by the word occurrences. *)
Theorem total_not_found_iff soup content caption year page :
  find_with "div" "id" "contentwrapper" soup = Some content ->
  find_with "span" "class" "caption" content = Some caption ->
  _get_page_info soup year page = Err (Total_not_found (get_text caption))
  <-> ~ has_count (get_text caption).
Proof.
  intros Hc Hs. split.
  - intros H Hcount. apply search_total_none in Hcount; [exact Hcount|].
    destruct (Re.search_total (get_text caption)) as [g|] eqn:Ht; [|reflexivity].
    rewrite (get_page_info_found soup content caption year page Hc Hs g Ht) in H.
    cbv zeta in H.
    destruct (match Re.search_range _ with Some _ => _ | None => _ end) as [s0 e0].
    destruct (_ && _); discriminate.
  - intros H. apply (get_page_info_no_total soup content caption year page Hc Hs).
    now apply search_total_none.
Qed.

Lemma total_not_found_iff_witness :
  _get_page_info (listing_doc "no occurrences" []) 2024 1
  = Err (Total_not_found "no occurrences")
  <-> ~ has_count "no occurrences".
Proof.
  apply (total_not_found_iff
           (listing_doc "no occurrences" [])
           (Tag "div" [("id", "contentwrapper")]
              [Tag "span" [("class", "caption")] [Text "no occurrences"];
               Tag "table" [("class", "hp")] [Tag "tr" [] [Tag "th" [] [Text "date"]]]])
           (Tag "span" [("class", "caption")] [Text "no occurrences"]) 2024 1%nat);
    reflexivity.
Defined.

(** X4: the analyzer tolerates any whitespace after "showing occurrence"
    and around the dash, any whitespace between the total and the word
    occurrences, and any text after that word. *)
Theorem page_info_of_loose_caption
        soup content caption year page ws1 a ws2 ws3 b n ws4 post :
  find_with "div" "id" "contentwrapper" soup = Some content ->
  find_with "span" "class" "caption" content = Some caption ->
  ws1 <> "" ->
  all_chars is_space ws1 = true -> all_chars is_space ws2 = true ->
  all_chars is_space ws3 = true -> all_chars is_space ws4 = true ->
  numeral a = true -> numeral b = true -> numeral n = true ->
  get_text caption = loose_caption ws1 a ws2 ws3 b n ws4 post ->
  valid_range (int_of_digits a) (int_of_digits b) (int_of_digits n) ->
  _get_page_info soup year page = Ok (int_of_digits n, int_of_digits a, int_of_digits b).
Proof.
  intros Hc Hs N1 H1 H2 H3 H4 Ha Hb Hn Ht Hv.
  rewrite (get_page_info_found soup content caption year page Hc Hs n)
    by (rewrite Ht; now apply search_total_loose_caption).
  rewrite Ht, search_range_loose_caption by assumption.
  cbv zeta beta iota. apply range_check_true in Hv. now rewrite Hv.
Qed.

Lemma page_info_of_loose_caption_witness :
  _get_page_info
    (listing_doc "showing occurrence  101 - 200 of 250  occurrences in the database" [])
    2024 2
  = Ok (250, 101, 200).
Proof.
  apply (page_info_of_loose_caption
           _ (Tag "div" [("id", "contentwrapper")]
                [Tag "span" [("class", "caption")]
                   [Text "showing occurrence  101 - 200 of 250  occurrences in the database"];
                 Tag "table" [("class", "hp")] [Tag "tr" [] [Tag "th" [] [Text "date"]]]])
           (Tag "span" [("class", "caption")]
              [Text "showing occurrence  101 - 200 of 250  occurrences in the database"])
           2024 2%nat "  " "101" " " " " "200" "250" "  " " in the database");
    try reflexivity; try discriminate.
  unfold valid_range. vm_compute. intuition discriminate.
Defined.

(** X5: for all integers [1 <= A <= B <= N], the caption written with
    their decimal forms, "showing occurrence A-B of N occurrences", is
    analyzed to [(N, A, B)]; and for [1 <= N] the caption "N occurrences" is
    analyzed to [(N, 1, min(100, N))]. *)
Theorem page_info_of_numbers :
  (forall soup content caption year page A B N,
      find_with "div" "id" "contentwrapper" soup = Some content ->
      find_with "span" "class" "caption" content = Some caption ->
      get_text caption = range_caption (str_of_int A) (str_of_int B) (str_of_int N) ->
      valid_range A B N ->
      _get_page_info soup year page = Ok (N, A, B))
  /\ (forall soup content caption year page N,
      find_with "div" "id" "contentwrapper" soup = Some content ->
      find_with "span" "class" "caption" content = Some caption ->
      get_text caption = bare_caption (str_of_int N) ->
      1 <= N ->
      _get_page_info soup year page = Ok (N, 1, Z.min 100 N)).
Proof.
  split.
  - intros soup content caption year page A B N Hc Hs Ht (HA & HB & HN).
    assert (numeral (str_of_int A) = true) as NA by (apply str_of_int_numeral; lia).
    assert (numeral (str_of_int B) = true) as NB by (apply str_of_int_numeral; lia).
    assert (numeral (str_of_int N) = true) as NN by (apply str_of_int_numeral; lia).
    rewrite (get_page_info_found soup content caption year page Hc Hs (str_of_int N))
      by (rewrite Ht; now apply search_total_range_caption).
    rewrite Ht, search_range_range_caption by assumption.
    cbv zeta beta iota. rewrite !int_of_str by lia.
    assert (valid_range A B N) as V by (unfold valid_range; lia).
    apply range_check_true in V. now rewrite V.
  - intros soup content caption year page N Hc Hs Ht HN.
    assert (numeral (str_of_int N) = true) as NN by (apply str_of_int_numeral; lia).
    rewrite (get_page_info_found soup content caption year page Hc Hs (str_of_int N))
      by (rewrite Ht; now apply total_at_bare_caption).
    rewrite Ht, search_range_bare_caption by assumption.
    cbv zeta beta iota. rewrite !int_of_str by lia.
    assert (valid_range 1 (Z.min 100 N) N) as V by (unfold valid_range; lia).
    apply range_check_true in V. now rewrite V.
Qed.

Lemma page_info_of_numbers_witness :
  _get_page_info (listing_doc (range_caption (str_of_int 101) (str_of_int 200) (str_of_int 250)) [])
                 2024 2
  = Ok (250, 101, 200)
  /\ _get_page_info (listing_doc (bare_caption (str_of_int 250)) []) 2024 1
     = Ok (250, 1, Z.min 100 250).
Proof.
  destruct page_info_of_numbers as (Hrange & Hbare).
  split.
  - apply (Hrange _ (Tag "div" [("id", "contentwrapper")]
                       [Tag "span" [("class", "caption")]
                          [Text (range_caption (str_of_int 101) (str_of_int 200)
                                               (str_of_int 250))];
                        Tag "table" [("class", "hp")] [Tag "tr" [] [Tag "th" [] [Text "date"]]]])
                  (Tag "span" [("class", "caption")]
                     [Text (range_caption (str_of_int 101) (str_of_int 200) (str_of_int 250))])
                  2024 2%nat 101 200 250); try reflexivity.
    unfold valid_range. lia.
  - apply (Hbare _ (Tag "div" [("id", "contentwrapper")]
                      [Tag "span" [("class", "caption")] [Text (bare_caption (str_of_int 250))];
                       Tag "table" [("class", "hp")] [Tag "tr" [] [Tag "th" [] [Text "date"]]]])
                 (Tag "span" [("class", "caption")] [Text (bare_caption (str_of_int 250))])
                 2024 1%nat 250); try reflexivity.
    lia.
Defined.

(** ** Links of a listing page *)

Lemma row_link_shape base_url row :
  exists hrefs, row_link base_url row = List.map (append base_url) hrefs
                /\ (List.length hrefs <= 1)%nat.
Proof.
  unfold row_link. destruct (find_tag "a" row) as [[t|name attrs children]|].
  - exists []. split; [reflexivity | simpl; lia].
  - destruct (assoc "href" attrs) as [href|].
    + exists [href]. split; [reflexivity | simpl; lia].
    + exists []. split; [reflexivity | simpl; lia].
  - exists []. split; [reflexivity | simpl; lia].
Qed.

Lemma rows_links_shape base_url rows :
  exists hrefs, flat_map (row_link base_url) rows = List.map (append base_url) hrefs
                /\ (List.length hrefs <= List.length rows)%nat.
Proof.
  induction rows as [|row rows (hrefs & E & L)].
  - exists []. split; [reflexivity | simpl; lia].
  - destruct (row_link_shape base_url row) as (h & Eh & Lh).
    exists (h ++ hrefs)%list. simpl. rewrite Eh, E, map_app, length_app.
    split; [reflexivity | lia].
Qed.

(** X7: a listing page that passes the checks of the scraping loop has a
    valid range, between 1 and 100 links, exactly as many links as its
    range when that is at most 100 wide, and exactly 100 when it is wider;
    checking it writes nothing to the output file. *)
Theorem checked_page_bounds
        srv base_url year page total w start_range end_range page_links w' :
  check_page srv base_url year page total w = (Ok (start_range, end_range, page_links), w') ->
  valid_range start_range end_range total
  /\ (1 <= List.length page_links <= 100)%nat
  /\ (end_range - start_range + 1 <= 100 ->
      Z.of_nat (List.length page_links) = end_range - start_range + 1)
  /\ (100 < end_range - start_range + 1 -> List.length page_links = 100%nat)
  /\ file w' = file w.
Proof.
  intros H.
  pose proof (keeps_file_check_page srv base_url year page total w) as F.
  rewrite H in F. cbn [snd] in F.
  apply check_page_ok_inv in H as (soup & w1 & _ & Hinfo & _ & L).
  apply get_page_info_valid in Hinfo. pose proof Hinfo as (V1 & V2 & V3).
  repeat split; try assumption; lia.
Qed.

Lemma checked_page_bounds_witness :
  valid_range 1 2 3 /\ (1 <= 2 <= 100)%nat.
Proof.
  destruct (checked_page_bounds small_site asn 2024 1%nat 3 start_world 1 2 small_links
              (World 1 [Info_processing_range 1 2 3] None) eq_refl)
    as (V & B & _).
  split; [exact V | exact B].
Defined.

(** ** More on the detail extractor *)

Lemma mem_string_In v l : In v l -> mem_string v l = true.
Proof.
  intros H. unfold mem_string. apply existsb_exists. exists v.
  split; [assumption | apply String.eqb_refl].
Qed.

Lemma process_row_set details row key value :
  row_entry row = Some (key, value) -> dict_mem key details = true ->
  process_row details row = dict_set key value details.
Proof. intros Hrow M. unfold process_row. now rewrite Hrow, M. Qed.

(** X8: when several scanned rows offer the same known field, the value
    of the last of them is the one the record keeps. *)
Theorem last_row_wins soup url rows1 row rows2 key value :
  detail_rows soup = (rows1 ++ row :: rows2)%list ->
  row_entry row = Some (key, value) ->
  In key field_names ->
  never_offered key rows2 ->
  dict_get key (details_of soup url) = Some value.
Proof.
  intros Hrows Hrow Hkey Hlater.
  rewrite details_of_rows, Hrows, fold_left_app. cbn [fold_left].
  rewrite process_rows_other by assumption.
  assert (dict_mem key (fold_left process_row rows1 (initial_details url)) = true) as M.
  { rewrite dict_mem_keys, process_rows_keys. now apply mem_string_In. }
  rewrite (process_row_set _ row key value Hrow M). now apply dict_get_set_same.
Qed.

Lemma last_row_wins_witness :
  dict_get "Date" (details_of corrected_doc sample_url) = Some "2024-01-06".
Proof.
  apply (last_row_wins corrected_doc sample_url
           [Tag "tr" [] [Tag "td" [("class", "caption")] [Text "Date:"];
                         Tag "td" [("class", "desc")] [Text "2024-01-05"]];
            Tag "tr" [] [Tag "td" [("class", "caption")] [Text "Type:"];
                         Tag "td" [("class", "desc")] [Text "Cessna 172"]]]
           (Tag "tr" [] [Tag "td" [("class", "caption")] [Text "Date:"];
                         Tag "td" [("class", "desc")] [Text "2024-01-06"]])
           [] "Date" "2024-01-06").
  - reflexivity.
  - reflexivity.
  - simpl. tauto.
  - intros r k v [].
Defined.

(** ** Stripping *)

Section Strip.
Variable p : ascii -> bool.

Lemma rstrip_by_idem s : rstrip_by p (rstrip_by p s) = rstrip_by p s.
Proof.
  induction s as [|c s IH]; [reflexivity|]. cbn [rstrip_by].
  destruct (rstrip_by p s) as [|c' r] eqn:E.
  - destruct (p c) eqn:Pc; [reflexivity|]. cbn [rstrip_by]. now rewrite Pc.
  - cbn [rstrip_by]. cbn [rstrip_by] in IH. now rewrite IH.
Qed.

Lemma lstrip_by_stops s : stops p (lstrip_by p s) = true.
Proof.
  induction s as [|c s IH]; [reflexivity|]. cbn [lstrip_by].
  destruct (p c) eqn:Pc; [exact IH|]. cbn [stops]. now rewrite Pc.
Qed.

Lemma lstrip_by_fixed s : stops p s = true -> lstrip_by p s = s.
Proof.
  destruct s as [|c s]; [reflexivity|]. cbn [stops lstrip_by].
  intros H. apply negb_true_iff in H. now rewrite H.
Qed.

Lemma lstrip_by_suffix s : exists pre, s = pre ++ lstrip_by p s.
Proof.
  induction s as [|c s (pre & E)]; [now exists ""|]. cbn [lstrip_by].
  destruct (p c).
  - exists (String c pre). cbn [append]. now rewrite <- E.
  - now exists "".
Qed.

(** A suffix of a string that ends outside the class ends outside it too. *)
Lemma rstrip_by_fixed_suffix a b :
  rstrip_by p (a ++ b) = a ++ b -> rstrip_by p b = b.
Proof.
  induction a as [|c a IH]; [easy|]. cbn [append rstrip_by].
  destruct (rstrip_by p (a ++ b)) as [|c' r] eqn:E.
  - destruct (p c); [discriminate|]. intros [= H].
    destruct a; [|discriminate]. cbn [append] in H. now subst b.
  - intros [= H]. apply IH. now rewrite H in E |- *.
Qed.

Lemma rstrip_by_app_fixed a b :
  rstrip_by p b = b -> b <> "" -> rstrip_by p (a ++ b) = a ++ b.
Proof.
  intros Hb Nb. induction a as [|c a IH]; [exact Hb|]. cbn [append rstrip_by].
  rewrite IH. destruct (a ++ b) eqn:E; [|reflexivity].
  destruct a; [|discriminate]. cbn [append] in E. contradiction.
Qed.

Lemma rstrip_by_stops q s : stops q s = true -> stops q (rstrip_by p s) = true.
Proof.
  destruct s as [|c s]; [reflexivity|]. cbn [stops rstrip_by]. intros H.
  destruct (rstrip_by p s); [destruct (p c)|]; cbn [stops]; easy.
Qed.
End Strip.

(** A string with no whitespace at either end, told by its two ends. *)
Lemma trimmed_ends s :
  stops is_space s = true -> rstrip_by is_space s = s -> trimmed s.
Proof.
  intros H1 H2. unfold trimmed, strip. rewrite H2. now apply lstrip_by_fixed.
Qed.

Lemma strip_ends s :
  stops is_space (strip s) = true /\ rstrip_by is_space (strip s) = strip s.
Proof.
  unfold strip. split; [apply lstrip_by_stops|].
  destruct (lstrip_by_suffix is_space (rstrip_by is_space s)) as (pre & E).
  apply (rstrip_by_fixed_suffix is_space pre). rewrite <- E. apply rstrip_by_idem.
Qed.

Lemma concat_ends (l : list string) :
  Forall (fun s => nonempty s = true /\ stops is_space s = true
                   /\ rstrip_by is_space s = s) l ->
  stops is_space (String.concat "" l) = true
  /\ rstrip_by is_space (String.concat "" l) = String.concat "" l.
Proof.
  induction l as [|s l IH]; intros H; [now split|].
  inversion H as [|s' l' (Ns & Hs & Rs) Hl]; subst.
  specialize (IH Hl) as (IH1 & IH2).
  cbn [String.concat]. destruct l as [|t l]; [now split|].
  change ("" ++ String.concat "" (t :: l)) with (String.concat "" (t :: l)).
  split.
  - destruct s; [discriminate | exact Hs].
  - destruct (String.concat "" (t :: l)) eqn:E.
    + now rewrite append_nil_r.
    + apply rstrip_by_app_fixed; [exact IH2 | discriminate].
Qed.

Lemma get_text_strip_ends n :
  stops is_space (get_text_strip n) = true
  /\ rstrip_by is_space (get_text_strip n) = get_text_strip n.
Proof.
  unfold get_text_strip. apply concat_ends.
  apply Forall_forall. intros s Hs. apply filter_In in Hs as [Hin Hne].
  apply in_map_iff in Hin as (s0 & <- & _).
  split; [exact Hne | apply strip_ends].
Qed.

(** X9: the value a row offers has no whitespace at either end, and the
    key it offers does not end with a colon and does not begin with
    whitespace. *)
Theorem row_entry_is_trimmed row key value :
  row_entry row = Some (key, value) ->
  trimmed value
  /\ rstrip_colon key = key
  /\ stops is_space key = true
  /\ stops is_space value = true.
Proof.
  unfold row_entry. destruct (find_all "td" row) as [|c0 [|c1 cells]]; try discriminate.
  intros [= <- <-].
  destruct (get_text_strip_ends c0) as (K1 & _).
  destruct (get_text_strip_ends c1) as (V1 & V2).
  split; [now apply trimmed_ends|].
  split; [apply rstrip_by_idem|].
  split; [now apply rstrip_by_stops | exact V1].
Qed.

Lemma row_entry_is_trimmed_witness :
  trimmed "2024-01-05" /\ rstrip_colon "Date" = "Date".
Proof.
  destruct (row_entry_is_trimmed date_row "Date" "2024-01-05" eq_refl) as (T & K & _).
  split; [exact T | exact K].
Defined.

(** ** The link loop in full *)

Lemma link_errors_warnings url k : link_errors (warnings url k) = [].
Proof.
  unfold warnings. induction (List.seq 1 k) as [|i l IH]; [reflexivity | exact IH].
Qed.

Lemma process_link_full srv output_file page n i link all_samples w all_samples' w' :
  process_link srv output_file page n i link all_samples w = (all_samples', w') ->
  exists evs,
    log w' = (log w ++ evs)%list
    /\ ((exists soup,
            all_samples' = (all_samples ++ [details_of soup link])%list
            /\ link_errors evs = []
            /\ file w' = Some (output_file, all_samples')
            /\ (clock w < clock w' <= clock w + 3)%nat)
        \/ (all_samples' = all_samples
            /\ link_errors evs = [(link, Request_failed link)]
            /\ file w' = file w
            /\ clock w' = (clock w + 3)%nat)).
Proof.
  unfold process_link.
  destruct (request_cases srv link (emit (Info_processing_accident i n page) w))
    as [(soup & k & Hk & E & _) | E].
  - rewrite (extract_accident_details_ok _ _ _ _ _ E). intros [= <- <-].
    exists (Info_processing_accident i n page :: warnings link k
            ++ [Info_progress_saved (List.length (all_samples ++ [details_of soup link]))])%list.
    split; [cbn [log emit to_csv]; now rewrite <- !app_assoc|].
    left. exists soup. split; [reflexivity|].
    split; [|split; [reflexivity | cbn [clock emit to_csv]; lia]].
    change (link_errors (?a :: ?l)) with (link_errors l).
    now rewrite link_errors_app, link_errors_warnings.
  - rewrite (extract_accident_details_err _ _ _ _ _ E). intros [= <- <-].
    exists (Info_processing_accident i n page :: warnings link 3
            ++ [Error_processing_link link (Request_failed link)])%list.
    split; [cbn [log emit]; now rewrite <- !app_assoc|].
    right. split; [reflexivity|].
    split; [|split; reflexivity].
    change (link_errors (?a :: ?l)) with (link_errors l).
    now rewrite link_errors_app, link_errors_warnings.
Qed.

(** Where a record comes from: the extraction of some document fetched
    at one of the links. *)
Lemma process_links_full srv output_file page n links :
  forall i all_samples w all_samples' w',
    process_links srv output_file page n i links all_samples w = (all_samples', w') ->
    exists recs evs,
      all_samples' = (all_samples ++ recs)%list
      /\ log w' = (log w ++ evs)%list
      /\ (List.length recs + List.length (link_errors evs) = List.length links)%nat
      /\ Forall (fun d => exists soup url, In url links /\ d = details_of soup url) recs
      /\ (forall link e, In (link, e) (link_errors evs) ->
                         e = Request_failed link /\ In link links)
      /\ (clock w + List.length recs + 3 * List.length (link_errors evs) <= clock w')%nat
      /\ (clock w' <= clock w + 3 * List.length links)%nat
      /\ ((recs = [] /\ file w' = file w) \/ file w' = Some (output_file, all_samples')).
Proof.
  induction links as [|link links IH]; intros i all_samples w all_samples' w' H; simpl in H.
  - injection H as <- <-. exists [], []. rewrite !app_nil_r.
    repeat split; simpl; try lia; try contradiction; auto.
  - destruct (process_link srv output_file page n i link all_samples w) as [s1 w1] eqn:E1.
    apply process_link_full in E1 as (evs1 & L1 & C1).
    apply IH in H as (recs & evs & -> & L & N & P & F & B1 & B2 & S).
    destruct C1 as [(soup & -> & LE & S1 & K1) | (-> & LE & S1 & K1)].
    + exists (details_of soup link :: recs), (evs1 ++ evs)%list.
      rewrite L, L1, link_errors_app, LE, <- !app_assoc. cbn [app List.length].
      split; [reflexivity|]. split; [reflexivity|]. split; [lia|].
      split; [|split; [|split; [lia|split; [lia|]]]].
      * constructor; [exists soup, link; split; [now left | reflexivity]|].
        eapply Forall_impl; [|exact P]. intros d (sp & url & Hin & ->).
        exists sp, url. split; [now right | reflexivity].
      * intros l e Hin. destruct (F l e Hin) as (-> & Hl). split; [reflexivity | now right].
      * right. destruct S as [(-> & S) | S].
        -- now rewrite S, S1.
        -- now rewrite S, <- app_assoc.
    + exists recs, (evs1 ++ evs)%list.
      rewrite L, L1, link_errors_app, LE, <- !app_assoc. cbn [app List.length].
      split; [reflexivity|]. split; [reflexivity|]. split; [lia|].
      split; [|split; [|split; [lia|split; [lia|]]]].
      * eapply Forall_impl; [|exact P]. intros d (sp & url & Hin & ->).
        exists sp, url. split; [now right | reflexivity].
      * intros l e [[= <- <-] | Hin]; [split; [reflexivity | now left]|].
        destruct (F l e Hin) as (-> & Hl). split; [reflexivity | now right].
      * destruct S as [(-> & S) | S]; [left | right; exact S].
        split; [reflexivity | now rewrite S].
Qed.

Lemma scraping_loop_full srv base_url output_file year total_accidents fuel :
  forall page all_samples w final page' w',
    scraping_loop srv base_url fuel output_file year page total_accidents all_samples w
    = (Some (final, page'), w') ->
    exists recs,
      final = (all_samples ++ recs)%list
      /\ Forall (fun d => exists soup url, d = details_of soup url) recs
      /\ ((recs = [] /\ file w' = file w) \/ file w' = Some (output_file, final))
      /\ (page <= page')%nat.
Proof.
  induction fuel as [|fuel IH]; intros page all_samples w final page' w' H;
    cbn [scraping_loop] in H; [discriminate|].
  pose proof (keeps_file_check_page srv base_url year page total_accidents
                                    (emit (Info_processing_page page) w)) as F.
  destruct (check_page _ _ _ _ _ _) as [[[[sr er] links]|e] w1]; cbn [snd emit file] in F.
  - destruct (process_links _ _ _ _ _ _ _ _) as [s2 w2] eqn:E.
    apply process_links_full in E as (recs & evs & -> & _ & _ & P & _ & _ & _ & S).
    assert (Forall (fun d => exists soup url, d = details_of soup url) recs) as P'.
    { eapply Forall_impl; [|exact P]. intros d (sp & url & _ & ->). now exists sp, url. }
    destruct (er >=? total_accidents).
    + injection H as <- <- <-. exists recs. split; [reflexivity|]. split; [exact P'|].
      split; [|lia]. cbn [emit file].
      destruct S as [(-> & S) | S]; [left; split; [reflexivity | congruence] | now right].
    + apply IH in H as (more & -> & Pm & Sm & Hp).
      exists (recs ++ more)%list. rewrite app_assoc. split; [reflexivity|].
      split; [now apply Forall_app|]. split; [|lia].
      destruct Sm as [(-> & Sm) | Sm]; [|now right].
      rewrite !app_nil_r in *.
      destruct S as [(-> & S) | S]; [left; split; [reflexivity | congruence]|].
      right. congruence.
  - injection H as <- <- <-. exists []. rewrite app_nil_r. split; [reflexivity|].
    split; [constructor|]. split; [left; now split | lia].
Qed.

(** Every way [scrape_year] returns. *)
Lemma scrape_year_cases srv base_url fuel proceed year output_dir w df w' :
  scrape_year srv base_url fuel proceed year output_dir w = (Some (Returns df), w') ->
  (df = [] /\ file w' = file w)
  \/ exists page_a total counts wa page' w3,
      analysis_loop srv base_url fuel year 1 None [] (emit (Print_analyzing year) w)
      = (Some (Confirmed page_a total counts), wa)
      /\ makedirs output_dir = None
      /\ scraping_loop srv base_url fuel (output_path output_dir year) year 1 total []
                       (emit Print_starting (emit (Print_found total page_a) wa))
         = (Some (df, page'), w3)
      /\ file w' = Some (output_path output_dir year, df)
      /\ clock w' = clock w3.
Proof.
  unfold scrape_year.
  pose proof (analysis_loop_file srv base_url fuel year 1 None []
                                 (emit (Print_analyzing year) w)) as F.
  destruct (analysis_loop _ _ _ _ _ _ _ _) as [[[|page_a total counts]|] wa] eqn:Ea;
    cbn [snd emit file] in F; try discriminate.
  - intros [= <- <-]. left. now split.
  - destruct (negb _).
    + intros [= <- <-]. left. now split.
    + destruct (makedirs output_dir) eqn:Ed; [discriminate|].
      destruct (scraping_loop _ _ _ _ _ _ _ _ _) as [[[samples page']|] w3] eqn:Es;
        [|discriminate].
      intros [= <- <-]. right. now exists page_a, total, counts, wa, page', w3.
Qed.

(** X11: when [scrape_year] returns, either it returns the empty frame
    and has left the output file alone (the analysis failed or the user
    declined), or the file of the year holds exactly the frame returned. *)
Theorem output_file_holds_result srv base_url fuel proceed year output_dir w df w' :
  scrape_year srv base_url fuel proceed year output_dir w = (Some (Returns df), w') ->
  (df = [] /\ file w' = file w)
  \/ file w' = Some (output_path output_dir year, df).
Proof.
  intros H. apply scrape_year_cases in H as [H | H]; [now left | right].
  now destruct H as (page_a & total & counts & wa & page' & w3 & _ & _ & _ & F & _).
Qed.

Lemma output_file_holds_result_witness :
  ([] = @nil dict /\ file (snd (scrape_year shrunk_site asn 5 "y" 2024 "output" start_world))
                     = file start_world)
  \/ file (snd (scrape_year shrunk_site asn 5 "y" 2024 "output" start_world))
     = Some (output_path "output" 2024, []).
Proof.
  apply (output_file_holds_result shrunk_site asn 5%nat "y" 2024 "output" start_world).
  reflexivity.
Defined.

(** X13: the records are saved as they come.  When the scraping loop
    ends, and already after the links of any page, the output file holds
    every sample gathered so far, unless none was added, in which case the
    file is as it was. *)
Theorem progress_is_saved :
  (forall srv output_file page n i links all_samples w all_samples' w',
      process_links srv output_file page n i links all_samples w = (all_samples', w') ->
      (all_samples' = all_samples /\ file w' = file w)
      \/ file w' = Some (output_file, all_samples'))
  /\ (forall srv base_url fuel output_file year page total all_samples w final page' w',
      scraping_loop srv base_url fuel output_file year page total all_samples w
      = (Some (final, page'), w') ->
      (final = all_samples /\ file w' = file w)
      \/ file w' = Some (output_file, final)).
Proof.
  split.
  - intros srv output_file page n i links all_samples w all_samples' w' H.
    apply process_links_full in H as (recs & evs & -> & _ & _ & _ & _ & _ & _ & S).
    destruct S as [(-> & S) | S]; [left | now right].
    now rewrite app_nil_r.
  - intros srv base_url fuel output_file year page total all_samples w final page' w' H.
    apply scraping_loop_full in H as (recs & -> & _ & S & _).
    destruct S as [(-> & S) | S]; [left | now right].
    now rewrite app_nil_r.
Qed.

Lemma progress_is_saved_witness :
  (fst small_run = [] /\ file (snd small_run) = file small_checked)
  \/ file (snd small_run) = Some ("output/asn_accidents_2024.csv", fst small_run).
Proof.
  destruct progress_is_saved as (Hlinks & _).
  apply (Hlinks small_site "output/asn_accidents_2024.csv" 1%nat 2%nat 1%nat small_links []
                small_checked (fst small_run) (snd small_run)).
  apply surjective_pairing.
Defined.

(** X16: processing the links of a page costs one to three requests per
    link, three for each link that fails; the only error a link can meet
    is the fetch error of its own address. *)
Theorem link_loop_costs srv output_file page n i links all_samples w all_samples' w' :
  process_links srv output_file page n i links all_samples w = (all_samples', w') ->
  exists recs evs,
    all_samples' = (all_samples ++ recs)%list
    /\ log w' = (log w ++ evs)%list
    /\ (forall link e, In (link, e) (link_errors evs) ->
                       e = Request_failed link /\ In link links)
    /\ (clock w + List.length recs + 3 * List.length (link_errors evs) <= clock w')%nat
    /\ (clock w' <= clock w + 3 * List.length links)%nat.
Proof.
  intros H.
  apply process_links_full in H as (recs & evs & E & L & _ & _ & F & B1 & B2 & _).
  now exists recs, evs.
Qed.

Lemma link_loop_costs_witness :
  exists recs evs,
    fst small_run = ([] ++ recs)%list
    /\ log (snd small_run) = (log small_checked ++ evs)%list
    /\ (clock small_checked + List.length recs + 3 * List.length (link_errors evs)
        <= clock (snd small_run))%nat
    /\ (clock (snd small_run) <= clock small_checked + 3 * List.length small_links)%nat.
Proof.
  destruct (link_loop_costs small_site "output/asn_accidents_2024.csv" 1%nat 2%nat 1%nat
              small_links [] small_checked (fst small_run) (snd small_run)
              (surjective_pairing small_run))
    as (recs & evs & E & L & _ & B1 & B2).
  now exists recs, evs.
Defined.

(** ** The answer at the prompt *)

Lemma lower_char_y c : lower_char c = "y"%char -> c = "y"%char \/ c = "Y"%char.
Proof.
  destruct c as [[] [] [] [] [] [] [] []]; vm_compute; intros H;
    first [discriminate H | now left | now right].
Qed.

Lemma lower_is_y s : lower s = "y" <-> s = "y" \/ s = "Y".
Proof.
  split.
  - destruct s as [|c [|c' s]]; cbn [lower]; try discriminate.
    intros [= H]. destruct (lower_char_y c H) as [-> | ->]; [now left | now right].
  - intros [-> | ->]; reflexivity.
Qed.

(** X12: only the answers y and Y let the crawl go on.  With any other
    answer after a confirmed analysis, [scrape_year] returns the empty
    frame, makes no further request and leaves the output file alone. *)
Theorem only_y_proceeds :
  (forall proceed, lower proceed = "y" <-> proceed = "y" \/ proceed = "Y")
  /\ (forall srv base_url fuel proceed year output_dir w page_a total counts wa,
      analysis_loop srv base_url fuel year 1 None [] (emit (Print_analyzing year) w)
      = (Some (Confirmed page_a total counts), wa) ->
      proceed <> "y" -> proceed <> "Y" ->
      scrape_year srv base_url fuel proceed year output_dir w
      = (Some (Returns []), emit Print_cancelled (emit (Print_found total page_a) wa))
      /\ file wa = file w).
Proof.
  split; [exact lower_is_y|].
  intros srv base_url fuel proceed year output_dir w page_a total counts wa Ha N1 N2.
  pose proof (analysis_loop_file srv base_url fuel year 1 None []
                                 (emit (Print_analyzing year) w)) as F.
  rewrite Ha in F. cbn [snd emit file] in F. split; [|exact F].
  unfold scrape_year. rewrite Ha.
  destruct (String.eqb (lower proceed) "y") eqn:E; [|reflexivity].
  apply String.eqb_eq, lower_is_y in E. tauto.
Qed.

Lemma only_y_proceeds_witness :
  scrape_year small_site asn 5 "yes" 2024 "output" start_world
  = (Some (Returns []),
     emit Print_cancelled
          (emit (Print_found 3 2)
                (World 2 [Print_analyzing 2024; Print_page 1 2 1 2; Print_page 2 1 3 3] None))).
Proof.
  destruct only_y_proceeds as (_ & Hdecline).
  apply (Hdecline small_site asn 5%nat "yes" 2024 "output" start_world 2%nat 3 [2; 1]%nat
                  (World 2 [Print_analyzing 2024; Print_page 1 2 1 2; Print_page 2 1 3 3] None));
    [reflexivity | discriminate | discriminate].
Defined.

(** ** The analysis loop in full *)

Lemma request_clock srv url w r w' :
  _make_request srv url w = (r, w') -> (clock w < clock w' <= clock w + 3)%nat.
Proof.
  intros H.
  destruct (request_cases srv url w) as [(soup & k & Hk & E & _) | E];
    rewrite E in H; injection H as <- <-; cbn [clock]; lia.
Qed.

Lemma analyze_page_inv srv base_url year page total_accidents page_counts w
      total counts last w' :
  analyze_page srv base_url year page total_accidents page_counts w
  = (Ok (total, counts, last), w') ->
  exists soup w1 start_range end_range page_links,
    _make_request srv (listing_url base_url year page) w = (Ok soup, w1)
    /\ _get_page_info soup year page = Ok (total, start_range, end_range)
    /\ _get_page_links base_url soup = Ok page_links
    /\ counts = (page_counts ++ [List.length page_links])%list
    /\ last = (end_range >=? total)
    /\ w' = emit (Print_page page (List.length page_links) start_range end_range) w1
    /\ (forall t, total_accidents = Some t -> total = t).
Proof.
  unfold analyze_page, bind, lift.
  destruct (_make_request srv _ w) as [[soup|e] w1] eqn:Hrequest; [|discriminate].
  destruct (_get_page_info soup year page) as [[[pt s] e]|e] eqn:Hinfo; [|discriminate].
  destruct total_accidents as [t|].
  - destruct (t =? pt) eqn:E; [|discriminate]. apply Z.eqb_eq in E as <-.
    cbn [ret]. destruct (_get_page_links base_url soup) as [links|] eqn:Hlinks; [|discriminate].
    cbn [say ret]. intros [= <- <- <- <-].
    exists soup, w1, s, e, links. repeat split; try assumption. now intros t' [= <-].
  - cbn [ret]. destruct (_get_page_links base_url soup) as [links|] eqn:Hlinks; [|discriminate].
    cbn [say ret]. intros [= <- <- <- <-].
    exists soup, w1, s, e, links. repeat split; try assumption. discriminate.
Qed.

Lemma analysis_loop_pages srv base_url fuel year :
  forall page total_accidents page_counts w page' total counts w',
    analysis_loop srv base_url fuel year page total_accidents page_counts w
    = (Some (Confirmed page' total counts), w') ->
    (page <= page')%nat /\ (forall t, total_accidents = Some t -> total = t).
Proof.
  induction fuel as [|fuel IH];
    intros page total_accidents page_counts w page' total counts w' H;
    cbn [analysis_loop] in H; [discriminate|].
  destruct (analyze_page _ _ _ _ _ _ w) as [[[[t c] last]|e] w1] eqn:E; [|discriminate].
  apply analyze_page_inv in E as (soup & w0 & s & e & links & _ & _ & _ & _ & _ & _ & Ht).
  destruct last.
  - injection H as <- <- <- <-. split; [lia | exact Ht].
  - apply IH in H as (P & Ht'). split; [lia|].
    intros t0 Ht0. rewrite (Ht' t eq_refl). now apply Ht.
Qed.

(** X14: a confirmed analysis went through the pages in order, one entry
    of page counts and between one and three requests for each; the total
    it confirms is at least 1 and is the one in force from the start, if
    there was one; the last page it printed ends exactly at that total; and
    nothing was written to the output file. *)
Theorem analysis_confirms_pages srv base_url fuel year :
  forall page total_accidents page_counts w page' total counts w',
    analysis_loop srv base_url fuel year page total_accidents page_counts w
    = (Some (Confirmed page' total counts), w') ->
    (page <= page')%nat
    /\ List.length counts = (List.length page_counts + (page' - page + 1))%nat
    /\ 1 <= total
    /\ (clock w + (page' - page + 1) <= clock w')%nat
    /\ (clock w' <= clock w + 3 * (page' - page + 1))%nat
    /\ (forall t, total_accidents = Some t -> total = t)
    /\ (exists n start_range, In (Print_page page' n start_range total) (log w'))
    /\ file w' = file w.
Proof.
  induction fuel as [|fuel IH];
    intros page total_accidents page_counts w page' total counts w' H;
    cbn [analysis_loop] in H; [discriminate|].
  destruct (analyze_page _ _ _ _ _ _ w) as [[[[t c] last]|e] w1] eqn:E; [|discriminate].
  apply analyze_page_inv in E
    as (soup & w0 & s & e & links & Hreq & Hinfo & _ & -> & -> & -> & Ht).
  pose proof (request_clock _ _ _ _ _ Hreq) as K.
  pose proof (keeps_file_request_loop srv (listing_url base_url year page) 0 max_retries w) as F.
  fold (_make_request srv (listing_url base_url year page)) in F.
  rewrite Hreq in F. cbn [snd] in F.
  apply get_page_info_valid in Hinfo as (V1 & V2 & V3).
  destruct (e >=? t) eqn:Last.
  - injection H as <- <- <- <-. cbn [clock emit file log].
    rewrite length_app. cbn [List.length].
    replace (page - page + 1)%nat with 1%nat by lia.
    repeat split; try lia; try assumption.
    exists (List.length links), s. apply in_or_app. right. left.
    f_equal. apply Z.geb_le in Last. lia.
  - apply IH in H as (P & L & T & K1 & K2 & Ht' & Hp & F').
    cbn [clock emit file log] in *. rewrite length_app in L. cbn [List.length] in L.
    repeat split; try lia; try assumption.
    + intros t0 Ht0. rewrite (Ht' t eq_refl). now apply Ht.
    + congruence.
Qed.

Lemma analysis_confirms_pages_witness :
  (1 <= 3)%nat /\ List.length [1; 1; 1]%nat = (0 + (3 - 1 + 1))%nat /\ 1 <= 50.
Proof.
  destruct (analysis_confirms_pages steady_site asn 5%nat 2024 1%nat None [] start_world
              3%nat 50 [1; 1; 1]%nat
              (World 3 [Print_page 1 1 1 20; Print_page 2 1 21 40; Print_page 3 1 41 50] None)
              eq_refl)
    as (P & L & T & _).
  split; [exact P|]. split; [exact L | exact T].
Defined.

(** ** Addresses and file names *)

Lemma string_length_app a b :
  String.length (a ++ b) = (String.length a + String.length b)%nat.
Proof. induction a as [|c a IH]; simpl; [reflexivity | now rewrite IH]. Qed.

Lemma append_inj_l s a b : s ++ a = s ++ b -> a = b.
Proof. induction s as [|c s IH]; simpl; [easy|]. intros [= H]. now apply IH. Qed.

Lemma append_inj_r t a : forall b, a ++ t = b ++ t -> a = b.
Proof.
  induction a as [|c a IH]; intros [|c' b] H; simpl in H.
  - reflexivity.
  - apply (f_equal String.length) in H. simpl in H. rewrite string_length_app in H. lia.
  - apply (f_equal String.length) in H. simpl in H. rewrite string_length_app in H. lia.
  - injection H as <- H. f_equal. now apply IH.
Qed.

Lemma split_at_slash s1 : forall s2 t1 t2,
  free_of is_slash s1 = true -> free_of is_slash s2 = true ->
  s1 ++ "/" ++ t1 = s2 ++ "/" ++ t2 -> s1 = s2 /\ t1 = t2.
Proof.
  unfold free_of.
  induction s1 as [|c s1 IH]; intros [|c' s2] t1 t2 F1 F2 H; simpl in *.
  - injection H as H. now split.
  - injection H as <- _. apply andb_true_iff in F2 as [F2 _]. discriminate.
  - injection H as -> _. apply andb_true_iff in F1 as [F1 _]. discriminate.
  - injection H as <- H.
    apply andb_true_iff in F1 as [_ F1]. apply andb_true_iff in F2 as [_ F2].
    destruct (IH s2 t1 t2 F1 F2 H) as [-> ->]. now split.
Qed.

Lemma digit_not_slash (a : ascii) : is_digit a = true -> negb (is_slash a) = true.
Proof. by_cases_on_char a. Qed.

Lemma digits_free_of_slash d : all_chars is_digit d = true -> free_of is_slash d = true.
Proof.
  unfold free_of. induction d as [|a d IH]; simpl; [reflexivity|].
  intros H. apply andb_true_iff in H as [Ha H].
  now rewrite (digit_not_slash a Ha), IH.
Qed.

Lemma nilzero_digits d : all_chars is_digit (NilZero.string_of_uint d) = true.
Proof. destruct d; try reflexivity; apply string_of_uint_digits. Qed.

Lemma str_of_int_free_of_slash z : free_of is_slash (str_of_int z) = true.
Proof.
  unfold str_of_int. destruct z as [|p|p]; cbn [Z.to_int NilZero.string_of_int].
  - reflexivity.
  - apply digits_free_of_slash, nilzero_digits.
  - unfold free_of. cbn [all_chars]. apply andb_true_iff. split; [reflexivity|].
    apply digits_free_of_slash, nilzero_digits.
Qed.

Lemma str_of_int_inj a b : str_of_int a = str_of_int b -> a = b.
Proof.
  unfold str_of_int. intros H. apply DecimalZ.to_int_inj.
  assert (forall z, NilZero.int_of_string (NilZero.string_of_int (Z.to_int z))
                    = Some (Z.to_int z)) as R.
  { intros z. apply NilZero.isi; destruct z as [|p|p]; cbn [Z.to_int]; try discriminate;
      intros [= E]; now apply (DecimalPos.Unsigned.to_uint_nonnil p). }
  pose proof (R a) as Ra. rewrite H, R in Ra. congruence.
Qed.

(** X17: two listing pages have the same address only when they are the
    same page of the same year, and two years have the same output file
    only when they are the same year. *)
Theorem addresses_are_distinct :
  (forall base_url year1 page1 year2 page2,
      year1 <> year2 \/ page1 <> page2 ->
      listing_url base_url year1 page1 <> listing_url base_url year2 page2)
  /\ (forall output_dir year1 year2,
      year1 <> year2 ->
      output_path output_dir year1 <> output_path output_dir year2).
Proof.
  split.
  - intros base_url y1 p1 y2 p2 N E. unfold listing_url in E.
    apply append_inj_l in E. apply (append_inj_l "/database/year/") in E.
    apply split_at_slash in E as [Ey Ep]; try apply str_of_int_free_of_slash.
    apply str_of_int_inj in Ey. apply str_of_int_inj in Ep. lia.
  - intros output_dir y1 y2 N E. apply N.
    assert ("asn_accidents_" ++ str_of_int y1 ++ ".csv"
            = "asn_accidents_" ++ str_of_int y2 ++ ".csv") as E'.
    { unfold output_path, path_join in E. destruct output_dir as [|c d]; [exact E|].
      destruct (ends_with_slash (String c d)).
      - now apply append_inj_l in E.
      - apply append_inj_l in E. now apply (append_inj_l "/") in E. }
    apply (append_inj_l "asn_accidents_") in E'. apply append_inj_r in E'.
    now apply str_of_int_inj.
Qed.

Lemma addresses_are_distinct_witness :
  listing_url asn 2024 1 <> listing_url asn 2024 11
  /\ output_path "output" 2023 <> output_path "output" 2024.
Proof.
  destruct addresses_are_distinct as (Hurl & Hpath).
  split.
  - apply Hurl. right. lia.
  - apply Hpath. lia.
Defined.

(** ** An unchanged catalog *)

(** On an unchanging site a request that once succeeded succeeds again,
    at the first attempt and with the same document. *)
Lemma unchanging_request srv url w soup w1 :
  unchanging srv ->
  _make_request srv url w = (Ok soup, w1) ->
  forall w2,
    _make_request srv url w2
    = (Ok soup, World (clock w2 + 0 + 1) (log w2 ++ warnings url 0) (file w2)).
Proof.
  intros U H w2.
  destruct (request_cases srv url w) as [(soup' & k & Hk & E & B) | E];
    rewrite E in H; [|discriminate].
  injection H as <- _.
  apply request_answer_at; [lia | intros; lia|].
  now rewrite (U _ (clock w + k)%nat).
Qed.

Lemma unchanging_rescrape srv base_url year output_file fuel :
  unchanging srv ->
  forall page total_accidents page_counts w page_a total counts wa,
    analysis_loop srv base_url fuel year page total_accidents page_counts w
    = (Some (Confirmed page_a total counts), wa) ->
    forall all_samples w2,
    exists final page' w3,
      scraping_loop srv base_url fuel output_file year page total all_samples w2
      = (Some (final, page'), w3)
      /\ (page <= page' <= page_a)%nat
      /\ ((page' = page_a /\ In (Info_reached_end page_a) (log w3))
          \/ exists expected got,
              In (Error_processing_page page' (Links_mismatch expected got)) (log w3)).
Proof.
  intros U. induction fuel as [|fuel IH];
    intros page total_accidents page_counts w page_a total counts wa H all_samples w2;
    [discriminate|].
  pose proof (analysis_loop_pages _ _ _ _ _ _ _ _ _ _ _ _ H) as (Hpage & _).
  cbn [analysis_loop] in H.
  destruct (analyze_page _ _ _ _ _ _ w) as [[[[t c] last]|e] w1] eqn:E; [|discriminate].
  apply analyze_page_inv in E
    as (soup & w0 & s & e & links & Hreq & Hinfo & Hlinks & -> & -> & -> & _).
  assert (total = t) as ->.
  { destruct (e >=? t); [congruence|].
    apply analysis_loop_pages in H as (_ & Ht). now apply Ht. }
  pose proof (unchanging_request _ _ _ _ _ U Hreq (emit (Info_processing_page page) w2)) as R.
  cbn [scraping_loop].
  destruct (Z.eq_dec (Z.of_nat (List.length links)) (Z.min 100 (e - s + 1))) as [L | L].
  - rewrite (check_page_ok srv base_url year page _ _ soup t s e R Hinfo links Hlinks L).
    destruct (process_links _ _ _ _ _ _ _ _) as [s2 w2'].
    destruct (e >=? t).
    + assert (page_a = page) as -> by congruence.
      exists s2, page, (emit (Info_reached_end page) w2').
      split; [reflexivity|]. split; [lia|]. left. split; [reflexivity|].
      cbn [log emit]. apply in_or_app. right. now left.
    + destruct (IH _ _ _ _ _ _ _ _ H s2 w2') as (final & p & w3 & Hs & Hp & Hend).
      exists final, p, w3. split; [exact Hs|]. split; [lia | exact Hend].
  - rewrite (check_page_links_mismatch srv base_url year page _ _ soup t s e R Hinfo
                                       links Hlinks L).
    eexists _, page, _. split; [reflexivity|]. split; [lia|]. right.
    exists (Z.min 100 (e - s + 1)), (List.length links).
    cbn [log emit]. apply in_or_app. right. now left.
Qed.

(** ** A page that never reaches the total *)

Lemma stuck_analysis srv base_url year soup total start_range end_range links :
  (forall n url, srv n url = Body soup) ->
  _get_page_info soup year 1 = Ok (total, start_range, end_range) ->
  end_range < total ->
  _get_page_links base_url soup = Ok links ->
  forall fuel page total_accidents page_counts w,
    total_accidents = None \/ total_accidents = Some total ->
    fst (analysis_loop srv base_url fuel year page total_accidents page_counts w) = None.
Proof.
  intros Hsrv Hinfo Hend Hlinks.
  induction fuel as [|fuel IH]; intros page total_accidents page_counts w Ht; [reflexivity|].
  cbn [analysis_loop].
  assert (analyze_page srv base_url year page total_accidents page_counts w
          = (Ok (total, (page_counts ++ [List.length links])%list, false),
             emit (Print_page page (List.length links) start_range end_range)
                  (World (clock w + 0 + 1) (log w ++ warnings (listing_url base_url year page) 0)
                         (file w)))) as ->.
  { unfold analyze_page, bind, lift.
    rewrite (request_answer_at srv _ w 0 soup) by (try lia; intros; try lia; apply Hsrv).
    change (_get_page_info soup year page) with (_get_page_info soup year 1).
    rewrite Hinfo.
    assert ((end_range >=? total) = false) as G by (rewrite Z.geb_leb; apply Z.leb_gt; lia).
    destruct Ht as [-> | ->]; [|rewrite Z.eqb_refl]; cbn [ret say]; now rewrite Hlinks, G. }
  apply IH. now right.
Qed.

(** X15: the loops have no page limit of their own.  A site that answers
    every request with one and the same listing page, whose range ends
    before its total, is analyzed for ever: however many iterations are
    allowed, [scrape_year] does not return. *)
Theorem same_page_forever
        srv base_url year soup total start_range end_range links fuel proceed output_dir w :
  (forall n url, srv n url = Body soup) ->
  _get_page_info soup year 1 = Ok (total, start_range, end_range) ->
  end_range < total ->
  _get_page_links base_url soup = Ok links ->
  fst (scrape_year srv base_url fuel proceed year output_dir w) = None.
Proof.
  intros Hsrv Hinfo Hend Hlinks. unfold scrape_year.
  pose proof (stuck_analysis srv base_url year soup total start_range end_range links
                             Hsrv Hinfo Hend Hlinks fuel 1%nat None []
                             (emit (Print_analyzing year) w) (or_introl eq_refl)) as S.
  destruct (analysis_loop _ _ _ _ _ _ _ _) as [[a|] w1]; [discriminate | reflexivity].
Qed.

Lemma same_page_forever_witness :
  fst (scrape_year stuck_site asn 1000 "y" 2024 "output" start_world) = None.
Proof.
  apply (same_page_forever stuck_site asn 2024
           (listing_doc (range_caption "1" "1" "2") ["/wikibase/1"]) 2 1 1
           [asn ++ "/wikibase/1"]); try reflexivity.
Defined.

(** ** The requests behind the records *)

Lemma clock_grows_ret {A} (a : A) : clock_grows (ret a).
Proof. intros w. simpl. lia. Qed.

Lemma clock_grows_raise {A} e : clock_grows (@raise A e).
Proof. intros w. simpl. lia. Qed.

Lemma clock_grows_lift {A} (r : result A) : clock_grows (lift r).
Proof. intros w. simpl. lia. Qed.

Lemma clock_grows_say ev : clock_grows (say ev).
Proof. intros w. simpl. lia. Qed.

Lemma clock_grows_bind {A B} (m : M A) (f : A -> M B) :
  clock_grows m -> (forall a, clock_grows (f a)) -> clock_grows (bind m f).
Proof.
  intros Hm Hf w. unfold bind. specialize (Hm w).
  destruct (m w) as [[a|e] w1]; simpl in *; [|assumption].
  specialize (Hf a w1). lia.
Qed.

Lemma clock_grows_request srv url : clock_grows (_make_request srv url).
Proof.
  intros w. destruct (_make_request srv url w) as [r w'] eqn:E.
  apply request_clock in E. simpl. lia.
Qed.

#[local] Hint Resolve clock_grows_ret clock_grows_raise clock_grows_lift clock_grows_say
  clock_grows_request : frames.

Ltac clock_steps :=
  repeat first
    [ apply clock_grows_bind; [|intros]
    | match goal with
      | |- clock_grows (match ?x with _ => _ end) => destruct x
      end
    | solve [auto with frames] ].

Lemma clock_grows_analyze_page srv base_url year page total_accidents page_counts :
  clock_grows (analyze_page srv base_url year page total_accidents page_counts).
Proof. unfold analyze_page. clock_steps. Qed.

Lemma clock_grows_check_page srv base_url year page total_accidents :
  clock_grows (check_page srv base_url year page total_accidents).
Proof. unfold check_page. clock_steps. Qed.

Lemma analysis_loop_clock srv base_url fuel year :
  forall page total_accidents page_counts w,
    (clock w
     <= clock (snd (analysis_loop srv base_url fuel year page total_accidents page_counts w)))%nat.
Proof.
  induction fuel as [|fuel IH]; intros page total_accidents page_counts w; simpl; [lia|].
  pose proof (clock_grows_analyze_page srv base_url year page total_accidents page_counts w) as K.
  destruct (analyze_page _ _ _ _ _ _ w) as [[[[total counts] []]|e] w1]; simpl in *; try lia.
  specialize (IH (S page) (Some total) counts w1). lia.
Qed.

Lemma link_errors_In link e evs :
  In (link, e) (link_errors evs) <-> In (Error_processing_link link e) evs.
Proof.
  unfold link_errors. rewrite in_flat_map. split.
  - intros (ev & Hin & H). destruct ev; try contradiction.
    destruct H as [[= <- <-] | []]. exact Hin.
  - intros H. exists (Error_processing_link link e). split; [exact H | now left].
Qed.

Lemma process_link_trace srv output_file page n i link all_samples w all_samples' w' :
  process_link srv output_file page n i link all_samples w = (all_samples', w') ->
  exists evs,
    log w' = (log w ++ evs)%list
    /\ (clock w < clock w')%nat
    /\ ((exists soup k,
            (clock w <= k < clock w')%nat /\ srv k link = Body soup
            /\ all_samples' = (all_samples ++ [details_of soup link])%list
            /\ link_errors evs = []
            /\ file w' = Some (output_file, all_samples'))
        \/ (all_samples' = all_samples
            /\ link_errors evs = [(link, Request_failed link)]
            /\ file w' = file w)).
Proof.
  unfold process_link.
  destruct (request_cases srv link (emit (Info_processing_accident i n page) w))
    as [(soup & k & Hk & E & B) | E].
  - rewrite (extract_accident_details_ok _ _ _ _ _ E). intros [= <- <-].
    exists (Info_processing_accident i n page :: warnings link k
            ++ [Info_progress_saved (List.length (all_samples ++ [details_of soup link]))])%list.
    split; [cbn [log emit to_csv]; now rewrite <- !app_assoc|].
    cbn [clock emit to_csv] in *. split; [lia|].
    left. exists soup, (clock w + k)%nat. split; [lia|]. split; [exact B|].
    split; [reflexivity|]. split; [|reflexivity].
    change (link_errors (?a :: ?l)) with (link_errors l).
    now rewrite link_errors_app, link_errors_warnings.
  - rewrite (extract_accident_details_err _ _ _ _ _ E). intros [= <- <-].
    exists (Info_processing_accident i n page :: warnings link 3
            ++ [Error_processing_link link (Request_failed link)])%list.
    split; [cbn [log emit]; now rewrite <- !app_assoc|].
    cbn [clock emit]. split; [lia|].
    right. split; [reflexivity|]. split; [|reflexivity].
    change (link_errors (?a :: ?l)) with (link_errors l).
    now rewrite link_errors_app, link_errors_warnings.
Qed.

(** The link loop, link by link: what was fetched for each, what was
    added, what was logged, and what the output file holds. *)
Lemma process_links_trace srv output_file page n links :
  forall i all_samples w all_samples' w',
    process_links srv output_file page n i links all_samples w = (all_samples', w') ->
    exists fetched evs,
      List.length fetched = List.length links
      /\ all_samples' = (all_samples ++ extracted links fetched)%list
      /\ log w' = (log w ++ evs)%list
      /\ link_errors evs = failed links fetched
      /\ (forall link soup,
             In (link, Some soup) (List.combine links fetched) ->
             exists k, (clock w <= k < clock w')%nat /\ srv k link = Body soup)
      /\ (clock w <= clock w')%nat
      /\ (extracted links fetched = [] -> file w' = file w)
      /\ (extracted links fetched <> [] -> file w' = Some (output_file, all_samples')).
Proof.
  induction links as [|link links IH]; intros i all_samples w all_samples' w' H; simpl in H.
  - injection H as <- <-. exists [], []. cbn [extracted failed List.combine List.length].
    rewrite !app_nil_r. repeat split; try lia; try easy.
  - destruct (process_link srv output_file page n i link all_samples w) as [s1 w1] eqn:E1.
    apply process_link_trace in E1 as (evs1 & L1 & K1 & C1).
    apply IH in H as (fetched & evs & Hlen & -> & L & LE & Hsrv & K & F0 & F1).
    destruct C1 as [(soup & k & Hk & B & -> & LE1 & S1) | (-> & LE1 & S1)].
    + rewrite details_of_rows in *.
      exists (Some soup :: fetched), (evs1 ++ evs)%list.
      cbn [extracted failed List.combine List.length].
      rewrite L, L1, link_errors_app, LE1, LE, <- !app_assoc. cbn [app].
      split; [now rewrite Hlen|]. split; [reflexivity|]. split; [reflexivity|].
      split; [reflexivity|]. split; [|split; [lia|split; [discriminate|]]].
      * intros l sp [[= <- <-] | Hin]; [exists k; split; [lia | exact B]|].
        destruct (Hsrv l sp Hin) as (k' & Hk' & B'). exists k'. split; [lia | exact B'].
      * intros _. destruct (extracted links fetched) as [|d ds] eqn:Ex.
        -- rewrite (F0 eq_refl), S1. reflexivity.
        -- rewrite F1 by discriminate. now rewrite <- app_assoc.
    + exists (None :: fetched), (evs1 ++ evs)%list.
      cbn [extracted failed List.combine List.length].
      rewrite L, L1, link_errors_app, LE1, LE, <- !app_assoc. cbn [app].
      split; [now rewrite Hlen|]. split; [reflexivity|]. split; [reflexivity|].
      split; [reflexivity|]. split; [|split; [lia|split]].
      * intros l sp [[=] | Hin].
        destruct (Hsrv l sp Hin) as (k' & Hk' & B'). exists k'. split; [lia | exact B'].
      * intros Ex. rewrite (F0 Ex). exact S1.
      * exact F1.
Qed.

Lemma extracted_failed_length links : forall fetched,
  List.length fetched = List.length links ->
  (List.length (extracted links fetched) + List.length (failed links fetched)
   = List.length links)%nat.
Proof.
  induction links as [|link links IH]; intros [|[soup|] fetched] H; simpl in *;
    try discriminate; try reflexivity; injection H as H; specialize (IH fetched H); lia.
Qed.

Lemma failed_In links : forall fetched link e,
  In (link, e) (failed links fetched) -> In link links /\ e = Request_failed link.
Proof.
  induction links as [|l links IH]; intros [|[soup|] fetched] link e H; simpl in H;
    try contradiction.
  - destruct (IH fetched link e H). split; [now right | assumption].
  - destruct H as [[= <- <-] | H]; [split; [now left | reflexivity]|].
    destruct (IH fetched link e H). split; [now right | assumption].
Qed.

Lemma extracted_from links (P : string -> node -> Prop) : forall fetched,
  (forall link soup, In (link, Some soup) (List.combine links fetched) -> P link soup) ->
  Forall (fun d => exists soup url, In url links /\ P url soup /\ d = details_of soup url)
         (extracted links fetched).
Proof.
  induction links as [|l links IH]; intros [|[soup|] fetched] H;
    cbn [extracted]; try constructor.
  - exists soup, l. split; [now left|].
    split; [apply H; now left | now rewrite details_of_rows].
  - eapply Forall_impl; [|apply IH; intros link sp Hin; apply H; now right].
    intros d (sp & url & Hin & Hp & ->). exists sp, url. split; [now right|]. now split.
  - eapply Forall_impl; [|apply IH; intros link sp Hin; apply H; now right].
    intros d (sp & url & Hin & Hp & ->). exists sp, url. split; [now right|]. now split.
Qed.

(** C5: on a page that passed its checks, each link is fetched in turn.
    A link whose page is fetched adds the record read from the rows of that
    page; a link whose fetch fails adds nothing and is logged with its
    error; the records held before are kept.  So when exactly one of the
    [N] links fails, the [N - 1] records of the other links are added, in
    order, the failing link is in the log, the output file holds the
    samples with those records, and the loop goes on to the next page (or
    ends, on the last one); what the loop finally returns, and the file
    then holds, begins with them. *)
Theorem one_failed_link_is_skipped
        srv base_url output_file year page t all_samples w fuel
        start_range end_range page_links w1 all_samples' w2 :
  check_page srv base_url year page t (emit (Info_processing_page page) w)
  = (Ok (start_range, end_range, page_links), w1) ->
  process_links srv output_file page (List.length page_links) 1 page_links all_samples w1
  = (all_samples', w2) ->
  exists fetched evs,
    List.length fetched = List.length page_links
    /\ (forall link soup,
           In (link, Some soup) (List.combine page_links fetched) ->
           exists k, (clock w1 <= k < clock w2)%nat /\ srv k link = Body soup)
    /\ all_samples' = (all_samples ++ extracted page_links fetched)%list
    /\ log w2 = (log w1 ++ evs)%list
    /\ link_errors evs = failed page_links fetched
    /\ (List.length (extracted page_links fetched) + List.length (failed page_links fetched)
        = List.length page_links)%nat
    /\ (forall link e,
           In (link, e) (failed page_links fetched) ->
           In link page_links /\ e = Request_failed link
           /\ In (Error_processing_link link e) (log w2))
    /\ (List.length (failed page_links fetched) = 1%nat ->
        List.length (extracted page_links fetched) = (List.length page_links - 1)%nat)
    /\ (extracted page_links fetched <> [] -> file w2 = Some (output_file, all_samples'))
    /\ scraping_loop srv base_url (S fuel) output_file year page t all_samples w
       = (if end_range >=? t
          then (Some (all_samples', page), emit (Info_reached_end page) w2)
          else scraping_loop srv base_url fuel output_file year (S page) t all_samples' w2)
    /\ (forall final page' w',
           scraping_loop srv base_url (S fuel) output_file year page t all_samples w
           = (Some (final, page'), w') ->
           exists more,
             final = (all_samples ++ extracted page_links fetched ++ more)%list
             /\ (extracted page_links fetched <> [] ->
                 file w' = Some (output_file, final))).
Proof.
  intros Hcheck Hlinks.
  assert (scraping_loop srv base_url (S fuel) output_file year page t all_samples w
          = (if end_range >=? t
             then (Some (all_samples', page), emit (Info_reached_end page) w2)
             else scraping_loop srv base_url fuel output_file year (S page) t all_samples' w2))
    as Hloop by (cbn [scraping_loop]; now rewrite Hcheck, Hlinks).
  destruct (process_links_trace _ _ _ _ _ _ _ _ _ _ Hlinks)
    as (fetched & evs & Hlen & E & L & LE & Hsrv & K & F0 & F1).
  pose proof (extracted_failed_length page_links fetched Hlen) as N.
  exists fetched, evs.
  split; [exact Hlen|]. split; [exact Hsrv|]. split; [exact E|]. split; [exact L|].
  split; [exact LE|]. split; [exact N|].
  split; [|split; [lia|split; [exact F1|split; [exact Hloop|]]]].
  - intros link e Hin. destruct (failed_In _ _ _ _ Hin) as (Hl & He).
    split; [exact Hl|]. split; [exact He|].
    rewrite L. apply in_or_app. right. apply link_errors_In. now rewrite LE.
  - intros final page' w' H.
    pose proof (scraping_loop_full _ _ _ _ _ _ _ _ _ _ _ _ H) as (recs & Ef & _ & S & _).
    rewrite Hloop in H. subst all_samples'.
    assert (exists more, final = (all_samples ++ extracted page_links fetched ++ more)%list)
      as (more & Em).
    { destruct (end_range >=? t).
      - injection H as <- _ _. exists []. now rewrite !app_nil_r.
      - apply scraping_loop_prefix in H as (more & ->). exists more. now rewrite app_assoc. }
    exists more. split; [exact Em|]. intros Ne.
    destruct S as [(-> & _) | S]; [|exact S].
    rewrite app_nil_r in Ef. rewrite Ef in Em.
    rewrite <- (app_nil_r all_samples) in Em at 1. apply app_inv_head in Em.
    destruct (extracted page_links fetched); [contradiction | discriminate].
Qed.

Lemma one_failed_link_is_skipped_witness :
  exists fetched evs,
    fst small_run = ([] ++ extracted small_links fetched)%list
    /\ log (snd small_run) = (log small_checked ++ evs)%list
    /\ failed small_links fetched
       = [(asn ++ "/wikibase/2", Request_failed (asn ++ "/wikibase/2"))]
    /\ List.length (extracted small_links fetched) = 1%nat
    /\ file (snd small_run) = Some ("output/asn_accidents_2024.csv", fst small_run)
    /\ In (Error_processing_link (asn ++ "/wikibase/2") (Request_failed (asn ++ "/wikibase/2")))
          (log (snd small_run)).
Proof.
  destruct (one_failed_link_is_skipped
              small_site asn "output/asn_accidents_2024.csv" 2024 1%nat 3 [] start_world 0%nat
              1 2 small_links small_checked (fst small_run) (snd small_run)
              eq_refl (surjective_pairing small_run))
    as (fetched & evs & _ & _ & E & L & LE & _ & F & One & S & _).
  assert (log (snd small_run)
          = (log small_checked ++
             [Info_processing_accident 1 2 1; Info_progress_saved 1;
              Info_processing_accident 2 2 1;
              Warning_attempt 1 (asn ++ "/wikibase/2");
              Warning_attempt 2 (asn ++ "/wikibase/2");
              Warning_attempt 3 (asn ++ "/wikibase/2");
              Error_processing_link (asn ++ "/wikibase/2")
                                    (Request_failed (asn ++ "/wikibase/2"))])%list)
    as Hlog by reflexivity.
  assert (failed small_links fetched
          = [(asn ++ "/wikibase/2", Request_failed (asn ++ "/wikibase/2"))]) as Hf.
  { rewrite <- LE. rewrite Hlog in L. apply app_inv_head in L. now subst evs. }
  assert (List.length (extracted small_links fetched) = 1%nat) as H1
      by (apply One; now rewrite Hf).
  exists fetched, evs.
  split; [exact E|]. split; [exact L|]. split; [exact Hf|]. split; [exact H1|].
  split.
  - apply S. intros Ex. rewrite Ex in H1. discriminate.
  - apply (F (asn ++ "/wikibase/2") (Request_failed (asn ++ "/wikibase/2"))).
    rewrite Hf. now left.
Defined.

(** ** The record of a detail page *)

Lemma process_row_unknown details row :
  (forall key value, row_entry row = Some (key, value) -> dict_mem key details = false) ->
  process_row details row = details.
Proof.
  intros H. unfold process_row. destruct (row_entry row) as [[key value]|] eqn:E; [|reflexivity].
  now rewrite (H key value eq_refl).
Qed.

Lemma process_rows_unknown rows details :
  (forall row key value, In row rows -> row_entry row = Some (key, value) ->
                         dict_mem key details = false) ->
  fold_left process_row rows details = details.
Proof.
  induction rows as [|row rows IH]; intros H; [reflexivity|]. cbn [fold_left].
  rewrite process_row_unknown by (intros key value; apply H; now left).
  apply IH. intros r key value Hin. apply H. now right.
Qed.

Lemma not_field_name key url :
  ~ In key field_names -> dict_mem key (initial_details url) = false.
Proof.
  intros N. rewrite dict_mem_keys. change (keys (initial_details url)) with field_names.
  destruct (mem_string key field_names) eqn:E; [|reflexivity].
  unfold mem_string in E. apply existsb_exists in E as (k & Hin & Hk).
  apply String.eqb_eq in Hk as <-. contradiction.
Qed.

(** C8 (as amended): the extractor reads the rows of the first table of
    the page, in order.  A row of two cells or more whose first cell reads
    as a known field name sets that field to the text of the second cell
    and leaves the others alone, so the record holds, for a field, the text
    of the last such row; a row with any other key changes nothing, and a
    page with no table or with no known key gives the record it started
    from; a field other than URL that no scanned row offers stays the empty
    string, and URL, when not offered, stays the address the record was
    fetched from; whatever the document, the extractor returns a record
    with the twenty fixed fields in their fixed order. *)
Theorem detail_rows_fill_fields :
  (forall details row c0 c1 cells,
      find_all "td" row = c0 :: c1 :: cells ->
      dict_mem (rstrip_colon (get_text_strip c0)) details = true ->
      dict_get (rstrip_colon (get_text_strip c0)) (process_row details row)
      = Some (get_text_strip c1)
      /\ keys (process_row details row) = keys details
      /\ forall name, name <> rstrip_colon (get_text_strip c0) ->
                      dict_get name (process_row details row) = dict_get name details)
  /\ (forall details row key value,
      row_entry row = Some (key, value) ->
      dict_mem key details = false ->
      process_row details row = details)
  /\ (forall soup url main_table tables rows1 row rows2 c0 c1 cells,
      find_all "table" soup = main_table :: tables ->
      find_all "tr" main_table = (rows1 ++ row :: rows2)%list ->
      find_all "td" row = c0 :: c1 :: cells ->
      In (rstrip_colon (get_text_strip c0)) field_names ->
      never_offered (rstrip_colon (get_text_strip c0)) rows2 ->
      dict_get (rstrip_colon (get_text_strip c0)) (details_of soup url)
      = Some (get_text_strip c1))
  /\ (forall soup url,
      find_all "table" soup = [] \/
      (forall row key value,
          In row (detail_rows soup) -> row_entry row = Some (key, value) ->
          ~ In key field_names) ->
      details_of soup url = initial_details url)
  /\ (forall soup url name,
      In name field_names ->
      never_offered name (detail_rows soup) ->
      dict_get name (details_of soup url)
      = Some (if String.eqb name "URL" then url else ""))
  /\ (forall soup url, keys (details_of soup url) = field_names)
  /\ (forall srv url w soup w1,
      _make_request srv url w = (Ok soup, w1) ->
      _extract_accident_details srv url w = (Ok (details_of soup url), w1)).
Proof.
  split; [|split; [|split; [|split; [|split; [|split]]]]].
  - intros details row c0 c1 cells Hcells Hmem.
    assert (process_row details row
            = dict_set (rstrip_colon (get_text_strip c0)) (get_text_strip c1) details) as E.
    { unfold process_row, row_entry. now rewrite Hcells, Hmem. }
    rewrite E. split; [now apply dict_get_set_same|].
    split; [now apply dict_set_keys|].
    intros name N. now apply dict_get_set_other.
  - intros details row key value Hrow Hmem.
    unfold process_row. now rewrite Hrow, Hmem.
  - intros soup url main_table tables rows1 row rows2 c0 c1 cells Ht Hr Hc Hkey Hlater.
    assert (row_entry row = Some (rstrip_colon (get_text_strip c0), get_text_strip c1)) as Hrow
        by (unfold row_entry; now rewrite Hc).
    unfold details_of. rewrite Ht, Hr, fold_left_app. cbn [fold_left].
    rewrite process_rows_other by assumption.
    rewrite (process_row_set _ row _ _ Hrow).
    + apply dict_get_set_same.
      rewrite dict_mem_keys, process_rows_keys. now apply mem_string_In.
    + rewrite dict_mem_keys, process_rows_keys. now apply mem_string_In.
  - intros soup url [Hnone | Hunknown].
    + unfold details_of. now rewrite Hnone.
    + rewrite details_of_rows. apply process_rows_unknown.
      intros row key value Hin Hrow. apply not_field_name. now apply (Hunknown row key value).
  - intros soup url name Hin Hnever.
    rewrite details_of_rows, process_rows_other by assumption.
    now apply initial_details_get.
  - intros soup url. rewrite details_of_rows, process_rows_keys. reflexivity.
  - intros srv url w soup w1. apply extract_accident_details_ok.
Qed.

Lemma detail_rows_fill_fields_witness :
  dict_get "Date" (process_row (initial_details sample_url) date_row) = Some "2024-01-05"
  /\ process_row (initial_details sample_url) narrative_row = initial_details sample_url
  /\ dict_get "Date" (details_of corrected_doc sample_url) = Some "2024-01-06"
  /\ details_of bare_doc sample_url = initial_details sample_url
  /\ dict_get "Time" (details_of (detail_doc [("Date:", "2024-01-05")]) sample_url) = Some ""
  /\ keys (details_of (detail_doc [("Date:", "2024-01-05")]) sample_url) = field_names
  /\ _extract_accident_details
       (static_site [(sample_url, detail_doc [("Date:", "2024-01-05")])])
       sample_url start_world
     = (Ok (details_of (detail_doc [("Date:", "2024-01-05")]) sample_url), tick start_world).
Proof.
  destruct detail_rows_fill_fields as (Hset & Hskip & Hlast & Hnone & Hrest & Hkeys & Hrun).
  split; [|split; [|split; [|split; [|split; [|split]]]]].
  - apply (Hset (initial_details sample_url) date_row
                (Tag "td" [] [Text "Date:"]) (Tag "td" [] [Text " 2024-01-05 "]) []);
      reflexivity.
  - apply (Hskip _ narrative_row "Narrative" "Runway excursion"); reflexivity.
  - apply (Hlast corrected_doc sample_url
                 (Tag "table" []
                    [Tag "tr" [] [Tag "td" [("class", "caption")] [Text "Date:"];
                                  Tag "td" [("class", "desc")] [Text "2024-01-05"]];
                     Tag "tr" [] [Tag "td" [("class", "caption")] [Text "Type:"];
                                  Tag "td" [("class", "desc")] [Text "Cessna 172"]];
                     Tag "tr" [] [Tag "td" [("class", "caption")] [Text "Date:"];
                                  Tag "td" [("class", "desc")] [Text "2024-01-06"]]])
                 []
                 [Tag "tr" [] [Tag "td" [("class", "caption")] [Text "Date:"];
                               Tag "td" [("class", "desc")] [Text "2024-01-05"]];
                  Tag "tr" [] [Tag "td" [("class", "caption")] [Text "Type:"];
                               Tag "td" [("class", "desc")] [Text "Cessna 172"]]]
                 (Tag "tr" [] [Tag "td" [("class", "caption")] [Text "Date:"];
                               Tag "td" [("class", "desc")] [Text "2024-01-06"]])
                 []
                 (Tag "td" [("class", "caption")] [Text "Date:"])
                 (Tag "td" [("class", "desc")] [Text "2024-01-06"]) []);
      try reflexivity.
    + simpl. tauto.
    + intros r k v [].
  - apply Hnone. left. reflexivity.
  - apply (Hrest (detail_doc [("Date:", "2024-01-05")]) sample_url "Time").
    + simpl. tauto.
    + apply never_offered_by_rows. reflexivity.
  - apply Hkeys.
  - apply Hrun. reflexivity.
Defined.

(** ** The links of a page, row by row *)

Lemma find_first {A} (p : A -> bool) before x after :
  forallb (fun a => negb (p a)) before = true -> p x = true ->
  List.find p (before ++ x :: after) = Some x.
Proof.
  induction before as [|b before IH]; intros Hb Hx; simpl.
  - now rewrite Hx.
  - simpl in Hb. apply andb_true_iff in Hb as [Hb1 Hb2].
    apply negb_true_iff in Hb1. rewrite Hb1. now apply IH.
Qed.

Lemma find_none {A} (p : A -> bool) l :
  forallb (fun a => negb (p a)) l = true -> List.find p l = None.
Proof.
  induction l as [|b l IH]; intros Hb; simpl; [reflexivity|].
  simpl in Hb. apply andb_true_iff in Hb as [Hb1 Hb2].
  apply negb_true_iff in Hb1. rewrite Hb1. now apply IH.
Qed.

(** X6: the links of a listing page are read row by row, in the order of
    the rows of the table of class hp, leaving out its first row.  A row
    gives the site's address followed by the [href] of its first anchor; a
    row whose first anchor has no [href], or that has no anchor, gives
    nothing, whatever comes after.  The only error is the missing table. *)
Theorem page_links_shape base_url :
  (forall soup links,
      _get_page_links base_url soup = Ok links ->
      exists table,
        find_with "table" "class" "hp" soup = Some table
        /\ links = flat_map (row_link base_url) (List.tl (find_all "tr" table))
        /\ (List.length links <= List.length (find_all "tr" table) - 1)%nat)
  /\ (forall row before attrs children after href,
      descendants row = (before ++ Tag "a" attrs children :: after)%list ->
      no_anchor before = true ->
      assoc "href" attrs = Some href ->
      row_link base_url row = [base_url ++ href])
  /\ (forall row before attrs children after,
      descendants row = (before ++ Tag "a" attrs children :: after)%list ->
      no_anchor before = true ->
      assoc "href" attrs = None ->
      row_link base_url row = [])
  /\ (forall row, no_anchor (descendants row) = true -> row_link base_url row = [])
  /\ (forall soup e,
      _get_page_links base_url soup = Err e ->
      e = Table_not_found /\ find_with "table" "class" "hp" soup = None).
Proof.
  split; [|split; [|split; [|split]]].
  - intros soup links H. unfold _get_page_links in H.
    destruct (find_with "table" "class" "hp" soup) as [table|]; [|discriminate].
    injection H as <-. exists table. split; [reflexivity|]. split; [reflexivity|].
    destruct (rows_links_shape base_url (List.tl (find_all "tr" table))) as (hrefs & E & L).
    rewrite E, length_map. destruct (find_all "tr" table); simpl in *; lia.
  - intros row before attrs children after href Hd Hb Hh.
    unfold row_link, find_tag. rewrite Hd, (find_first (is_tag "a")) by easy.
    now rewrite Hh.
  - intros row before attrs children after Hd Hb Hh.
    unfold row_link, find_tag. rewrite Hd, (find_first (is_tag "a")) by easy.
    now rewrite Hh.
  - intros row Hb. unfold row_link, find_tag. now rewrite (find_none (is_tag "a")).
  - intros soup e H. unfold _get_page_links in H.
    destruct (find_with "table" "class" "hp" soup); [discriminate|].
    injection H as <-. now split.
Qed.

Lemma page_links_shape_witness :
  _get_page_links asn mixed_rows_doc = Ok [asn ++ "/wikibase/1"; asn ++ "/wikibase/4"]
  /\ row_link asn (Tag "tr" [] [Tag "td" [] [Tag "a" [("href", "/wikibase/1")] [Text "1"];
                                             Tag "a" [("href", "/photo/1")] [Text "photo"]]])
     = [asn ++ "/wikibase/1"]
  /\ row_link asn (Tag "tr" [] [Tag "td" [] [Tag "a" [("name", "x")] [Text "2"];
                                             Tag "a" [("href", "/wikibase/2")] [Text "2"]]])
     = []
  /\ row_link asn (Tag "tr" [] [Tag "td" [] [Text "no link"]]) = [].
Proof.
  destruct (page_links_shape asn) as (Hrows & Hfirst & Hbare & Hnone & _).
  split; [|split; [|split]].
  - destruct (Hrows mixed_rows_doc [asn ++ "/wikibase/1"; asn ++ "/wikibase/4"] eq_refl)
      as (table & Ht & El & _).
    injection Ht as <-. reflexivity.
  - apply (Hfirst _ [Tag "td" [] [Tag "a" [("href", "/wikibase/1")] [Text "1"];
                                  Tag "a" [("href", "/photo/1")] [Text "photo"]]]
                  [("href", "/wikibase/1")] [Text "1"]
                  [Text "1"; Tag "a" [("href", "/photo/1")] [Text "photo"]; Text "photo"]
                  "/wikibase/1"); reflexivity.
  - apply (Hbare _ [Tag "td" [] [Tag "a" [("name", "x")] [Text "2"];
                                 Tag "a" [("href", "/wikibase/2")] [Text "2"]]]
                 [("name", "x")] [Text "2"]
                 [Text "2"; Tag "a" [("href", "/wikibase/2")] [Text "2"]; Text "2"]);
      reflexivity.
  - apply Hnone. reflexivity.
Defined.

(** ** The records of a crawl *)

Lemma scraping_loop_fetched srv base_url output_file year total_accidents fuel :
  forall page all_samples w final page' w',
    scraping_loop srv base_url fuel output_file year page total_accidents all_samples w
    = (Some (final, page'), w') ->
    (clock w <= clock w')%nat
    /\ exists recs,
        final = (all_samples ++ recs)%list
        /\ Forall (fun d => exists soup url k,
                       (clock w <= k < clock w')%nat /\ srv k url = Body soup
                       /\ d = details_of soup url) recs.
Proof.
  induction fuel as [|fuel IH]; intros page all_samples w final page' w' H;
    cbn [scraping_loop] in H; [discriminate|].
  pose proof (clock_grows_check_page srv base_url year page total_accidents
                                     (emit (Info_processing_page page) w)) as K0.
  destruct (check_page _ _ _ _ _ _) as [[[[sr er] links]|e] w1]; cbn [snd emit clock] in K0.
  - destruct (process_links _ _ _ _ _ _ _ _) as [s2 w2] eqn:E.
    apply process_links_trace in E
      as (fetched & evs & _ & -> & _ & _ & Hsrv & K & _ & _).
    pose proof (extracted_from links
                  (fun link soup => exists k, (clock w1 <= k < clock w2)%nat
                                              /\ srv k link = Body soup)
                  fetched Hsrv) as P.
    destruct (er >=? total_accidents).
    + injection H as <- _ <-. cbn [clock emit]. split; [lia|].
      exists (extracted links fetched). split; [reflexivity|].
      eapply Forall_impl; [|exact P].
      intros d (soup & url & _ & (k & Hk & B) & ->). exists soup, url, k.
      split; [lia|]. now split.
    + apply IH in H as (K2 & more & -> & Pm). split; [lia|].
      exists (extracted links fetched ++ more)%list. rewrite app_assoc.
      split; [reflexivity|]. apply Forall_app. split.
      * eapply Forall_impl; [|exact P].
        intros d (soup & url & _ & (k & Hk & B) & ->). exists soup, url, k.
        split; [lia|]. now split.
      * eapply Forall_impl; [|exact Pm].
        intros d (soup & url & k & Hk & B & ->). exists soup, url, k.
        split; [lia|]. now split.
  - injection H as <- _ <-. cbn [clock emit]. split; [lia|].
    exists []. rewrite app_nil_r. split; [reflexivity | constructor].
Qed.

(** X10: every record [scrape_year] returns is read from a document the
    site served, during the crawl, at the address the record was fetched
    from, and it carries the twenty field names, in their fixed order. *)
Theorem returned_records_have_schema srv base_url fuel proceed year output_dir w df w' :
  scrape_year srv base_url fuel proceed year output_dir w = (Some (Returns df), w') ->
  Forall (fun d => keys d = field_names
                   /\ exists soup url k,
                       (clock w <= k < clock w')%nat /\ srv k url = Body soup
                       /\ d = details_of soup url) df.
Proof.
  intros H. apply scrape_year_cases in H as [(-> & _) | H]; [constructor|].
  destruct H as (page_a & total & counts & wa & page' & w3 & Ha & _ & Hs & _ & Hc).
  pose proof (analysis_loop_clock srv base_url fuel year 1 None []
                                  (emit (Print_analyzing year) w)) as Ka.
  rewrite Ha in Ka. cbn [snd emit clock] in Ka.
  apply scraping_loop_fetched in Hs as (Ks & recs & -> & P). cbn [app emit clock] in *.
  eapply Forall_impl; [|exact P]. intros d (soup & url & k & Hk & B & ->).
  split; [rewrite details_of_rows, process_rows_keys; reflexivity|].
  exists soup, url, k. split; [lia|]. now split.
Qed.

Lemma returned_records_have_schema_witness :
  Forall (fun d => keys d = field_names
                   /\ exists soup url k,
                       (0 <= k < 9)%nat /\ small_site k url = Body soup
                       /\ d = details_of soup url)
         [details_of (detail_doc [("Date:", "2024-01-05"); ("Type:", "Cessna 172")])
                     (asn ++ "/wikibase/1");
          details_of (detail_doc [("Date:", "2024-02-11"); ("Type:", "Boeing 737")])
                     (asn ++ "/wikibase/3")].
Proof.
  apply (returned_records_have_schema small_site asn 5%nat "y" 2024 "output" start_world _
           (World 9 (log (snd (scrape_year small_site asn 5%nat "y" 2024 "output" start_world)))
                  (file (snd (scrape_year small_site asn 5%nat "y" 2024 "output"
                                          start_world))))).
  reflexivity.
Defined.

(** X18: on a site whose replies do not change, a crawl whose analysis was
    confirmed and accepted, into a directory that [os.makedirs] takes,
    returns with the fuel that was enough for the analysis: the scraping
    loop walks the same listing pages and either reaches the last page of
    the analysis or stops at one of its pages on a link count that does not
    fit its range; no listing page fails to be fetched or analyzed, and
    none reports another total.  What it returns is in the output file. *)
Theorem unchanged_site_is_rescraped
        srv base_url fuel proceed year output_dir w page_a total counts wa :
  unchanging srv ->
  analysis_loop srv base_url fuel year 1 None [] (emit (Print_analyzing year) w)
  = (Some (Confirmed page_a total counts), wa) ->
  lower proceed = "y" ->
  makedirs output_dir = None ->
  exists df w',
    scrape_year srv base_url fuel proceed year output_dir w = (Some (Returns df), w')
    /\ file w' = Some (output_path output_dir year, df)
    /\ (In (Info_reached_end page_a) (log w')
        \/ exists page' expected got,
            (page' <= page_a)%nat
            /\ In (Error_processing_page page' (Links_mismatch expected got)) (log w')).
Proof.
  intros U Ha Hp Hd.
  destruct (unchanging_rescrape srv base_url year (output_path output_dir year) fuel U
              _ _ _ _ _ _ _ _ Ha []
              (emit Print_starting (emit (Print_found total page_a) wa)))
    as (final & p & w3 & Hs & Hpage & Hend).
  eexists final, _. split.
  - unfold scrape_year. rewrite Ha, Hp, Hd. cbn [String.eqb Ascii.eqb Bool.eqb negb].
    rewrite Hs. reflexivity.
  - split; [reflexivity|]. cbn [log emit to_csv].
    destruct Hend as [(_ & Hin) | (expected & got & Hin)].
    + left. apply in_or_app. left. apply in_or_app. now left.
    + right. exists p, expected, got. split; [lia|].
      apply in_or_app. left. apply in_or_app. now left.
Qed.

Lemma unchanged_site_is_rescraped_witness :
  exists df w',
    scrape_year small_site asn 2 "Y" 2024 "output" start_world = (Some (Returns df), w')
    /\ file w' = Some (output_path "output" 2024, df)
    /\ (In (Info_reached_end 2) (log w')
        \/ exists page' expected got,
            (page' <= 2)%nat
            /\ In (Error_processing_page page' (Links_mismatch expected got)) (log w')).
Proof.
  apply (unchanged_site_is_rescraped small_site asn 2%nat "Y" 2024 "output" start_world
           2%nat 3 [2; 1]%nat
           (World 2 [Print_analyzing 2024; Print_page 1 2 1 2; Print_page 2 1 3 3] None)).
  - intros n m url. reflexivity.
  - reflexivity.
  - reflexivity.
  - reflexivity.
Defined.

(** ** The output directory *)



